(** * ipaserver/install/adtrustinstance.py: a shallow embedding

    The AD trust installer of FreeIPA: NetBIOS name handling, domain SID
    generation, the admin SID and RID base steps, the step list of
    [create_instance] and the service part of [uninstall].

    Python values are modelled as the code uses them: byte strings as
    [string], text ([unicode]) as the list of its code points, integers as
    [Z], dictionaries as [gmap], exceptions as an error type threaded
    through an effect log. *)

From Stdlib Require Import ZArith String Ascii List Bool Lia.
From Stdlib Require Import Strings.Byte DecimalString DecimalPos DecimalZ.
From stdpp Require Import base option gmap strings list.

Import ListNotations.
Local Open Scope Z_scope.

(* ===================================================================== *)
(** * Python string primitives used by the module *)
(* ===================================================================== *)

Module Py.

(** Iterating over a [str] yields its characters. *)
Definition chars (s : string) : list ascii := list_ascii_of_string s.

(** A one-character string, the element type of [for c in s]. *)
Definition str1 (c : ascii) : string := String c EmptyString.

(** [sep.join(l)]. *)
Definition join (sep : string) (l : list string) : string :=
  String.concat sep l.

(** Truth value of a string: empty is false. *)
Definition truthy (s : string) : bool :=
  match s with
  | EmptyString => false
  | String _ _ => true
  end.

(** [c in s] for a one-character [c]: [c] occurs in [s]. *)
Fixpoint contains (c : ascii) (s : string) : bool :=
  match s with
  | EmptyString => false
  | String d s' => Ascii.eqb c d || contains c s'
  end.

(** [str.upper()] on a byte string: only [a]..[z] change. *)
Definition upper_char (c : ascii) : ascii :=
  let n := nat_of_ascii c in
  if (Nat.leb 97 n && Nat.leb n 122)%bool then ascii_of_nat (n - 32) else c.

Fixpoint upper (s : string) : string :=
  match s with
  | EmptyString => EmptyString
  | String c s' => String (upper_char c) (upper s')
  end.

(** [s.split(sep)] for a one-character separator.  The result always
    has at least one piece; the empty string splits to one empty piece. *)
Fixpoint split (sep : ascii) (s : string) : list string :=
  match s with
  | EmptyString => [EmptyString]
  | String c s' =>
      if Ascii.eqb c sep then EmptyString :: split sep s'
      else match split sep s' with
           | [] => [str1 c]
           | p :: ps => String c p :: ps
           end
  end.

(** [l[i]]: [None] stands for IndexError. *)
Definition index {A} (l : list A) (i : nat) : option A := nth_error l i.

(** [s[:n]]. *)
Fixpoint slice_to (n : nat) (s : string) : string :=
  match n, s with
  | O, _ => EmptyString
  | S _, EmptyString => EmptyString
  | S n', String c s' => String c (slice_to n' s')
  end.

End Py.

(** The module is Python 2 code (it calls the built-in [unicode]), and a
    host name reaches it as a [str] or as a [unicode]: [api.env.host] is
    text.  A [unicode] is modelled as the list of its code points. *)
Module PyUnicode.

(** A [str] used together with text is decoded as ASCII; the constants of
    this module are ASCII. *)
Definition decode (s : string) : list N :=
  map N_of_ascii (list_ascii_of_string s).

(** A one-character text, the element type of [for c in s]. *)
Definition str1 (c : N) : list N := [c].

(** [''.join(l)]. *)
Definition join (l : list (list N)) : list N := concat l.

(** [c in s] for a one-character [c]. *)
Fixpoint contains (c : N) (s : list N) : bool :=
  match s with
  | [] => false
  | d :: s' => N.eqb c d || contains c s'
  end.

(** [s.upper()]: [unicode.upper] sends every code point through the
    simple upper-case mapping of the Unicode character database that is
    built into the interpreter, one code point to one code point. *)
Definition upper (toupper : N -> N) (s : list N) : list N := map toupper s.

(** [s.split(sep)] for a one-character separator. *)
Fixpoint split (sep : N) (s : list N) : list (list N) :=
  match s with
  | [] => [[]]
  | c :: s' =>
      if N.eqb c sep then [] :: split sep s'
      else match split sep s' with
           | [] => [str1 c]
           | p :: ps => (c :: p) :: ps
           end
  end.

(** [s[:n]]. *)
Definition slice_to (n : nat) (s : list N) : list N := firstn n s.

End PyUnicode.

(** The upper-case table of the interpreter is not part of the repository.
    It is taken as a parameter [toupper]; this is what the Unicode
    character database (UnicodeData.txt, simple upper-case mapping) says
    of it as far as ASCII is concerned: the small letters [a]..[z] go to
    [A]..[Z], every other ASCII character is kept, and outside ASCII only
    two code points have an ASCII upper case, dotless i (U+0131, upper
    case [I]) and long s (U+017F, upper case [S]). *)
Record simple_uppercase (toupper : N -> N) : Prop := {
  toupper_small_letter :
    forall c, (97 <= c <= 122)%N -> toupper c = (c - 32)%N;
  toupper_other_ascii :
    forall c, (c < 128)%N -> ~ (97 <= c <= 122)%N -> toupper c = c;
  toupper_dotless_i : toupper 305%N = 73%N;
  toupper_long_s : toupper 383%N = 83%N;
  toupper_beyond_ascii :
    forall c, (128 <= c)%N -> c <> 305%N -> c <> 383%N ->
              (128 <= toupper c)%N
}.

(* ===================================================================== *)
(** * NetBIOS names (module level functions) *)
(* ===================================================================== *)

Definition ascii_uppercase : string := "ABCDEFGHIJKLMNOPQRSTUVWXYZ".
Definition digits : string := "0123456789".

(** [ALLOWED_NETBIOS_CHARS = string.ascii_uppercase + string.digits] *)
Definition ALLOWED_NETBIOS_CHARS : string := ascii_uppercase +:+ digits.

(** [check_netbios_name(s)] *)
Definition check_netbios_name (s : string) : bool :=
  if (negb (Py.truthy s)
      || Nat.ltb 15 (String.length s)
      || Py.truthy
           (Py.join ""
              (map Py.str1
                 (List.filter
                    (fun c => negb (Py.contains c ALLOWED_NETBIOS_CHARS))
                    (Py.chars s)))))%bool
  then false
  else true.

(** [make_netbios_name(s)]; [None] would be the IndexError of [[0]]. *)
Definition make_netbios_name (s : string) : option string :=
  match Py.index (Py.split "."%char s) 0 with
  | None => None
  | Some first =>
      Some (Py.slice_to 15
              (Py.join ""
                 (map Py.str1
                    (List.filter
                       (fun c => Py.contains c ALLOWED_NETBIOS_CHARS)
                       (Py.chars (Py.upper first))))))
  end.

(** [make_netbios_name(s)] when [s] is a [unicode]: the same expression,
    with the methods of [unicode]; the separator and
    [ALLOWED_NETBIOS_CHARS] are [str] constants, decoded for the
    comparison.  (An empty result is the empty [str] that [''.join([])]
    returns.) *)
Definition make_netbios_name_unicode (toupper : N -> N) (s : list N)
    : option (list N) :=
  match Py.index (PyUnicode.split (N_of_ascii ".") s) 0 with
  | None => None
  | Some first =>
      Some (PyUnicode.slice_to 15
              (PyUnicode.join
                 (map PyUnicode.str1
                    (List.filter
                       (fun c =>
                          PyUnicode.contains c
                            (PyUnicode.decode ALLOWED_NETBIOS_CHARS))
                       (PyUnicode.upper toupper first)))))
  end.

(** The same two functions in the words of the specification, over lists
    of characters: the class [[A-Z0-9]], the label before the first dot,
    the upper-case form of a character. *)
Module NetbiosSpec.

Definition is_AZ09 (c : ascii) : bool :=
  let n := nat_of_ascii c in
  ((Nat.leb 65 n && Nat.leb n 90) || (Nat.leb 48 n && Nat.leb n 57))%bool.

Fixpoint first_label (s : list ascii) : list ascii :=
  match s with
  | [] => []
  | c :: s' => if Ascii.eqb c "."%char then [] else c :: first_label s'
  end.

(** The upper-case form of a character: a small letter has the capital
    that stands at its place in the alphabet, every other character is
    its own upper-case form. *)
Definition small_letters : string := "abcdefghijklmnopqrstuvwxyz".
Definition capital_letters : string := "ABCDEFGHIJKLMNOPQRSTUVWXYZ".

Fixpoint capital_of (c : ascii) (small capital : string) : ascii :=
  match small, capital with
  | String l small', String u capital' =>
      if Ascii.eqb c l then u else capital_of c small' capital'
  | _, _ => c
  end.

Definition uppercase (c : ascii) : ascii :=
  capital_of c small_letters capital_letters.

Definition derive_netbios (fqdn : string) : string :=
  string_of_list_ascii
    (firstn 15
       (List.filter is_AZ09
          (map uppercase (first_label (list_ascii_of_string fqdn))))).

(** For text.  A code point stays in the name when its upper-case form is
    a character of [[A-Z0-9]], and stands there in that form: for an
    ASCII character the form above; outside ASCII two letters have such a
    form, dotless i (U+0131), whose capital is [I], and long s (U+017F),
    whose capital is [S]. *)
Definition upper_AZ09 (c : N) : option N :=
  if (c <? 128)%N then
    let u := uppercase (ascii_of_N c) in
    if is_AZ09 u then Some (N_of_ascii u) else None
  else if (c =? 305)%N then Some (N_of_ascii "I")
  else if (c =? 383)%N then Some (N_of_ascii "S")
  else None.

Fixpoint first_label_text (s : list N) : list N :=
  match s with
  | [] => []
  | c :: s' => if (c =? 46)%N then [] else c :: first_label_text s'
  end.

Definition derive_netbios_text (fqdn : list N) : list N :=
  firstn 15 (omap upper_AZ09 (first_label_text fqdn)).

Definition is_valid_netbios (name : string) : Prop :=
  name <> EmptyString
  /\ (String.length name <= 15)%nat
  /\ Forall (fun c => is_AZ09 c = true) (list_ascii_of_string name).

End NetbiosSpec.

(* ===================================================================== *)
(** * Domain SID generation *)
(* ===================================================================== *)

Module Struct.

Definition byte_val (b : byte) : Z := Z.of_N (Byte.to_N b).

(** One [L] field of a ["<..."] format: four bytes, least significant
    byte first. *)
Definition uint32_le (b0 b1 b2 b3 : byte) : Z :=
  Z.lor (Z.lor (Z.lor (byte_val b0) (Z.shiftl (byte_val b1) 8))
               (Z.shiftl (byte_val b2) 16))
        (Z.shiftl (byte_val b3) 24).

(** [struct.unpack("<LLL", data)]; [None] is struct.error (the data is
    not 12 bytes long). *)
Definition unpack_LLL (data : list byte) : option (Z * Z * Z) :=
  match data with
  | [a0; a1; a2; a3; b0; b1; b2; b3; c0; c1; c2; c3] =>
      Some (uint32_le a0 a1 a2 a3, uint32_le b0 b1 b2 b3,
            uint32_le c0 c1 c2 c3)
  | _ => None
  end.

End Struct.

(** ["%d" % n] and [str(n)] for an integer: decimal digits, a leading
    minus sign for negative numbers, ["0"] for zero. *)
Definition fmt_d (n : Z) : string := NilZero.string_of_int (Z.to_int n).

(** [__gen_sid_string], on the 12 bytes returned by [os.urandom(12)]. *)
Definition gen_sid_string (urandom12 : list byte) : option string :=
  match Struct.unpack_LLL urandom12 with
  | None => None
  | Some (s0, s1, s2) =>
      Some ("S-1-5-21-" +:+ fmt_d s0 +:+ "-" +:+ fmt_d s1 +:+ "-" +:+ fmt_d s2)
  end.

(** The reading of the specification: a little-endian unsigned number is
    the sum of its bytes weighted by powers of 256, printed without sign. *)
Module SidSpec.

Fixpoint le_value (bs : list byte) : Z :=
  match bs with
  | [] => 0
  | b :: bs' => Struct.byte_val b + 256 * le_value bs'
  end.

Definition decimal (n : Z) : string :=
  NilZero.string_of_uint (N.to_uint (Z.to_N n)).

Definition sid_of (a b c : Z) : string :=
  "S-1-5-21-" +:+ decimal a +:+ "-" +:+ decimal b +:+ "-" +:+ decimal c.

End SidSpec.

(* ===================================================================== *)
(** * The directory connection, exceptions and the effect log *)
(* ===================================================================== *)

(** Attribute values as the code meets them: numbers and strings; an
    absent attribute is [None] ([single_value.get] returns None). *)
Inductive pyval :=
| PyInt (z : Z)
| PyStr (s : string).

Definition val_truthy (v : option pyval) : bool :=
  match v with
  | None => false
  | Some (PyInt z) => negb (z =? 0)
  | Some (PyStr s) => Py.truthy s
  end.

(** A distinguished name: its RDNs, leftmost first. *)
Definition DN := list (string * string).

Record Entry := { dn : DN; single_value : gmap string pyval }.

Inductive exn :=
| RuntimeError (msg : string)
| NotFound                               (* ipalib.errors.NotFound *)
| CONSTRAINT_VIOLATION (info : string)   (* ldap.CONSTRAINT_VIOLATION *)
| TypeError
| IndexError
| OtherError (name : string).

(** Values kept by the state store: a boolean or a string. *)
Inductive sval :=
| SBool (b : bool)
| SStr (s : string).

Definition sval_truthy (v : option sval) : bool :=
  match v with
  | None => false
  | Some (SBool b) => b
  | Some (SStr s) => Py.truthy s
  end.

Inductive mod_op := MOD_ADD | MOD_REPLACE.
Definition modlist := list (mod_op * string * string).

Inductive scope := SCOPE_ONELEVEL | SCOPE_SUBTREE.

Inductive event :=
| PrintMsg (s : string)                  (* self.print_msg *)
| LogCritical (s : string)               (* root_logger.critical *)
| ModifyS (target : DN) (mods : modlist) (* admin_conn.modify_s called *)
| SvcStop (name : string)
| SvcDisable (name : string)
| SetSelinuxBooleans (settings : list (string * option sval))
| RemoveFile (path : string)
| RunCmd (args : list string).

(** The directory gateway: [self.admin_conn], a connection of ipapython
    that is not part of this file, taken as an interface over a directory
    state [D].  A read returns the entries or the exception raised; a
    write returns the new state or the exception raised. *)
Record Directory (D : Type) := {
  get_entry : D -> DN -> exn + Entry;
  get_entries : D -> DN -> scope -> string -> exn + list Entry;
  modify_s : D -> DN -> modlist -> exn + D
}.
Arguments get_entry {D}.
Arguments get_entries {D}.
Arguments modify_s {D}.

(** What a method leaves behind: the exception it raised, if any, the
    directory, and what it printed, logged and called, oldest first. *)
Record outcome (D : Type) := Outcome {
  raised : option exn;
  dir_after : D;
  log : list event
}.
Arguments Outcome {D}.
Arguments raised {D}.
Arguments dir_after {D}.
Arguments log {D}.

(** The attributes of the instance and of [api.env] read by the methods
    modelled here. *)
Record ADTRUSTInstance := {
  rid_base : Z;
  secondary_rid_base : Z;
  suffix : DN;
  smb_dom_dn : DN;
  enable_compat : bool;
  add_sids : bool;
  container_user : DN;
  container_group : DN;
  container_ranges : DN;
  smb_conf : string;
  samba_keytab : string;
  cifs_principal : string
}.

Definition ATTR_SID : string := "ipaNTSecurityIdentifier".
Definition OBJC_USER : string := "ipaNTUserAttrs".
Definition OBJC_GROUP : string := "ipaNTGroupAttrs".

(** [a > b] of Python 2 for an integer [a]: against a number the numeric
    order; None is smaller than everything; a number is smaller than any
    string. *)
Definition py2_int_gt (a : Z) (b : option pyval) : bool :=
  match b with
  | None => true
  | Some (PyInt z) => z <? a
  | Some (PyStr _) => false
  end.

(** ["...%d..." % v]: a number is required. *)
Definition fmt_d_val (v : option pyval) : option string :=
  match v with
  | Some (PyInt z) => Some (fmt_d z)
  | _ => None
  end.

(** [v + "-500"]: string concatenation, TypeError on anything else. *)
Definition str_add (v : option pyval) (suffix : string) : option string :=
  match v with
  | Some (PyStr s) => Some (s +:+ suffix)
  | _ => None
  end.

Definition nl : string := String (ascii_of_nat 10) EmptyString.

(* ===================================================================== *)
(** * The admin SID and RID base steps *)
(* ===================================================================== *)

(** [no_rid_base_set = lambda r: not any((..., ...))] *)
Definition no_rid_base_set (r : Entry) : bool :=
  negb (val_truthy (single_value r !! "ipaBaseRID")
        || val_truthy (single_value r !! "ipaSecondaryBaseRID")).

Definition ranges_filter : string := "(objectclass=ipaDomainIDRange)".

Definition rid_mods (self : ADTRUSTInstance) : modlist :=
  [(MOD_ADD, "ipaBaseRID", fmt_d (rid_base self));
   (MOD_ADD, "ipaSecondaryBaseRID", fmt_d (secondary_rid_base self))].

Definition too_close_msg (size : string) : string :=
  "Primary and secondary RID base are too close. "
  +:+ "They have to differ at least by " +:+ size +:+ ".".

Definition admin_dn (self : ADTRUSTInstance) : DN :=
  ("uid", "admin") :: container_user self ++ suffix self.

Definition admin_group_dn (self : ADTRUSTInstance) : DN :=
  ("cn", "admins") :: container_group self ++ suffix self.

(** The modification list of the two writes of [__add_admin_sids]. *)
Definition sid_mods (objc sid : string) : modlist :=
  [(MOD_ADD, "objectclass", objc); (MOD_ADD, ATTR_SID, sid)].

Section Methods.

Context {D : Type} (conn : Directory D).

(** The body of the [try] of [__add_rid_bases]. *)
Definition add_rid_bases_try (self : ADTRUSTInstance) (d : D) : outcome D :=
  match get_entries conn d (container_ranges self ++ suffix self)
          SCOPE_ONELEVEL ranges_filter with
  | inl e => Outcome (Some e) d []
  | inr ranges =>
      let ranges_with_no_rid_base := List.filter no_rid_base_set ranges in
      if (length ranges_with_no_rid_base =? 0)%nat then
        Outcome None d [PrintMsg "RID bases already set, nothing to do"]
      else if negb (length ranges_with_no_rid_base =? 1)%nat then
        Outcome (Some (RuntimeError ("Too many ID ranges" +:+ nl))) d
          [LogCritical ("Found more than one local domain ID "
                        +:+ "range with no RID base set.")]
      else
        match Py.index ranges_with_no_rid_base 0 with
        | None => Outcome (Some IndexError) d []
        | Some local_range =>
            let size := single_value local_range !! "ipaIDRangeSize" in
            if py2_int_gt
                 (Z.abs (rid_base self - secondary_rid_base self)) size
            then
              match fmt_d_val size with
              | None => Outcome (Some TypeError) d []
              | Some sz =>
                  Outcome (Some (RuntimeError ("RID bases too close." +:+ nl)))
                    d [PrintMsg (too_close_msg sz)]
              end
            else
              let call := ModifyS (dn local_range) (rid_mods self) in
              match modify_s conn d (dn local_range) (rid_mods self) with
              | inr d' => Outcome None d' [call]
              | inl (CONSTRAINT_VIOLATION info) =>
                  Outcome
                    (Some (RuntimeError ("Constraint violation." +:+ nl)))
                    d
                    [call;
                     PrintMsg ("Failed to add RID bases to the local range "
                               +:+ "object:" +:+ nl +:+ "  " +:+ info)]
              | inl e => Outcome (Some e) d [call]
              end
        end
  end.

(** [__add_rid_bases]: the [try] body under [except errors.NotFound]. *)
Definition add_rid_bases (self : ADTRUSTInstance) (d : D) : outcome D :=
  let o := add_rid_bases_try self d in
  match raised o with
  | Some NotFound =>
      Outcome (Some NotFound) (dir_after o)
        (log o ++ [LogCritical ("ID range of the local domain not found, "
                                +:+ "define it and run again.")])
  | _ => o
  end.

(** One of the two [if ... else: try: modify_s(...) except: print_msg]
    blocks of [__add_admin_sids]: [entry] is the entry read before,
    [rid] the suffix appended to the domain SID. *)
Definition set_sid_unless_present (d : D) (entry : Entry) (target : DN)
    (objc : string) (dom_sid : option pyval) (rid : string)
    (present_msg fail_msg : string) : D * list event :=
  if val_truthy (single_value entry !! ATTR_SID) then
    (d, [PrintMsg present_msg])
  else
    match str_add dom_sid rid with
    | None => (d, [PrintMsg fail_msg])
    | Some sid =>
        match modify_s conn d target (sid_mods objc sid) with
        | inr d' => (d', [ModifyS target (sid_mods objc sid)])
        | inl _ =>
            (d, [ModifyS target (sid_mods objc sid); PrintMsg fail_msg])
        end
    end.

(** [__add_admin_sids] *)
Definition add_admin_sids (self : ADTRUSTInstance) (d : D) : outcome D :=
  match get_entry conn d (smb_dom_dn self) with
  | inl NotFound => Outcome None d [PrintMsg "Samba domain object not found"]
  | inl e => Outcome (Some e) d []
  | inr dom_entry =>
      let dom_sid := single_value dom_entry !! ATTR_SID in
      if negb (val_truthy dom_sid) then
        Outcome None d [PrintMsg "Samba domain object does not have a SID"]
      else
        match get_entry conn d (admin_dn self) with
        | inl _ => Outcome None d [PrintMsg "IPA admin object not found"]
        | inr admin_entry =>
            match get_entry conn d (admin_group_dn self) with
            | inl _ =>
                Outcome None d [PrintMsg "IPA admin group object not found"]
            | inr admin_group_entry =>
                let '(d1, log1) :=
                  set_sid_unless_present d admin_entry (admin_dn self)
                    OBJC_USER dom_sid "-500"
                    "Admin SID already set, nothing to do"
                    "Failed to modify IPA admin object" in
                let '(d2, log2) :=
                  set_sid_unless_present d1 admin_group_entry
                    (admin_group_dn self) OBJC_GROUP dom_sid "-512"
                    "Admin group SID already set, nothing to do"
                    "Failed to modify IPA admin group object" in
                Outcome None d2 (log1 ++ log2)
            end
        end
  end.

End Methods.

(** The [modify_s] calls recorded in a log. *)
Definition modify_calls (l : list event) : list (DN * modlist) :=
  flat_map (fun ev => match ev with
                      | ModifyS t m => [(t, m)]
                      | _ => []
                      end) l.

(* ===================================================================== *)
(** * create_instance: the step list and its execution *)
(* ===================================================================== *)

(** The private methods enqueued as step actions. *)
Inductive method :=
| m_stop
| m_create_samba_domain_object
| m_write_smb_registry
| m_write_smb_conf
| m_setup_principal
| m_setup_group_membership
| m_check_replica
| m_add_s4u2proxy_target
| m_add_admin_sids
| m_add_rid_bases
| m_update_krb5_conf
| m_add_cldap_module
| m_add_sidgen_task
| m_enable
| m_add_dns_service_records
| m_enable_compat_tree
| m_restart_dirsrv
| m_add_fallback_group
| m_add_default_trust_view
| m_configure_selinux_for_smbd
| m_enable_and_start_oddjobd
| m_start
| m_add_sids.

Record Step := { label : string; action : method }.

(** Modelled from the spec: [Service.step] of ipaserver/install/service.py,
    which is not part of this file; it enqueues a step at the end of the
    sequence ("Immutable once enqueued. Ordering is significant"). *)
Definition step (steps : list Step) (message : string) (m : method)
    : list Step :=
  steps ++ [{| label := message; action := m |}].

(** The [self.step(...)] calls of [create_instance], in program order. *)
Definition create_instance_steps (self : ADTRUSTInstance) : list Step :=
  let s := [] in
  let s := step s "stopping smbd" m_stop in
  let s := step s "creating samba domain object"
             m_create_samba_domain_object in
  let s := step s "creating samba config registry" m_write_smb_registry in
  let s := step s "writing samba config file" m_write_smb_conf in
  let s := step s "adding cifs Kerberos principal" m_setup_principal in
  let s := step s
             "adding cifs and host Kerberos principals to the adtrust agents group"
             m_setup_group_membership in
  let s := step s "check for cifs services defined on other replicas"
             m_check_replica in
  let s := step s "adding cifs principal to S4U2Proxy targets"
             m_add_s4u2proxy_target in
  let s := step s "adding admin(group) SIDs" m_add_admin_sids in
  let s := step s "adding RID bases" m_add_rid_bases in
  let s := step s "updating Kerberos config" m_update_krb5_conf in
  let s := step s "activating CLDAP plugin" m_add_cldap_module in
  let s := step s "activating sidgen task" m_add_sidgen_task in
  let s := step s "configuring smbd to start on boot" m_enable in
  let s := step s "adding special DNS service records"
             m_add_dns_service_records in
  let s := if enable_compat self
           then step s
                  "enabling trusted domains support for older clients via Schema Compatibility plugin"
                  m_enable_compat_tree
           else s in
  let s := step s
             "restarting Directory Server to take MS PAC and LDAP plugins changes into account"
             m_restart_dirsrv in
  let s := step s "adding fallback group" m_add_fallback_group in
  let s := step s "adding Default Trust View" m_add_default_trust_view in
  let s := step s "setting SELinux booleans" m_configure_selinux_for_smbd in
  let s := step s "enabling oddjobd" m_enable_and_start_oddjobd in
  let s := step s "starting CIFS services" m_start in
  let s := if add_sids self
           then step s "adding SIDs to existing users and groups" m_add_sids
           else s in
  s.

(** How a run of [create_instance] ends. *)
Inductive run_result :=
| Completed
| StepFailure (step_label : string) (e : exn)
| ConnectFailure (e : exn).

Record run_report (W : Type) := Report {
  world_after : W;
  executed : list string;   (* labels announced and invoked, in order *)
  result : run_result
}.
Arguments Report {W}.
Arguments world_after {W}.
Arguments executed {W}.
Arguments result {W}.

Section Orchestrator.

(** The machine the actions work on, and what each action does to it:
    the new state and the fatal error it reports, if any. *)
Context {W : Type} (exec : method -> W -> W * option exn).
Context (ldap_connect : W -> W * option exn).

(** Modelled from the spec: [Service.start_creation] of
    ipaserver/install/service.py, which is not part of this file.
    Steps run strictly in list order; each label is announced, then the
    action is invoked; on a fatal error the run stops at once, nothing
    is rolled back, and the failure carries the label of the step. *)
Fixpoint start_creation (steps : list Step) (w : W) : run_report W :=
  match steps with
  | [] => Report w [] Completed
  | st :: rest =>
      match exec (action st) w with
      | (w', Some e) => Report w' [label st] (StepFailure (label st) e)
      | (w', None) =>
          let r := start_creation rest w' in
          Report (world_after r) (label st :: executed r) (result r)
      end
  end.

(** [create_instance] *)
Definition create_instance (self : ADTRUSTInstance) (w : W) : run_report W :=
  match ldap_connect w with
  | (w', Some e) => Report w' [] (ConnectFailure e)
  | (w', None) => start_creation (create_instance_steps self) w'
  end.

End Orchestrator.

(* ===================================================================== *)
(** * uninstall *)
(* ===================================================================== *)

Module StateStore.

(** Modelled from the spec: the state store ([sysrestore.StateFile],
    not part of this file): records keyed by (namespace, key). *)
Abbreviation t := (gmap (string * string) sval).

(** Modelled from the spec: [backup(namespace, key, value)] records the
    value only if no record exists for the pair (first write wins). *)
Definition backup_state (ns key : string) (v : sval) (st : t) : t :=
  match st !! (ns, key) with
  | Some _ => st
  | None => <[(ns, key) := v]> st
  end.

(** Modelled from the spec: [restore(namespace, key)] returns and deletes
    the stored record if present; [None] is the absent sentinel. *)
Definition restore_state (ns key : string) (st : t) : option sval * t :=
  (st !! (ns, key), delete (ns, key) st).

End StateStore.

(** [SELINUX_BOOLEAN_SETTINGS = {'samba_portmapper': 'on'}], its keys. *)
Definition SELINUX_BOOLEAN_SETTINGS : list string := ["samba_portmapper"].

(** The service name given to [service.Service.__init__]. *)
Definition service_name : string := "smb".

(** What [uninstall] finds on the machine: which service calls raise,
    whether setsebool fails, what [os.listdir(paths.SAMBA_DIR)] gives (the
    names in the directory, or the OSError it raises when the directory
    cannot be listed), the keytab and the exit status of ipa-rmkeytab, and
    two paths of ipaplatform. *)
Record Host := {
  is_configured : bool;
  stop_raises : string -> bool;
  disable_raises : string -> bool;
  setsebool_error : option string;
  samba_dir_listing : exn + list string;
  keytab_exists : bool;
  rmkeytab_returncode : option Z;
  KRB5CC_SAMBA : string
}.

(** [try: c1(); c2(); ... except Exception: pass]: the calls are made in
    order until one raises. *)
Fixpoint try_calls (calls : list (event * bool)) : list event :=
  match calls with
  | [] => []
  | (ev, raises) :: rest => ev :: (if raises then [] else try_calls rest)
  end.

(** [s.endswith(suffix)] *)
Definition endswith (s suffix : string) : bool :=
  (Nat.leb (String.length suffix) (String.length s)
   && String.eqb
        (String.substring (String.length s - String.length suffix)
           (String.length suffix) s)
        suffix)%bool.

(** [clean_samba_keytab] *)
Definition clean_samba_keytab (self : ADTRUSTInstance) (h : Host) : list event :=
  if keytab_exists h then
    RunCmd ["ipa-rmkeytab"; "--principal"; cifs_principal self;
            "-k"; samba_keytab self]
    :: match rmkeytab_returncode h with
       | None => []
       | Some rc =>
           if negb (rc =? 5)
           then [LogCritical ("Failed to remove old key for "
                              +:+ cifs_principal self)]
           else []
       end
  else [].

(** [uninstall]: the state store after the call, the log, and the
    exception the call ends with, if any.  The call of [os.listdir] is
    under no [try]: when it raises, [uninstall] ends there, after the two
    removals before it and before the keytab is cleaned. *)
Definition uninstall (self : ADTRUSTInstance) (h : Host) (sstore : StateStore.t)
    : StateStore.t * (list event * option exn) :=
  let log0 :=
    if is_configured h then [PrintMsg ("Unconfiguring " +:+ service_name)]
    else [] in
  let '(_, sstore) := StateStore.restore_state service_name "running" sstore in
  let '(_, sstore) := StateStore.restore_state service_name "enabled" sstore in
  let log1 :=
    try_calls [(SvcStop service_name, stop_raises h service_name);
               (SvcDisable service_name, disable_raises h service_name);
               (SvcStop "winbind", stop_raises h "winbind");
               (SvcDisable "winbind", disable_raises h "winbind")] in
  let '(was_running, sstore) :=
    StateStore.restore_state "oddjobd" "running" sstore in
  let log2 :=
    if negb (sval_truthy was_running) then [SvcStop "oddjobd"] else [] in
  let '(was_enabled, sstore) :=
    StateStore.restore_state "oddjobd" "enabled" sstore in
  let log3 :=
    if negb (sval_truthy was_enabled) then [SvcDisable "oddjobd"] else [] in
  let '(boolean_states, sstore) :=
    fold_left
      (fun '(acc, st) name =>
         let '(v, st') := StateStore.restore_state service_name name st in
         (acc ++ [(name, v)], st'))
      SELINUX_BOOLEAN_SETTINGS ([], sstore) in
  let log4 :=
    SetSelinuxBooleans boolean_states
    :: match setsebool_error h with
       | Some msg => [PrintMsg ("WARNING: " +:+ msg)]
       | None => []
       end in
  let log5 := [RemoveFile (KRB5CC_SAMBA h); RemoveFile (smb_conf self)] in
  (sstore,
   match samba_dir_listing h with
   | inl e => (log0 ++ log1 ++ log2 ++ log3 ++ log4 ++ log5, Some e)
   | inr names =>
       let tdb_files :=
         List.filter (fun tdb_file => endswith tdb_file ".tdb") names in
       (log0 ++ log1 ++ log2 ++ log3 ++ log4 ++ log5
        ++ map RemoveFile tdb_files
        ++ clean_samba_keytab self h,
        None)
   end).

(** The service control calls recorded in a log. *)
Definition service_calls (l : list event) : list event :=
  List.filter (fun ev => match ev with
                         | SvcStop _ | SvcDisable _ => true
                         | _ => false
                         end) l.

(* ===================================================================== *)
(** * Further definitions used by the later sections *)
(* ===================================================================== *)

(** The message logged by [__add_rid_bases] under [except errors.NotFound]. *)
Definition range_not_found_msg : string :=
  "ID range of the local domain not found, " +:+ "define it and run again.".

(* ===================================================================== *)
(** * The samba configuration file *)
(* ===================================================================== *)

(** [f.readlines()], also the lines met when iterating over a file: the
    pieces of the text, each with its newline; a last piece without
    newline is a line too. *)
Fixpoint readlines (s : string) : list string :=
  match s with
  | EmptyString => []
  | String c s' =>
      if Ascii.eqb c (ascii_of_nat 10) then String c EmptyString :: readlines s'
      else match readlines s' with
           | [] => [String c EmptyString]
           | l :: ls => String c l :: ls
           end
  end.

Definition ADDED_BY_IPA : string := "### Added by IPA Installer ###".

(** [errno.ENOENT] *)
Definition ENOENT : Z := 2.

(** [ipa_smb_conf_exists()], on what [open(paths.SMB_CONF, 'r')] gives:
    the errno of the IOError, or the text of the file.  An IOError other
    than ENOENT is caught without a return, and the next statement reads
    the unbound [conf_fd]. *)
Definition ipa_smb_conf_exists (opened : Z + string) : exn + bool :=
  match opened with
  | inl errno =>
      if errno =? ENOENT then inr false
      else inl (OtherError "UnboundLocalError")
  | inr text =>
      inr (existsb (String.prefix ADDED_BY_IPA) (readlines text))
  end.

(** The four [conf_fd.write] calls of [__write_smb_conf]. *)
Definition smb_conf_text : string :=
  (ADDED_BY_IPA +:+ nl) +:+ ("[global]" +:+ nl)
  +:+ ("debug pid = yes" +:+ nl) +:+ ("config backend = registry" +:+ nl).

(** [__write_smb_conf] on a file system, a map from paths to texts;
    [can_open] tells whether [open(self.smb_conf, "w")] succeeds. *)
Definition write_smb_conf (self : ADTRUSTInstance) (can_open : bool)
    (fs : gmap string string) : exn + gmap string string :=
  if can_open then inr (<[smb_conf self := smb_conf_text]> fs)
  else inl (OtherError "IOError").

(** [open(path, 'r')] on that file system. *)
Definition open_read (fs : gmap string string) (path : string) : Z + string :=
  match fs !! path with
  | Some text => inr text
  | None => inl ENOENT
  end.

(** A text in which a line starts with [m]: [m] is at the very start or
    right after a newline. *)
Definition has_line_starting (m text : string) : Prop :=
  exists pre post,
    text = pre +:+ m +:+ post
    /\ (pre = EmptyString \/ exists p, pre = p +:+ nl).

(* ===================================================================== *)
(** * The Kerberos configuration file *)
(* ===================================================================== *)

(** The class [\s] of a byte pattern: space, \t, \n, \v, \f, \r. *)
Definition is_space (c : ascii) : bool :=
  let n := nat_of_ascii c in
  (Nat.eqb n 32 || (Nat.leb 9 n && Nat.leb n 13))%bool.

(** [\s*] at the start of [s]: what is left after the white space. *)
Fixpoint skip_ws (s : string) : string :=
  match s with
  | EmptyString => EmptyString
  | String c s' => if is_space c then skip_ws s' else s
  end.

(** A literal at the start of [s]: what is left after it. *)
Fixpoint strip_prefix (p s : string) : option string :=
  match p, s with
  | EmptyString, _ => Some s
  | String a p', String b s' =>
      if Ascii.eqb a b then strip_prefix p' s' else None
  | String _ _, EmptyString => None
  end.

(** [re.match("^\s*dns_lookup_kdc\s*=\s*[Tt][Rr][Uu][Ee]\s*$", line)]:
    no alternative is left open at any point of the pattern, so the match
    is read off from left to right; after the greedy last [\s*] the [$]
    needs the end of the line. *)
Definition dns_lookup_kdc_true (line : string) : bool :=
  match strip_prefix "dns_lookup_kdc" (skip_ws line) with
  | None => false
  | Some r1 =>
      match skip_ws r1 with
      | String eq r2 =>
          if Ascii.eqb eq "="%char then
            match skip_ws r2 with
            | String t (String r (String u (String e r3))) =>
                (Py.contains t "Tt" && Py.contains r "Rr"
                 && Py.contains u "Uu" && Py.contains e "Ee"
                 && negb (Py.truthy (skip_ws r3)))%bool
            | _ => false
            end
          else false
      | EmptyString => false
      end
  end.

(** The option lists handed to [IPAChangeConf.changeConf]: dictionaries
    with the keys name, type, action and value. *)
#[local] Unset Elimination Schemes.
Inductive conf_opt :=
| ConfOpt (name type action : string) (value : string + list conf_opt).
#[local] Set Elimination Schemes.

(** What [__update_krb5_conf] leaves behind: the messages, the options
    given to [changeConf] if it was called, the exception raised. *)
Record krb5_outcome := Krb5 {
  krb5_log : list event;
  krb5_change : option (list conf_opt);
  krb5_raised : option exn
}.

(** [__mod_krb5_conf]; [change_raises] is what [changeConf] raises. *)
Definition mod_krb5_conf (fqdn realm : string) (change_raises : option exn)
    : krb5_outcome :=
  let log0 :=
    if (negb (Py.truthy fqdn) || negb (Py.truthy realm))%bool
    then [PrintMsg "Cannot modify /etc/krb5.conf"] else [] in
  let libopts := [ConfOpt "dns_lookup_kdc" "option" "set" (inl "true")] in
  let master_kdc := fqdn +:+ ":88" in
  let kropts := [ConfOpt "master_kdc" "option" "set" (inl master_kdc)] in
  let ropts := [ConfOpt realm "subsection" "set" (inr kropts)] in
  let opts := [ConfOpt "libdefaults" "section" "set" (inr libopts);
               ConfOpt "realms" "section" "set" (inr ropts)] in
  Krb5 log0 (Some opts) change_raises.

(** [__update_krb5_conf], on what [open(paths.KRB5_CONF, 'r')] gives: the
    text of the IOError or the text of the file. *)
Definition update_krb5_conf (fqdn realm : string) (opened : string + string)
    (change_raises : option exn) : krb5_outcome :=
  match opened with
  | inl err =>
      Krb5 [PrintMsg ("Cannot open /etc/krb5.conf (" +:+ err +:+ ")" +:+ nl)]
        None None
  | inr text =>
      let has_dns_lookup_kdc_true :=
        existsb dns_lookup_kdc_true (readlines text) in
      if negb has_dns_lookup_kdc_true then
        mod_krb5_conf fqdn realm change_raises
      else
        Krb5 [PrintMsg ("'dns_lookup_kdc' already set to 'true', "
                        +:+ "nothing to do.")]
          None None
  end.

(** White space only. *)
Definition all_space (w : string) : bool :=
  forallb is_space (list_ascii_of_string w).

(** The lines the pattern stands for: the key, an equals sign and a
    spelling of "true" in any case, with white space around each. *)
Definition dns_lookup_kdc_line (line : string) : Prop :=
  exists w1 w2 w3 w4 t,
    all_space w1 = true /\ all_space w2 = true
    /\ all_space w3 = true /\ all_space w4 = true
    /\ Py.upper t = "TRUE"
    /\ line = w1 +:+ "dns_lookup_kdc" +:+ w2 +:+ "=" +:+ w3 +:+ t +:+ w4.

(* ===================================================================== *)
(** * DNS service records *)
(* ===================================================================== *)

(** [srv_rec(host, port, prio)]: ["%(prio)d 100 %(port)d %(host)s"]. *)
Definition srv_rec (host : string) (port prio : Z) : string :=
  fmt_d prio +:+ " 100 " +:+ fmt_d port +:+ " " +:+ host.

(** [s.split(sep, 1)]: cut at the first separator only. *)
Fixpoint split1 (sep : ascii) (s : string) : list string :=
  match s with
  | EmptyString => [EmptyString]
  | String c s' =>
      if Ascii.eqb c sep then [EmptyString; s']
      else match split1 sep s' with
           | [] => [Py.str1 c]
           | p :: ps => String c p :: ps
           end
  end.

(** The attributes of the instance read by [__add_dns_service_records]. *)
Record DnsSetup := {
  dns_fqdn : string;
  dns_domain_name : string;
  no_msdcs : bool;
  cifs_hosts : list string
}.

Inductive dns_call :=
| DelRR (zone name rtype rdata : string)
| AddRR (zone name rtype rdata : string).

(** The DNS functions of bindinstance and the [dns_is_enabled] command,
    which are not part of this file, over a DNS state [S]: each returns
    its result or the exception raised. *)
Record DnsApi (S : Type) := {
  dns_is_enabled : S -> exn + bool;
  dns_zone_exists : S -> string -> exn + bool;
  get_rr : S -> string -> string -> string -> exn + list string;
  add_rr : S -> string -> string -> string -> string -> exn + S;
  del_rr : S -> string -> string -> string -> string -> exn + S
}.
Arguments dns_is_enabled {S}.
Arguments dns_zone_exists {S}.
Arguments get_rr {S}.
Arguments add_rr {S}.
Arguments del_rr {S}.

Record dns_outcome (S : Type) := DnsOut {
  dns_raised : option exn;
  dns_after : S;
  dns_msgs : list string;       (* print_msg *)
  dns_calls : list dns_call     (* del_rr and add_rr calls, oldest first *)
}.
Arguments DnsOut {S}.
Arguments dns_raised {S}.
Arguments dns_after {S}.
Arguments dns_msgs {S}.
Arguments dns_calls {S}.

(** A [for] loop whose body may raise: the loop ends at the first
    exception. *)
Fixpoint for_each {St X : Type} (body : X -> St -> option exn * St)
    (xs : list X) (st : St) : option exn * St :=
  match xs with
  | [] => (None, st)
  | x :: xs' =>
      match body x st with
      | (Some e, st') => (Some e, st')
      | (None, st') => for_each body xs' st'
      end
  end.

Definition win_srv_suffix : list string :=
  [".Default-First-Site-Name._sites.dc._msdcs"; ".dc._msdcs"].

(** The tuple [ipa_srv_rec]: name, own record, port. *)
Definition ipa_srv_rec (host_in_rr : string)
    : list (string * list string * Z) :=
  [("_ldap._tcp", [srv_rec host_in_rr 389 0], 389);
   ("_kerberos._tcp", [srv_rec host_in_rr 88 0], 88);
   ("_kerberos._udp", [srv_rec host_in_rr 88 0], 88)].

Definition ValueError (msg : string) : exn :=
  OtherError ("ValueError: " +:+ msg).

Section DnsRecords.

Context {S : Type} (api : DnsApi S).

(** [ipalib.util.normalize_zone], which is not part of this file. *)
Variable normalize_zone : string -> string.

Definition del_one (zone win_srv rec : string) (st : S * list dns_call)
    : option exn * (S * list dns_call) :=
  let call := DelRR zone win_srv "SRV" rec in
  match del_rr api (fst st) zone win_srv "SRV" rec with
  | inl e => (Some e, (fst st, snd st ++ [call]))
  | inr s' => (None, (s', snd st ++ [call]))
  end.

Definition add_one (zone win_srv rec : string) (st : S * list dns_call)
    : option exn * (S * list dns_call) :=
  let call := AddRR zone win_srv "SRV" rec in
  match add_rr api (fst st) zone win_srv "SRV" rec with
  | inl e => (Some e, (fst st, snd st ++ [call]))
  | inr s' => (None, (s', snd st ++ [call]))
  end.

(** The body of [for suff in win_srv_suffix]. *)
Definition replace_records (zone srv : string) (cifs_rdata : list string)
    (suff : string) (st : S * list dns_call)
    : option exn * (S * list dns_call) :=
  let win_srv := srv +:+ suff in
  match get_rr api (fst st) zone win_srv "SRV" with
  | inl e => (Some e, st)
  | inr win_rdata =>
      match for_each (del_one zone win_srv) win_rdata st with
      | (Some e, st') => (Some e, st')
      | (None, st') => for_each (add_one zone win_srv) cifs_rdata st'
      end
  end.

(** The body of [for (srv, rdata, port) in ipa_srv_rec]. *)
Definition publish_service (cfg : DnsSetup) (zone : string)
    (rec : string * list string * Z) (st : S * list dns_call)
    : option exn * (S * list dns_call) :=
  let '(srv, rdata, port) := rec in
  let cifs_rdata :=
    map (fun fqdn => srv_rec fqdn port 0) (cifs_hosts cfg) ++ rdata in
  for_each (replace_records zone srv cifs_rdata) win_srv_suffix st.

(** The three ways to an [err_msg], or none. *)
Definition dns_err_msg (cfg : DnsSetup) (zone : string) (s : S)
    : exn + option string :=
  if no_msdcs cfg then
    inr (Some ("--no-msdcs was given, special DNS service records "
               +:+ "are not added to local DNS server"))
  else
    match dns_is_enabled api s with
    | inl e => inl e
    | inr false => inr (Some "DNS management was not enabled at install time.")
    | inr true =>
        match dns_zone_exists api s zone with
        | inl e => inl e
        | inr false =>
            inr (Some ("DNS zone " +:+ zone +:+ " cannot be managed "
                       +:+ "as it is not defined in IPA"))
        | inr true => inr None
        end
    end.

(** [__add_dns_service_records] *)
Definition add_dns_service_records (cfg : DnsSetup) (s : S) : dns_outcome S :=
  let zone := dns_domain_name cfg in
  match split1 "." (dns_fqdn cfg) with
  | [host; host_domain] =>
      let host_in_rr :=
        if String.eqb (normalize_zone zone) (normalize_zone host_domain)
        then host else normalize_zone (dns_fqdn cfg) in
      match dns_err_msg cfg zone s with
      | inl e => DnsOut (Some e) s [] []
      | inr (Some err_msg) =>
          DnsOut None s
            ([err_msg;
              "Add the following service records to your DNS "
              +:+ "server for DNS zone " +:+ zone +:+ ": "]
             ++ flat_map
                  (fun srv =>
                     map (fun suff => " - " +:+ fst (fst srv) +:+ suff)
                       win_srv_suffix)
                  (ipa_srv_rec host_in_rr))
            []
      | inr None =>
          let '(raised, (s', calls)) :=
            for_each (publish_service cfg zone) (ipa_srv_rec host_in_rr)
              (s, []) in
          DnsOut raised s' [] calls
      end
  | _ => DnsOut (Some (ValueError "need more than 1 value to unpack")) s [] []
  end.

End DnsRecords.

(** The records added by a list of calls, in order. *)
Definition added_records (calls : list dns_call)
    : list (string * string * string) :=
  flat_map (fun c => match c with
                     | AddRR zone name _ rdata => [(zone, name, rdata)]
                     | DelRR _ _ _ _ => []
                     end) calls.

(* ===================================================================== *)
(** * The local ID range *)
(* ===================================================================== *)

Definition id_filter (base_id id_range_size : Z) : string :=
  "(&" +:+ "(|(objectclass=posixAccount)" +:+ "(objectclass=posixGroup)"
  +:+ "(objectclass=ipaIDObject))"
  +:+ "(|(uidNumber<=" +:+ fmt_d (base_id - 1)
  +:+ ")(uidNumber>=" +:+ fmt_d (base_id + id_range_size) +:+ ")"
  +:+ "(gidNumber<=" +:+ fmt_d (base_id - 1)
  +:+ ")(gidNumner>=" +:+ fmt_d (base_id + id_range_size) +:+ ")))".

Record find_outcome (D : Type) := FindOut {
  find_raised : option exn;
  find_after : D;
  find_added : option Entry     (* the entry given to add_entry *)
}.
Arguments FindOut {D}.
Arguments find_raised {D}.
Arguments find_after {D}.
Arguments find_added {D}.

Section FindLocalIdRange.

Context {D : Type} (conn : Directory D).

(** [admin_conn.add_entry] and [ldap_connect], not part of this file,
    and the builtin [int]. *)
Variable add_entry : D -> Entry -> exn + D.
Variable ldap_connect : D -> exn + D.
Variable py_int : pyval -> exn + Z.

(** The entry built by [make_entry] at the end of [find_local_id_range]. *)
Definition local_range_entry (self : ADTRUSTInstance) (realm : string)
    (base_id id_range_size : Z) : Entry :=
  {| dn := ("cn", realm +:+ "_id_range")
           :: container_ranges self ++ suffix self;
     single_value :=
       {[ "objectclass" := PyStr "ipaDomainIDRange";
          "cn" := PyStr (realm +:+ "_id_range");
          "ipaBaseID" := PyStr (fmt_d base_id);
          "ipaIDRangeSize" := PyStr (fmt_d id_range_size) ]} |}.

(** [find_local_id_range]; [realm] is [self.realm]. *)
Definition find_local_id_range (self : ADTRUSTInstance) (realm : string)
    (d0 : D) : find_outcome D :=
  match ldap_connect d0 with
  | inl e => FindOut (Some e) d0 None
  | inr d =>
  match get_entries conn d (container_ranges self ++ suffix self)
          SCOPE_ONELEVEL ranges_filter with
  | inl e => FindOut (Some e) d None
  | inr (_ :: _) => FindOut None d None
  | inr [] =>
  match get_entry conn d (admin_group_dn self) with
  | inl NotFound =>
      FindOut
        (Some (ValueError ("No local ID range and no admins group found."
                           +:+ nl
                           +:+ "Add local ID range manually and try again!")))
        d None
  | inl e => FindOut (Some e) d None
  | inr entry =>
  match single_value entry !! "gidNumber" with
  | None => FindOut (Some (OtherError "KeyError: gidNumber")) d None
  | Some gid =>
  match py_int gid with
  | inl e => FindOut (Some e) d None
  | inr base_id =>
  let id_range_size := 200000 in
  match get_entries conn d (("cn", "accounts") :: suffix self)
          SCOPE_SUBTREE (id_filter base_id id_range_size) with
  | inl e => FindOut (Some e) d None
  | inr (_ :: _) =>
      FindOut
        (Some (ValueError ("There are objects with IDs out of the expected"
                           +:+ "range." +:+ nl
                           +:+ "Add local ID range manually and try "
                           +:+ "again!")))
        d None
  | inr [] =>
      let entry := local_range_entry self realm base_id id_range_size in
      match add_entry d entry with
      | inl e => FindOut (Some e) d (Some entry)
      | inr d' => FindOut None d' (Some entry)
      end
  end end end end end end.

End FindLocalIdRange.

(* ===================================================================== *)
(** * A small directory for running the steps on examples *)
(* ===================================================================== *)

Module TestDirectory.

(** Entries in a list; [reject], when set, makes every write fail with
    a constraint violation carrying that text. *)
Record state := { entries : list Entry; reject : option string }.

Definition lookup_entry (d : state) (target : DN) : exn + Entry :=
  match List.find (fun e => bool_decide (dn e = target)) (entries d) with
  | Some e => inr e
  | None => inl NotFound
  end.

Definition children (d : state) (base : DN) (_ : scope) (_ : string)
    : exn + list Entry :=
  inr (List.filter
         (fun e => match dn e with
                   | _ :: parent => bool_decide (parent = base)
                   | [] => false
                   end)
         (entries d)).

Definition apply_mods (mods : modlist) (e : Entry) : Entry :=
  {| dn := dn e;
     single_value :=
       fold_left (fun m '(_, attr, v) => <[attr := PyStr v]> m) mods
         (single_value e) |}.

Definition modify (d : state) (target : DN) (mods : modlist)
    : exn + state :=
  match reject d with
  | Some info => inl (CONSTRAINT_VIOLATION info)
  | None =>
      match lookup_entry d target with
      | inl e => inl e
      | inr _ =>
          inr {| entries :=
                   map (fun e => if bool_decide (dn e = target)
                                 then apply_mods mods e else e)
                     (entries d);
                 reject := None |}
      end
  end.

Definition conn : Directory state :=
  {| get_entry := lookup_entry;
     get_entries := children;
     modify_s := modify |}.

(** An instance with [dc=test] as suffix and the given RID bases. *)
Definition instance (primary secondary : Z) : ADTRUSTInstance :=
  {| rid_base := primary;
     secondary_rid_base := secondary;
     suffix := [("dc", "test")];
     smb_dom_dn := [("cn", "test"); ("cn", "ad"); ("cn", "etc"); ("dc", "test")];
     enable_compat := false;
     add_sids := false;
     container_user := [("cn", "users"); ("cn", "accounts")];
     container_group := [("cn", "groups"); ("cn", "accounts")];
     container_ranges := [("cn", "ranges"); ("cn", "etc")];
     smb_conf := "/etc/samba/smb.conf";
     samba_keytab := "/etc/samba/samba.keytab";
     cifs_principal := "cifs/host.test@TEST" |}.

Definition ranges_dn : DN := [("cn", "ranges"); ("cn", "etc"); ("dc", "test")].

(** A local ID range of the given size with no RID base. *)
Definition fresh_range (name : string) (size : Z) : Entry :=
  {| dn := ("cn", name) :: ranges_dn;
     single_value :=
       {[ "ipaBaseID" := PyInt 1000; "ipaIDRangeSize" := PyInt size ]} |}.

(** The same range with the size as the string an LDAP value is. *)
Definition fresh_range_str (name size : string) : Entry :=
  {| dn := ("cn", name) :: ranges_dn;
     single_value :=
       {[ "ipaBaseID" := PyStr "1000"; "ipaIDRangeSize" := PyStr size ]} |}.

(** A range whose RID bases are set. *)
Definition based_range (name : string) : Entry :=
  {| dn := ("cn", name) :: ranges_dn;
     single_value :=
       {[ "ipaBaseID" := PyInt 1000; "ipaIDRangeSize" := PyInt 200000;
          "ipaBaseRID" := PyStr "1000";
          "ipaSecondaryBaseRID" := PyStr "100000000" ]} |}.

Definition dom_entry (sid : option string) : Entry :=
  {| dn := [("cn", "test"); ("cn", "ad"); ("cn", "etc"); ("dc", "test")];
     single_value :=
       match sid with
       | Some s => {[ ATTR_SID := PyStr s ]}
       | None => ∅
       end |}.

Definition admin_entry : Entry :=
  {| dn := [("uid", "admin"); ("cn", "users"); ("cn", "accounts"); ("dc", "test")];
     single_value := ∅ |}.

Definition admins_entry : Entry :=
  {| dn := [("cn", "admins"); ("cn", "groups"); ("cn", "accounts"); ("dc", "test")];
     single_value := ∅ |}.

End TestDirectory.

(* ===================================================================== *)
(** * A small machine for running create_instance and uninstall *)
(* ===================================================================== *)

Module TestMachine.

(** The directory and the log so far. *)
Definition world : Type := TestDirectory.state * list event.

Definition lift (o : outcome TestDirectory.state) (l : list event)
    : world * option exn :=
  ((dir_after o, l ++ log o), raised o).

(** The two steps modelled above run on the directory; the other
    actions belong to collaborators and do nothing here. *)
Definition exec (self : ADTRUSTInstance) (m : method) (w : world)
    : world * option exn :=
  match m with
  | m_add_admin_sids =>
      lift (add_admin_sids TestDirectory.conn self (fst w)) (snd w)
  | m_add_rid_bases =>
      lift (add_rid_bases TestDirectory.conn self (fst w)) (snd w)
  | _ => (w, None)
  end.

Definition ldap_connect (w : world) : world * option exn := (w, None).

(** A host on which no call raises. *)
Definition quiet_host : Host :=
  {| is_configured := true;
     stop_raises := fun _ => false;
     disable_raises := fun _ => false;
     setsebool_error := None;
     samba_dir_listing := inr ["secrets.tdb"; "smb.conf.bak"];
     keytab_exists := false;
     rmkeytab_returncode := None;
     KRB5CC_SAMBA := "/var/run/samba/krb5cc_samba" |}.

(** A host without a samba directory: the listing raises. *)
Definition bare_host : Host :=
  {| is_configured := false;
     stop_raises := fun _ => false;
     disable_raises := fun _ => false;
     setsebool_error := None;
     samba_dir_listing := inl (OtherError "OSError");
     keytab_exists := true;
     rmkeytab_returncode := Some 0;
     KRB5CC_SAMBA := "/var/run/samba/krb5cc_samba" |}.

End TestMachine.

(* ===================================================================== *)
(** * Steps that apply an LDIF file *)
(* ===================================================================== *)

Definition ATTR_FALLBACK_GROUP : string := "ipaNTFallbackPrimaryGroup".
Definition FALLBACK_GROUP_NAME : string := "Default SMB Group".

(** [str(dn)]: the RDNs as attr=value, joined by commas. *)
Definition show_dn (x : DN) : string :=
  Py.join "," (map (fun rdn => fst rdn +:+ "=" +:+ snd rdn) x).

Record ldif_outcome (D : Type) := LdifOut {
  lo_raised : option exn;
  lo_after : D;
  lo_log : list event;
  lo_ldifs : list string       (* the files given to _ldap_mod *)
}.
Arguments LdifOut {D}.
Arguments lo_raised {D}.
Arguments lo_after {D}.
Arguments lo_log {D}.
Arguments lo_ldifs {D}.

Section LdifSteps.

Context {D : Type} (conn : Directory D).

(** [Service._ldap_mod(ldif, self.sub_dict)] and [Service.ldap_connect],
    which are not part of this file. *)
Variable ldap_mod : D -> string -> exn + D.
Variable ldap_connect : D -> exn + D.

(** [__add_plugin_conf(name, plugin_cn, ldif_file)] *)
Definition add_plugin_conf (name plugin_cn ldif_file : string) (d : D)
    : ldif_outcome D :=
  let plugin_dn := [("cn", plugin_cn); ("cn", "plugins"); ("cn", "config")] in
  match get_entry conn d plugin_dn with
  | inr _ =>
      LdifOut None d
        [PrintMsg (name +:+ " plugin already configured, nothing to do")] []
  | inl NotFound =>
      match ldap_mod d ldif_file with
      | inr d' => LdifOut None d' [] [ldif_file]
      | inl _ => LdifOut None d [] [ldif_file]
      end
  | inl e => LdifOut (Some e) d [] []
  end.

(** [__add_cldap_module] *)
Definition add_cldap_module (d : D) : ldif_outcome D :=
  add_plugin_conf "CLDAP" "ipa_cldap" "ipa-cldap-conf.ldif" d.

(** [__add_sidgen_task] *)
Definition add_sidgen_task (d : D) : ldif_outcome D :=
  add_plugin_conf "Sidgen task" "ipa-sidgen-task"
    "ipa-sidgen-task-conf.ldif" d.

(** [__add_default_trust_view]; [container_views] is the one of api.env. *)
Definition add_default_trust_view (self : ADTRUSTInstance)
    (container_views : DN) (d : D) : ldif_outcome D :=
  let default_view_dn :=
    ("cn", "Default Trust View") :: container_views ++ suffix self in
  let recheck (d1 : D) (log1 : list event) (ldifs : list string) :=
    match get_entry conn d1 default_view_dn with
    | inl NotFound =>
        LdifOut None d1
          (log1 ++ [PrintMsg "Failed to add Default Trust View."]) ldifs
    | inl e => LdifOut (Some e) d1 log1 ldifs
    | inr _ => LdifOut None d1 log1 ldifs
    end in
  match get_entry conn d default_view_dn with
  | inl NotFound =>
      match ldap_mod d "default-trust-view.ldif" with
      | inl e =>
          LdifOut (Some e) d [PrintMsg "Failed to add default trust view."]
            ["default-trust-view.ldif"]
      | inr d1 => recheck d1 [] ["default-trust-view.ldif"]
      end
  | inl e => LdifOut (Some e) d [] []
  | inr _ => recheck d [PrintMsg "Default Trust View already exists."] []
  end.

Definition fb_group_dn (self : ADTRUSTInstance) : DN :=
  ("cn", FALLBACK_GROUP_NAME) :: container_group self ++ suffix self.

Definition fallback_mods (self : ADTRUSTInstance) : modlist :=
  [(MOD_ADD, ATTR_FALLBACK_GROUP, show_dn (fb_group_dn self))].

(** [__add_fallback_group] *)
Definition add_fallback_group (self : ADTRUSTInstance) (d0 : D)
    : ldif_outcome D :=
  let finish (d1 : D) (ldifs : list string) :=
    match get_entry conn d1 (fb_group_dn self) with
    | inl NotFound =>
        LdifOut None d1 [PrintMsg "Failed to add fallback group."] ldifs
    | inl e => LdifOut (Some e) d1 [] ldifs
    | inr _ =>
        let call := ModifyS (smb_dom_dn self) (fallback_mods self) in
        match modify_s conn d1 (smb_dom_dn self) (fallback_mods self) with
        | inr d2 => LdifOut None d2 [call] ldifs
        | inl _ =>
            LdifOut None d1
              [call;
               PrintMsg "Failed to add fallback group to domain object"]
              ldifs
        end
    end in
  match ldap_connect d0 with
  | inl e => LdifOut (Some e) d0 [] []
  | inr d =>
  match get_entry conn d (smb_dom_dn self) with
  | inl NotFound =>
      LdifOut None d [PrintMsg "Samba domain object not found"] []
  | inl e => LdifOut (Some e) d [] []
  | inr dom_entry =>
      if val_truthy (single_value dom_entry !! ATTR_FALLBACK_GROUP) then
        LdifOut None d
          [PrintMsg "Fallback group already set, nothing to do"] []
      else
        match get_entry conn d (fb_group_dn self) with
        | inl NotFound =>
            match ldap_mod d "default-smb-group.ldif" with
            | inl e =>
                LdifOut (Some e) d [PrintMsg "Failed to add fallback group."]
                  ["default-smb-group.ldif"]
            | inr d1 => finish d1 ["default-smb-group.ldif"]
            end
        | inl e => LdifOut (Some e) d [] []
        | inr _ => finish d []
        end
  end end.

End LdifSteps.

(* ===================================================================== *)
(** * The samba domain object *)
(* ===================================================================== *)

Definition ATTR_FLAT_NAME : string := "ipaNTFlatName".
Definition ATTR_GUID : string := "ipaNTDomainGUID".
Definition OBJC_DOMAIN : string := "ipaNTDomainAttrs".

(** An entry as built by [make_entry]: every attribute with its list of
    values. *)
Record NewEntry := { ne_dn : DN; ne_attrs : list (string * list string) }.

(** The attributes of the instance and of api.env read by
    [__create_samba_domain_object]. *)
Record DomainSetup := {
  netbios_name : string;
  reset_netbios_name : bool;
  domain_name : string;
  container_trusts : DN;
  container_cifsdomains : DN
}.

Record create_outcome (D : Type) := CreateOut {
  co_raised : option exn;
  co_after : D;
  co_log : list event;
  co_added : list NewEntry     (* the entries given to add_entry *)
}.
Arguments CreateOut {D}.
Arguments co_raised {D}.
Arguments co_after {D}.
Arguments co_log {D}.
Arguments co_added {D}.

(** How a block of statements ends. *)
Inductive flow :=
| Continue
| Return
| Raise (e : exn).

Definition quote : string := String (ascii_of_nat 34) EmptyString.

Definition flat_name_mods (dom : DomainSetup) : modlist :=
  [(MOD_REPLACE, ATTR_FLAT_NAME, netbios_name dom)].

Section SambaDomainObject.

Context {D : Type} (conn : Directory D).

(** [admin_conn.add_entry], whether an exception is an ldap.LDAPError,
    and the text of the IndexError of a DN, none part of this file. *)
Variable add_entry : D -> NewEntry -> exn + D.
Variable is_ldap_error : exn -> bool.
Variable index_error_text : string.

(** [__reset_netbios_name]: what it raises, the directory, the log. *)
Definition reset_netbios_name_step (self : ADTRUSTInstance)
    (dom : DomainSetup) (d : D) : option exn * D * list event :=
  let call := ModifyS (smb_dom_dn self) (flat_name_mods dom) in
  match modify_s conn d (smb_dom_dn self) (flat_name_mods dom) with
  | inr d' => (None, d', [PrintMsg "Reset NetBIOS domain name"; call])
  | inl e =>
      if is_ldap_error e then
        (None, d,
         [PrintMsg "Reset NetBIOS domain name"; call;
          PrintMsg "Failed to reset the NetBIOS domain name"])
      else (Some e, d, [PrintMsg "Reset NetBIOS domain name"; call])
  end.

(** The [for new_dn in (...)] loop that makes the missing containers. *)
Fixpoint create_containers (dns : list DN) (d : D) (log : list event)
    (added : list NewEntry) : flow * D * list event * list NewEntry :=
  match dns with
  | [] => (Continue, d, log, added)
  | new_dn :: rest =>
      match get_entry conn d new_dn with
      | inr _ => create_containers rest d log added
      | inl NotFound =>
          match Py.index new_dn 1 with
          | None =>
              (Return, d,
               log ++ [PrintMsg ("Cannot extract RDN attribute value from "
                                 +:+ quote +:+ show_dn new_dn +:+ quote
                                 +:+ ": " +:+ index_error_text)],
               added)
          | Some rdn =>
              let name := fst rdn in
              let entry :=
                {| ne_dn := new_dn;
                   ne_attrs := [("objectclass", ["nsContainer"]);
                                ("cn", [name])] |} in
              match add_entry d entry with
              | inl e => (Raise e, d, log, added ++ [entry])
              | inr d' => create_containers rest d' log (added ++ [entry])
              end
          end
      | inl e => (Raise e, d, log, added)
      end
  end.

(** The part of [__create_samba_domain_object] after the first [try]. *)
Definition create_domain_object (self : ADTRUSTInstance) (dom : DomainSetup)
    (urandom12 : list byte) (uuid4 : string) (d : D) (log : list event)
    : create_outcome D :=
  let trust_dn := container_trusts dom ++ suffix self in
  match create_containers
          [trust_dn; ("cn", "ad") :: trust_dn;
           container_cifsdomains dom ++ suffix self]
          d log [] with
  | (Raise e, d1, log1, added) => CreateOut (Some e) d1 log1 added
  | (Return, d1, log1, added) => CreateOut None d1 log1 added
  | (Continue, d1, log1, added) =>
      match gen_sid_string urandom12 with
      | None => CreateOut (Some (OtherError "struct.error")) d1 log1 added
      | Some sid =>
          let entry :=
            {| ne_dn := smb_dom_dn self;
               ne_attrs := [("objectclass", [OBJC_DOMAIN; "nsContainer"]);
                            ("cn", [domain_name dom]);
                            (ATTR_FLAT_NAME, [netbios_name dom]);
                            (ATTR_SID, [sid]);
                            (ATTR_GUID, [uuid4])] |} in
          match add_entry d1 entry with
          | inl e => CreateOut (Some e) d1 log1 (added ++ [entry])
          | inr d2 => CreateOut None d2 log1 (added ++ [entry])
          end
      end
  end.

(** [__create_samba_domain_object]; [urandom12] is what [os.urandom(12)]
    returns and [uuid4] what [str(uuid.uuid4())] returns. *)
Definition create_samba_domain_object (self : ADTRUSTInstance)
    (dom : DomainSetup) (urandom12 : list byte) (uuid4 : string) (d : D)
    : create_outcome D :=
  match get_entry conn d (smb_dom_dn self) with
  | inr _ =>
      if reset_netbios_name dom then
        match reset_netbios_name_step self dom d with
        | (None, d1, log1) => CreateOut None d1 log1 []
        | (Some NotFound, d1, log1) =>
            create_domain_object self dom urandom12 uuid4 d1 log1
        | (Some e, d1, log1) => CreateOut (Some e) d1 log1 []
        end
      else
        CreateOut None d [PrintMsg "Samba domain object already exists"] []
  | inl NotFound => create_domain_object self dom urandom12 uuid4 d []
  | inl e => CreateOut (Some e) d [] []
  end.

End SambaDomainObject.

(* ===================================================================== *)
(** * More machines for examples *)
(* ===================================================================== *)

Module Examples.

(** A DNS made of the SRV records it holds, as (name, data) pairs. *)
Definition dns_state : Type := list (string * string).

Definition records_of (s : dns_state) (name : string) : list string :=
  map snd (List.filter (fun r => String.eqb (fst r) name) s).

Definition dns : DnsApi dns_state :=
  {| dns_is_enabled := fun _ => inr true;
     dns_zone_exists := fun _ _ => inr true;
     get_rr := fun s _ name _ => inr (records_of s name);
     add_rr := fun s _ name _ rdata => inr (s ++ [(name, rdata)]);
     del_rr := fun s _ name _ rdata =>
       inr (List.filter
              (fun r => negb (String.eqb (fst r) name
                              && String.eqb (snd r) rdata))
              s) |}.

(** [normalize_zone] as a trailing dot added when there is none. *)
Definition normalize_zone (zone : string) : string :=
  if endswith zone "." then zone else zone +:+ ".".

Definition dns_setup (skip : bool) : DnsSetup :=
  {| dns_fqdn := "ipa.example.test";
     dns_domain_name := "example.test";
     no_msdcs := skip;
     cifs_hosts := ["replica"] |}.

(** The admins group with a gidNumber. *)
Definition admins_with_gid : Entry :=
  {| dn := [("cn", "admins"); ("cn", "groups"); ("cn", "accounts");
            ("dc", "test")];
     single_value := {[ "gidNumber" := PyInt 1234 ]} |}.

Definition add_entry (d : TestDirectory.state) (e : Entry)
    : exn + TestDirectory.state :=
  inr {| TestDirectory.entries := TestDirectory.entries d ++ [e];
         TestDirectory.reject := TestDirectory.reject d |}.

Definition ldap_connect (d : TestDirectory.state)
    : exn + TestDirectory.state := inr d.

Definition py_int (v : pyval) : exn + Z :=
  match v with
  | PyInt z => inr z
  | PyStr s =>
      match NilZero.int_of_string s with
      | Some i => inr (Z.of_int i)
      | None => inl (ValueError "invalid literal for int()")
      end
  end.

(** [_ldap_mod] for default-smb-group.ldif: the fallback group appears. *)
Definition ldap_mod (d : TestDirectory.state) (ldif : string)
    : exn + TestDirectory.state :=
  if String.eqb ldif "default-smb-group.ldif" then
    add_entry d
      {| dn := [("cn", "Default SMB Group"); ("cn", "groups");
                ("cn", "accounts"); ("dc", "test")];
         single_value := {[ "cn" := PyStr "Default SMB Group" ]} |}
  else inr d.

(** [add_entry] for an entry built by [make_entry]: the first value of
    every attribute is kept. *)
Definition add_new (d : TestDirectory.state) (ne : NewEntry)
    : exn + TestDirectory.state :=
  add_entry d
    {| dn := ne_dn ne;
       single_value :=
         list_to_map
           (flat_map (fun kv => match snd kv with
                                | v :: _ => [(fst kv, PyStr v)]
                                | [] => []
                                end) (ne_attrs ne)) |}.

Definition is_ldap_error (e : exn) : bool :=
  match e with
  | CONSTRAINT_VIOLATION _ => true
  | _ => false
  end.

Definition domain_setup (reset : bool) : DomainSetup :=
  {| netbios_name := "EXAMPLE";
     reset_netbios_name := reset;
     domain_name := "test";
     container_trusts := [("cn", "trusts")];
     container_cifsdomains := [("cn", "ad"); ("cn", "etc")] |}.

Definition random12 : list byte :=
  [x01; x00; x00; x00; x00; x01; x00; x00; x07; x00; x00; x00].

(** A piece of the upper-case table of the interpreter: ASCII, Latin-1,
    and the two letters of Latin Extended-A whose capital is an ASCII
    letter; every other code point is left as it is. *)
Definition toupper (c : N) : N :=
  if ((97 <=? c) && (c <=? 122))%N then (c - 32)%N
  else if (c =? 181)%N then 924%N
  else if ((224 <=? c) && (c <=? 254) && negb (c =? 247))%N then (c - 32)%N
  else if (c =? 255)%N then 376%N
  else if (c =? 305)%N then 73%N
  else if (c =? 383)%N then 83%N
  else c.

End Examples.

(* ===================================================================== *)
(** * Facts about the string primitives *)
(* ===================================================================== *)

Example split_examples :
  Py.split "." "ipa.example.test" = ["ipa"; "example"; "test"]
  /\ Py.split "." "host" = ["host"]
  /\ Py.split "." "" = [""]
  /\ Py.split "." ".a." = [""; "a"; ""].
Proof. repeat split; reflexivity. Qed.

Example upper_examples :
  Py.upper "ipa-Srv01_x" = "IPA-SRV01_X" /\ Py.upper "{`@[" = "{`@[".
Proof. split; reflexivity. Qed.

Lemma split_nonempty (sep : ascii) (s : string) : Py.split sep s <> [].
Proof.
  induction s as [|c s IH]; cbn; [discriminate|].
  destruct (Ascii.eqb c sep); [discriminate|].
  destruct (Py.split sep s); [contradiction | discriminate].
Qed.

Lemma allowed_is_AZ09 (c : ascii) :
  Py.contains c ALLOWED_NETBIOS_CHARS = NetbiosSpec.is_AZ09 c.
Proof.
  destruct c as [[] [] [] [] [] [] [] []]; vm_compute; reflexivity.
Qed.

(** The byte-wise [str.upper] is the letter table of the specification. *)
Lemma upper_char_uppercase (c : ascii) :
  Py.upper_char c = NetbiosSpec.uppercase c.
Proof.
  destruct c as [[] [] [] [] [] [] [] []]; vm_compute; reflexivity.
Qed.

Lemma join_str1 (l : list ascii) :
  Py.join "" (map Py.str1 l) = string_of_list_ascii l.
Proof.
  induction l as [|c [|d l] IH]; try reflexivity.
  change (Py.join "" (map Py.str1 (c :: d :: l)))
    with (String.append (Py.str1 c)
            (String.append "" (Py.join "" (map Py.str1 (d :: l))))).
  rewrite IH. reflexivity.
Qed.

Lemma truthy_of_list (l : list ascii) :
  Py.truthy (string_of_list_ascii l) = match l with [] => false | _ => true end.
Proof. destruct l; reflexivity. Qed.

Lemma chars_upper (s : string) :
  Py.chars (Py.upper s) = map Py.upper_char (Py.chars s).
Proof.
  induction s as [|c s IH]; [reflexivity|].
  cbn. unfold Py.chars in IH. rewrite IH. reflexivity.
Qed.

Lemma slice_to_firstn (n : nat) (l : list ascii) :
  Py.slice_to n (string_of_list_ascii l) = string_of_list_ascii (firstn n l).
Proof.
  revert l; induction n as [|n IH]; intros [|c l]; cbn; try reflexivity.
  rewrite IH. reflexivity.
Qed.

Lemma split_head (s : string) :
  exists rest,
    Py.split "."%char s
    = string_of_list_ascii (NetbiosSpec.first_label (list_ascii_of_string s))
        :: rest.
Proof.
  induction s as [|c s [rest IH]]; cbn.
  - exists []. reflexivity.
  - destruct (Ascii.eqb c ".") eqn:E.
    + eexists. reflexivity.
    + rewrite IH. eexists. reflexivity.
Qed.

Lemma filter_nil_forall {A} (p : A -> bool) (l : list A) :
  List.filter (fun c => negb (p c)) l = [] <-> Forall (fun c => p c = true) l.
Proof.
  induction l as [|a l IH]; cbn.
  - split; [constructor | reflexivity].
  - destruct (p a) eqn:E; cbn.
    + rewrite IH. split; intros H.
      * constructor; assumption.
      * inversion H; assumption.
    + split; intros H; [discriminate|].
      inversion H; congruence.
Qed.

(* ===================================================================== *)
(** * NetBIOS theorems *)
(* ===================================================================== *)

(** C9: [check_netbios_name] returns true exactly for the names that are
    non-empty, at most 15 characters long, and made of characters of
    [[A-Z0-9]] only. *)
Theorem check_netbios_name_iff (name : string) :
  check_netbios_name name = true <-> NetbiosSpec.is_valid_netbios name.
Proof.
  unfold check_netbios_name, NetbiosSpec.is_valid_netbios.
  rewrite join_str1, truthy_of_list.
  set (bad := List.filter _ _).
  assert (Hbad : bad = [] <->
                 Forall (fun c => NetbiosSpec.is_AZ09 c = true)
                        (list_ascii_of_string name)).
  { unfold bad, Py.chars. rewrite filter_nil_forall.
    split; intros H; eapply Forall_impl; try exact H;
      intros c Hc; cbn in *; rewrite allowed_is_AZ09 in *; exact Hc. }
  destruct name as [|c name]; cbn [Py.truthy negb orb].
  - split; [discriminate | intros [H _]; congruence].
  - destruct (Nat.ltb_spec 15 (String.length (String c name))) as [Hlt|Hle];
      cbn [orb].
    + split; [discriminate | intros (_ & H & _); lia].
    + destruct bad as [|b bad'] eqn:Eb.
      * split; [intros _ | reflexivity].
        split; [discriminate|]. split; [lia|]. apply Hbad. reflexivity.
      * split; [discriminate|]. intros (_ & _ & H).
        apply Hbad in H. discriminate.
Qed.

Lemma make_netbios_name_eq (s : string) :
  make_netbios_name s = Some (NetbiosSpec.derive_netbios s).
Proof.
  unfold make_netbios_name, NetbiosSpec.derive_netbios.
  destruct (split_head s) as [rest ->]. cbn [Py.index nth_error].
  rewrite join_str1, slice_to_firstn, chars_upper. unfold Py.chars.
  rewrite list_ascii_of_string_of_list_ascii.
  rewrite (List.map_ext _ _ upper_char_uppercase).
  do 3 f_equal. apply List.filter_ext. intros c. apply allowed_is_AZ09.
Qed.

Section UnicodeText.

Variable toupper : N -> N.
Hypothesis Hucd : simple_uppercase toupper.

Lemma unicode_split_head (s : list N) :
  exists rest,
    PyUnicode.split (N_of_ascii ".") s
    = NetbiosSpec.first_label_text s :: rest.
Proof.
  induction s as [|c s [rest IH]]; cbn [PyUnicode.split
                                         NetbiosSpec.first_label_text].
  - exists []. reflexivity.
  - change (N_of_ascii ".") with 46%N in *.
    destruct (c =? 46)%N; [eexists; reflexivity|].
    rewrite IH. eexists. reflexivity.
Qed.

Lemma unicode_join_str1 (l : list N) :
  PyUnicode.join (map PyUnicode.str1 l) = l.
Proof. induction l as [|c l IH]; cbn; [reflexivity | f_equal; exact IH]. Qed.

(** Every member of [ALLOWED_NETBIOS_CHARS] is an ASCII code point. *)
Lemma allowed_ascii (c : N) :
  PyUnicode.contains c (PyUnicode.decode ALLOWED_NETBIOS_CHARS) = true ->
  (c < 128)%N.
Proof.
  set (l := PyUnicode.decode ALLOWED_NETBIOS_CHARS).
  assert (Hall : Forall (fun d => (d < 128)%N) l)
    by (apply List.Forall_forall; vm_compute; intuition (subst; reflexivity)).
  clearbody l. induction Hall as [|d l Hd _ IH]; cbn; [discriminate|].
  destruct (N.eqb_spec c d) as [->|_]; [intros _; exact Hd | exact IH].
Qed.

(** Below 128 the table is decided by [simple_uppercase]. *)
Lemma toupper_ascii (c : N) :
  (c < 128)%N ->
  toupper c = if ((97 <=? c) && (c <=? 122))%N then (c - 32)%N else c.
Proof.
  intros Hc.
  destruct (N.leb_spec 97 c), (N.leb_spec c 122); cbn [andb];
    try (apply (toupper_other_ascii _ Hucd); lia).
  apply (toupper_small_letter _ Hucd). lia.
Qed.

Lemma upper_AZ09_ascii (a : ascii) :
  (N_of_ascii a <? 128)%N = true ->
  NetbiosSpec.upper_AZ09 (N_of_ascii a)
  = let u := if ((97 <=? N_of_ascii a) && (N_of_ascii a <=? 122))%N
             then (N_of_ascii a - 32)%N else N_of_ascii a in
    if PyUnicode.contains u (PyUnicode.decode ALLOWED_NETBIOS_CHARS)
    then Some u else None.
Proof.
  destruct a as [[] [] [] [] [] [] [] []]; vm_compute;
    solve [reflexivity | discriminate].
Qed.

(** The upper-case step followed by the membership test, per code point. *)
Lemma upper_AZ09_toupper (c : N) :
  NetbiosSpec.upper_AZ09 c
  = if PyUnicode.contains (toupper c)
         (PyUnicode.decode ALLOWED_NETBIOS_CHARS)
    then Some (toupper c) else None.
Proof.
  destruct (N.ltb_spec c 128) as [Hlt|Hge].
  - rewrite (toupper_ascii c Hlt).
    assert (Hc : exists a, c = N_of_ascii a)
      by (exists (ascii_of_N c); symmetry; apply N_ascii_embedding; lia).
    destruct Hc as [a ->].
    apply upper_AZ09_ascii. apply N.ltb_lt. exact Hlt.
  - unfold NetbiosSpec.upper_AZ09.
    destruct (N.ltb_spec c 128) as [Hlt|_]; [lia|].
    destruct (N.eqb_spec c 305) as [->|H1].
    { rewrite (toupper_dotless_i _ Hucd). reflexivity. }
    destruct (N.eqb_spec c 383) as [->|H2].
    { rewrite (toupper_long_s _ Hucd). reflexivity. }
    pose proof (toupper_beyond_ascii _ Hucd c Hge H1 H2) as Hup.
    destruct (PyUnicode.contains (toupper c) _) eqn:E; [|reflexivity].
    apply allowed_ascii in E. lia.
Qed.

Lemma filter_upper_omap (l : list N) :
  List.filter
    (fun c => PyUnicode.contains c (PyUnicode.decode ALLOWED_NETBIOS_CHARS))
    (PyUnicode.upper toupper l)
  = omap NetbiosSpec.upper_AZ09 l.
Proof.
  induction l as [|c l IH]; [reflexivity|].
  cbn [PyUnicode.upper map List.filter omap list_omap].
  rewrite upper_AZ09_toupper. unfold PyUnicode.upper in IH.
  destruct (PyUnicode.contains (toupper c) _); rewrite IH; reflexivity.
Qed.

Lemma make_netbios_name_unicode_eq (s : list N) :
  make_netbios_name_unicode toupper s
  = Some (NetbiosSpec.derive_netbios_text s).
Proof.
  unfold make_netbios_name_unicode, NetbiosSpec.derive_netbios_text.
  destruct (unicode_split_head s) as [rest ->]. cbn [Py.index nth_error].
  rewrite unicode_join_str1, filter_upper_omap. reflexivity.
Qed.

End UnicodeText.

Lemma dot_code (c : ascii) : (N_of_ascii c =? 46)%N = Ascii.eqb c ".".
Proof. destruct c as [[] [] [] [] [] [] [] []]; vm_compute; reflexivity. Qed.

(** On ASCII text the two readings of the specification agree: decoding
    the name derived from a byte string gives the name derived from the
    decoded string. *)
Lemma derive_netbios_text_decode (s : string) :
  Forall (fun c => (N_of_ascii c < 128)%N) (list_ascii_of_string s) ->
  NetbiosSpec.derive_netbios_text (PyUnicode.decode s)
  = PyUnicode.decode (NetbiosSpec.derive_netbios s).
Proof.
  unfold NetbiosSpec.derive_netbios_text, NetbiosSpec.derive_netbios,
    PyUnicode.decode.
  rewrite list_ascii_of_string_of_list_ascii, <- List.firstn_map.
  intros Hall. f_equal.
  induction Hall as [|c l Hc _ IH]; [reflexivity|].
  cbn [map NetbiosSpec.first_label_text NetbiosSpec.first_label].
  rewrite dot_code. destruct (Ascii.eqb c "."); [reflexivity|].
  cbn [omap list_omap map List.filter]. unfold NetbiosSpec.upper_AZ09 at 1.
  apply N.ltb_lt in Hc. rewrite Hc, ascii_N_embedding. cbn zeta.
  destruct (NetbiosSpec.is_AZ09 (NetbiosSpec.uppercase c));
    cbn [map]; rewrite <- IH; reflexivity.
Qed.

(** C4: [make_netbios_name] never fails and returns the label before the
    first dot, uppercased, restricted to [[A-Z0-9]] and cut to 15
    characters; the result can be the empty string.  This holds for a
    name given as a byte string and for a name given as text, where the
    upper-case form of dotless i and of long s is an ASCII letter and
    stays in the name. *)
Theorem make_netbios_name_derives :
  (forall fqdn : string,
      make_netbios_name fqdn = Some (NetbiosSpec.derive_netbios fqdn)
      /\ (String.length (NetbiosSpec.derive_netbios fqdn) <= 15)%nat)
  /\ (forall (toupper : N -> N) (fqdn : list N),
        simple_uppercase toupper ->
        make_netbios_name_unicode toupper fqdn
        = Some (NetbiosSpec.derive_netbios_text fqdn)
        /\ (List.length (NetbiosSpec.derive_netbios_text fqdn) <= 15)%nat)
  /\ make_netbios_name ".example.test" = Some EmptyString.
Proof.
  split; [|split].
  - intros fqdn. split; [apply make_netbios_name_eq|].
    unfold NetbiosSpec.derive_netbios.
    set (l := List.filter _ _). clearbody l.
    assert (H : forall (n : nat) (m : list ascii),
               (String.length (string_of_list_ascii (firstn n m)) <= n)%nat).
    { induction n as [|n IH]; intros [|c m]; cbn; try lia.
      specialize (IH m). lia. }
    apply H.
  - intros toupper fqdn Hucd.
    split; [apply make_netbios_name_unicode_eq; exact Hucd|].
    unfold NetbiosSpec.derive_netbios_text. apply List.firstn_le_length.
  - vm_compute. reflexivity.
Qed.

Ltac table_cases :=
  repeat (match goal with
          | |- context [(?a <=? ?b)%N] => destruct (N.leb_spec a b)
          | |- context [(?a =? ?b)%N] => destruct (N.eqb_spec a b)
          end; cbn [andb negb]);
  try lia.

Lemma simple_uppercase_toupper : simple_uppercase Examples.toupper.
Proof.
  split; try reflexivity; intros c; unfold Examples.toupper; intros;
    table_cases.
Qed.

Lemma make_netbios_name_derives_witness :
  simple_uppercase Examples.toupper
  /\ make_netbios_name_unicode Examples.toupper
       (383%N :: PyUnicode.decode "mb.example")
     = Some (PyUnicode.decode "SMB")
  /\ make_netbios_name_unicode Examples.toupper
       (305%N :: PyUnicode.decode "pa-" ++ 233%N :: PyUnicode.decode "1.test")
     = Some (PyUnicode.decode "IPA1")
  /\ make_netbios_name "ipa-srv01.example.test" = Some "IPASRV01".
Proof.
  destruct make_netbios_name_derives as (Hstr & Htext & _).
  split; [exact simple_uppercase_toupper|].
  split; [|split].
  - rewrite (proj1 (Htext _ _ simple_uppercase_toupper)). reflexivity.
  - rewrite (proj1 (Htext _ _ simple_uppercase_toupper)). reflexivity.
  - rewrite (proj1 (Hstr _)). reflexivity.
Defined.

(** C5, as the specification has it, fails: the hyphen of
    ["example-corp"] is not in [[A-Z0-9]] and does not survive. *)
Lemma make_netbios_name_example_not_hyphenated :
  ~ (make_netbios_name "example-corp.test.local" = Some "EXAMPLE-CORP"
     /\ check_netbios_name "this-name-is-too-long-to-fit" = false).
Proof. intros [H _]. vm_compute in H. discriminate H. Qed.

(** C5, amended: [make_netbios_name "example-corp.test.local"] is
    ["EXAMPLECORP"], and ["this-name-is-too-long-to-fit"] is rejected by
    [check_netbios_name]. *)
Theorem make_netbios_name_example :
  make_netbios_name "example-corp.test.local" = Some "EXAMPLECORP"
  /\ check_netbios_name "this-name-is-too-long-to-fit" = false.
Proof. split; vm_compute; reflexivity. Qed.

(* ===================================================================== *)
(** * Domain SID theorems *)
(* ===================================================================== *)

Lemma byte_val_range (b : byte) : 0 <= Struct.byte_val b < 256.
Proof.
  unfold Struct.byte_val. pose proof (Byte.to_N_bounded b). lia.
Qed.

Lemma lor_shiftl_add (x y n : Z) :
  0 <= n -> 0 <= x < 2 ^ n -> Z.lor x (Z.shiftl y n) = x + y * 2 ^ n.
Proof.
  intros Hn Hx.
  rewrite <- (Z.shiftl_mul_pow2 y n) by assumption.
  rewrite <- Z.add_lor_land.
  replace (Z.land x (Z.shiftl y n)) with 0; [lia|].
  symmetry. apply Z.bits_inj'. intros k Hk.
  rewrite Z.land_spec, Z.bits_0.
  destruct (Z.lt_ge_cases k n) as [Hlt|Hge].
  - rewrite (Z.shiftl_spec_low y n k Hlt). apply andb_false_r.
  - destruct (Z.eq_dec x 0) as [->|Hx0]; [rewrite Z.bits_0; reflexivity|].
    rewrite Z.bits_above_log2; [reflexivity | lia |].
    apply Z.lt_le_trans with n; [|assumption].
    apply Z.log2_lt_pow2; lia.
Qed.

Lemma uint32_le_value (b0 b1 b2 b3 : byte) :
  Struct.uint32_le b0 b1 b2 b3 = SidSpec.le_value [b0; b1; b2; b3]
  /\ 0 <= Struct.uint32_le b0 b1 b2 b3 < 2 ^ 32.
Proof.
  pose proof (byte_val_range b0). pose proof (byte_val_range b1).
  pose proof (byte_val_range b2). pose proof (byte_val_range b3).
  unfold Struct.uint32_le. cbn [SidSpec.le_value].
  rewrite (lor_shiftl_add (Struct.byte_val b0) _ 8) by lia.
  rewrite (lor_shiftl_add _ (Struct.byte_val b2) 16) by lia.
  rewrite (lor_shiftl_add _ (Struct.byte_val b3) 24) by lia.
  change (2 ^ 8) with 256. change (2 ^ 16) with 65536.
  change (2 ^ 24) with 16777216. change (2 ^ 32) with 4294967296.
  lia.
Qed.

Lemma fmt_d_unsigned (n : Z) : 0 <= n -> fmt_d n = SidSpec.decimal n.
Proof.
  intros Hn. destruct n as [|p|p]; [reflexivity | reflexivity | lia].
Qed.

(** The digits printed by [%d] read back as the number. *)
Lemma fmt_d_reads_back (n : Z) :
  option_map Z.of_int (NilZero.int_of_string (fmt_d n)) = Some n.
Proof.
  unfold fmt_d. rewrite NilZero.isi.
  - cbn. rewrite DecimalZ.of_to. reflexivity.
  - destruct n as [|p|p]; cbn; try discriminate.
    intros [= H]. exact (DecimalPos.Unsigned.to_uint_nonnil p H).
  - destruct n as [|p|p]; cbn; try discriminate.
    intros [= H]. exact (DecimalPos.Unsigned.to_uint_nonnil p H).
Qed.

(** C6: on any 12 bytes, the generated SID is ["S-1-5-21-a-b-c"] where
    [a], [b], [c] are the three consecutive groups of four bytes read as
    little-endian unsigned 32-bit numbers, printed in decimal. *)
Theorem gen_sid_string_le (urandom12 : list byte) :
  length urandom12 = 12%nat ->
  let a := SidSpec.le_value (firstn 4 urandom12) in
  let b := SidSpec.le_value (firstn 4 (skipn 4 urandom12)) in
  let c := SidSpec.le_value (skipn 8 urandom12) in
  (0 <= a < 2 ^ 32 /\ 0 <= b < 2 ^ 32 /\ 0 <= c < 2 ^ 32)
  /\ gen_sid_string urandom12 = Some (SidSpec.sid_of a b c).
Proof.
  intros Hlen.
  do 12 (destruct urandom12 as [|? urandom12]; [discriminate Hlen|]).
  destruct urandom12; [|discriminate Hlen].
  cbn [firstn skipn]. cbn zeta.
  unfold gen_sid_string, SidSpec.sid_of. cbn [Struct.unpack_LLL].
  destruct (uint32_le_value b b0 b1 b2) as [-> Ha].
  destruct (uint32_le_value b3 b4 b5 b6) as [-> Hb].
  destruct (uint32_le_value b7 b8 b9 b10) as [-> Hc].
  repeat split; try tauto.
  rewrite !fmt_d_unsigned by tauto. reflexivity.
Qed.

Lemma gen_sid_string_le_witness :
  length [x01; x00; x00; x00; x00; x01; x00; x00; xff; xff; xff; xff] = 12%nat
  /\ gen_sid_string
       [x01; x00; x00; x00; x00; x01; x00; x00; xff; xff; xff; xff]
     = Some "S-1-5-21-1-256-4294967295".
Proof.
  split; [reflexivity|].
  destruct (gen_sid_string_le
              [x01; x00; x00; x00; x00; x01; x00; x00; xff; xff; xff; xff]
              eq_refl) as [_ H].
  exact H.
Defined.

(* ===================================================================== *)
(** * RID base theorems *)
(* ===================================================================== *)

(** The filter keeps a range exactly when neither base attribute holds a
    true value; an absent attribute counts as not set. *)
Lemma no_rid_base_set_absent (r : Entry) :
  single_value r !! "ipaBaseRID" = None ->
  single_value r !! "ipaSecondaryBaseRID" = None ->
  no_rid_base_set r = true.
Proof. unfold no_rid_base_set. intros -> ->. reflexivity. Qed.

Lemma no_rid_base_set_false (r : Entry) :
  no_rid_base_set r = false <->
  val_truthy (single_value r !! "ipaBaseRID") = true
  \/ val_truthy (single_value r !! "ipaSecondaryBaseRID") = true.
Proof.
  unfold no_rid_base_set.
  destruct (val_truthy (single_value r !! "ipaBaseRID")),
           (val_truthy (single_value r !! "ipaSecondaryBaseRID"));
    cbn; intuition congruence.
Qed.

Section RidBases.

Context {D : Type} (conn : Directory D).
Variables (self : ADTRUSTInstance) (d : D) (ranges : list Entry).

Hypothesis Hranges :
  get_entries conn d (container_ranges self ++ suffix self)
    SCOPE_ONELEVEL ranges_filter = inr ranges.

(** With exactly one candidate the step is decided by the comparison
    of the code, [abs(rid_base - secondary_rid_base) > size]. *)
Lemma add_rid_bases_one_candidate (r : Entry) :
  List.filter no_rid_base_set ranges = [r] ->
  add_rid_bases_try conn self d =
    let size := single_value r !! "ipaIDRangeSize" in
    if py2_int_gt (Z.abs (rid_base self - secondary_rid_base self)) size
    then match fmt_d_val size with
         | None => Outcome (Some TypeError) d []
         | Some sz =>
             Outcome (Some (RuntimeError ("RID bases too close." +:+ nl)))
               d [PrintMsg (too_close_msg sz)]
         end
    else
      match modify_s conn d (dn r) (rid_mods self) with
      | inr d' => Outcome None d' [ModifyS (dn r) (rid_mods self)]
      | inl (CONSTRAINT_VIOLATION info) =>
          Outcome (Some (RuntimeError ("Constraint violation." +:+ nl))) d
            [ModifyS (dn r) (rid_mods self);
             PrintMsg ("Failed to add RID bases to the local range "
                       +:+ "object:" +:+ nl +:+ "  " +:+ info)]
      | inl e => Outcome (Some e) d [ModifyS (dn r) (rid_mods self)]
      end.
Proof.
  intros Hone. unfold add_rid_bases_try. rewrite Hranges, Hone. reflexivity.
Qed.

(** C2: when no range is left after the filter the step prints
    "RID bases already set, nothing to do" and returns normally; when
    more than one is left it raises RuntimeError "Too many ID ranges"
    and calls no [modify_s]: the directory is as before. *)
Theorem add_rid_bases_zero_or_many :
  (length (List.filter no_rid_base_set ranges) = 0%nat ->
     add_rid_bases conn self d
     = Outcome None d [PrintMsg "RID bases already set, nothing to do"])
  /\ ((1 < length (List.filter no_rid_base_set ranges))%nat ->
        raised (add_rid_bases conn self d)
          = Some (RuntimeError ("Too many ID ranges" +:+ nl))
        /\ dir_after (add_rid_bases conn self d) = d
        /\ modify_calls (log (add_rid_bases conn self d)) = []).
Proof.
  unfold add_rid_bases, add_rid_bases_try. rewrite Hranges. cbn zeta.
  destruct (List.filter no_rid_base_set ranges) as [|r1 [|r2 rest]];
    cbn [length]; split; intros H; try lia; try discriminate;
    repeat split; reflexivity.
Qed.

(** C8: once the step reaches the write to its single candidate range,
    a constraint violation reported by the directory surfaces as
    RuntimeError "Constraint violation.", which is not the
    "RID bases too close." error; the directory is as before. *)
Theorem add_rid_bases_constraint_violation (r : Entry) (info : string) :
  List.filter no_rid_base_set ranges = [r] ->
  py2_int_gt (Z.abs (rid_base self - secondary_rid_base self))
    (single_value r !! "ipaIDRangeSize") = false ->
  modify_s conn d (dn r) (rid_mods self) = inl (CONSTRAINT_VIOLATION info) ->
  raised (add_rid_bases conn self d)
    = Some (RuntimeError ("Constraint violation." +:+ nl))
  /\ raised (add_rid_bases conn self d)
     <> Some (RuntimeError ("RID bases too close." +:+ nl))
  /\ dir_after (add_rid_bases conn self d) = d
  /\ In (PrintMsg ("Failed to add RID bases to the local range "
                   +:+ "object:" +:+ nl +:+ "  " +:+ info))
        (log (add_rid_bases conn self d)).
Proof.
  intros Hone Hgt Hmod. unfold add_rid_bases.
  rewrite (add_rid_bases_one_candidate r Hone). cbn zeta.
  rewrite Hgt, Hmod. cbn.
  repeat split; try reflexivity; [discriminate | right; left; reflexivity].
Qed.

End RidBases.

Lemma add_rid_bases_zero_or_many_witness :
  let self := TestDirectory.instance 1000000 1300000 in
  let none_left :=
    {| TestDirectory.entries := [TestDirectory.based_range "local"];
       TestDirectory.reject := None |} in
  let two_left :=
    {| TestDirectory.entries :=
         [TestDirectory.fresh_range "a" 200000;
          TestDirectory.based_range "b";
          TestDirectory.fresh_range "c" 200000];
       TestDirectory.reject := None |} in
  (length (List.filter no_rid_base_set (TestDirectory.entries none_left))
     = 0%nat
   /\ add_rid_bases TestDirectory.conn self none_left
      = Outcome None none_left
          [PrintMsg "RID bases already set, nothing to do"])
  /\ ((1 < length (List.filter no_rid_base_set
                     (TestDirectory.entries two_left)))%nat
      /\ raised (add_rid_bases TestDirectory.conn self two_left)
         = Some (RuntimeError ("Too many ID ranges" +:+ nl))
      /\ dir_after (add_rid_bases TestDirectory.conn self two_left) = two_left
      /\ modify_calls (log (add_rid_bases TestDirectory.conn self two_left))
         = []).
Proof.
  intros self none_left two_left.
  assert (H0 : length (List.filter no_rid_base_set
                         (TestDirectory.entries none_left)) = 0%nat)
    by (vm_compute; reflexivity).
  assert (H2 : (1 < length (List.filter no_rid_base_set
                              (TestDirectory.entries two_left)))%nat)
    by (vm_compute; lia).
  split; split; try assumption.
  - apply (proj1 (add_rid_bases_zero_or_many TestDirectory.conn self none_left
                    (TestDirectory.entries none_left) eq_refl)).
    exact H0.
  - apply (proj2 (add_rid_bases_zero_or_many TestDirectory.conn self two_left
                    (TestDirectory.entries two_left) eq_refl)).
    exact H2.
Defined.

Lemma add_rid_bases_constraint_violation_witness :
  let self := TestDirectory.instance 1000000 1100000 in
  let r := TestDirectory.fresh_range "local" 200000 in
  let d := {| TestDirectory.entries := [r];
              TestDirectory.reject := Some "New primary rid range overlaps" |} in
  List.filter no_rid_base_set (TestDirectory.entries d) = [r]
  /\ raised (add_rid_bases TestDirectory.conn self d)
     = Some (RuntimeError ("Constraint violation." +:+ nl))
  /\ raised (add_rid_bases TestDirectory.conn self d)
     <> Some (RuntimeError ("RID bases too close." +:+ nl))
  /\ dir_after (add_rid_bases TestDirectory.conn self d) = d.
Proof.
  intros self r d.
  assert (Hone : List.filter no_rid_base_set (TestDirectory.entries d) = [r])
    by (vm_compute; reflexivity).
  split; [exact Hone|].
  destruct (add_rid_bases_constraint_violation TestDirectory.conn self d
              (TestDirectory.entries d) eq_refl r
              "New primary rid range overlaps" Hone)
    as (H1 & H2 & H3 & _).
  - vm_compute. reflexivity.
  - vm_compute. reflexivity.
  - repeat split; assumption.
Defined.

(** C1, the code at the scenario of the specification: one candidate
    range of size 200000 and primary base 1000000.  With secondary base
    1100000 (separation 100000, not above the size) the step writes both
    bases and returns normally; with secondary base 1300000 (separation
    300000, above the size) it raises "RID bases too close." and writes
    nothing.  The comparison of the code is the reverse of its message.
    When the size is the string "200000" the bases at separation 100000
    are written as well. *)
Theorem add_rid_bases_scenario_reversed :
  let r := TestDirectory.fresh_range "local" 200000 in
  let d := {| TestDirectory.entries := [r]; TestDirectory.reject := None |} in
  let rs := TestDirectory.fresh_range_str "local" "200000" in
  let ds := {| TestDirectory.entries := [rs];
               TestDirectory.reject := None |} in
  let near := add_rid_bases TestDirectory.conn
                (TestDirectory.instance 1000000 1100000) d in
  let far := add_rid_bases TestDirectory.conn
               (TestDirectory.instance 1000000 1300000) d in
  let near_str := add_rid_bases TestDirectory.conn
                    (TestDirectory.instance 1000000 1100000) ds in
  (raised near = None
   /\ modify_calls (log near)
      = [(dn r, [(MOD_ADD, "ipaBaseRID", "1000000");
                 (MOD_ADD, "ipaSecondaryBaseRID", "1100000")])])
  /\ (raised far = Some (RuntimeError ("RID bases too close." +:+ nl))
      /\ modify_calls (log far) = []
      /\ log far
         = [PrintMsg ("Primary and secondary RID base are too close. "
                      +:+ "They have to differ at least by 200000.")])
  /\ (raised near_str = None
      /\ modify_calls (log near_str)
         = [(dn rs, [(MOD_ADD, "ipaBaseRID", "1000000");
                     (MOD_ADD, "ipaSecondaryBaseRID", "1100000")])]).
Proof. vm_compute. repeat split; reflexivity. Qed.

(** For an integer size the step raises "RID bases too close." exactly
    when the separation is above the size, and otherwise goes on to the
    write. *)
Lemma add_rid_bases_too_close_iff {D : Type} (conn : Directory D)
    (self : ADTRUSTInstance) (d : D) (ranges : list Entry) (r : Entry)
    (size : Z) :
  get_entries conn d (container_ranges self ++ suffix self)
    SCOPE_ONELEVEL ranges_filter = inr ranges ->
  List.filter no_rid_base_set ranges = [r] ->
  single_value r !! "ipaIDRangeSize" = Some (PyInt size) ->
  (size < Z.abs (rid_base self - secondary_rid_base self) ->
     raised (add_rid_bases conn self d)
       = Some (RuntimeError ("RID bases too close." +:+ nl))
     /\ dir_after (add_rid_bases conn self d) = d
     /\ modify_calls (log (add_rid_bases conn self d)) = [])
  /\ (Z.abs (rid_base self - secondary_rid_base self) <= size ->
        modify_calls (log (add_rid_bases conn self d))
          = [(dn r, rid_mods self)]).
Proof.
  intros Hranges Hone Hsize. unfold add_rid_bases.
  rewrite (add_rid_bases_one_candidate conn self d ranges Hranges r Hone).
  cbn zeta. rewrite Hsize. cbn [py2_int_gt fmt_d_val].
  split; intros H.
  - apply Z.ltb_lt in H. rewrite H. cbn. repeat split; reflexivity.
  - apply Z.ltb_ge in H. rewrite H.
    destruct (modify_s conn d (dn r) (rid_mods self)) as [[]|]; reflexivity.
Qed.

(** When the size comes back as a string, as an LDAP value does, the
    Python 2 comparison never holds and the step always goes on to the
    write. *)
Lemma add_rid_bases_string_size {D : Type} (conn : Directory D)
    (self : ADTRUSTInstance) (d : D) (ranges : list Entry) (r : Entry)
    (size : string) :
  get_entries conn d (container_ranges self ++ suffix self)
    SCOPE_ONELEVEL ranges_filter = inr ranges ->
  List.filter no_rid_base_set ranges = [r] ->
  single_value r !! "ipaIDRangeSize" = Some (PyStr size) ->
  modify_calls (log (add_rid_bases conn self d)) = [(dn r, rid_mods self)].
Proof.
  intros Hranges Hone Hsize. unfold add_rid_bases.
  rewrite (add_rid_bases_one_candidate conn self d ranges Hranges r Hone).
  cbn zeta. rewrite Hsize. cbn [py2_int_gt].
  destruct (modify_s conn d (dn r) (rid_mods self)) as [[]|]; reflexivity.
Qed.

(* ===================================================================== *)
(** * Admin SID theorems *)
(* ===================================================================== *)

Lemma set_sid_unless_present_calls {D : Type} (conn : Directory D) (d : D)
    (entry : Entry) (target : DN) (objc S rid present_msg fail_msg : string) :
  modify_calls
    (snd (set_sid_unless_present conn d entry target objc
            (Some (PyStr S)) rid present_msg fail_msg))
  = if val_truthy (single_value entry !! ATTR_SID) then []
    else [(target, sid_mods objc (S +:+ rid))].
Proof.
  unfold set_sid_unless_present, sid_mods.
  destruct (val_truthy (single_value entry !! ATTR_SID)); [reflexivity|].
  cbn [str_add].
  destruct (modify_s conn d target _); reflexivity.
Qed.

Lemma modify_calls_app (l1 l2 : list event) :
  modify_calls (l1 ++ l2) = modify_calls l1 ++ modify_calls l2.
Proof. unfold modify_calls. apply flat_map_app. Qed.

(** C10, as stated, fails: the domain object carries a SID and the admin
    entry has none, but the admins group cannot be read; the step returns
    before any write and the admin entry gets no SID. *)
Lemma add_admin_sids_group_unreadable :
  ~ (forall (self : ADTRUSTInstance) (d : TestDirectory.state)
            (dom admin : Entry) (S : string),
        get_entry TestDirectory.conn d (smb_dom_dn self) = inr dom ->
        single_value dom !! ATTR_SID = Some (PyStr S) ->
        S <> EmptyString ->
        get_entry TestDirectory.conn d (admin_dn self) = inr admin ->
        val_truthy (single_value admin !! ATTR_SID) = false ->
        In (admin_dn self, sid_mods OBJC_USER (S +:+ "-500"))
           (modify_calls (log (add_admin_sids TestDirectory.conn self d)))).
Proof.
  intros H.
  specialize (H (TestDirectory.instance 1000000 1300000)
                {| TestDirectory.entries :=
                     [TestDirectory.dom_entry (Some "S-1-5-21-1-2-3");
                      TestDirectory.admin_entry];
                   TestDirectory.reject := None |}
                (TestDirectory.dom_entry (Some "S-1-5-21-1-2-3"))
                TestDirectory.admin_entry "S-1-5-21-1-2-3").
  vm_compute in H.
  apply H; try reflexivity. discriminate.
Qed.

(** C10, amended: when the domain object exists with SID [S] and both the
    admin entry and the admins group entry can be read, the step calls
    [modify_s] for the admin entry with exactly [S-500] if it has no SID,
    then for the admins group with exactly [S-512] if it has no SID, and
    makes no call for an entry that has one; when the domain object is
    missing or has no SID the step makes no call and leaves the directory
    as it was. *)
Theorem add_admin_sids_calls {D : Type} (conn : Directory D)
    (self : ADTRUSTInstance) (d : D) :
  (forall (dom admin group : Entry) (S : string),
      get_entry conn d (smb_dom_dn self) = inr dom ->
      single_value dom !! ATTR_SID = Some (PyStr S) ->
      S <> EmptyString ->
      get_entry conn d (admin_dn self) = inr admin ->
      get_entry conn d (admin_group_dn self) = inr group ->
      raised (add_admin_sids conn self d) = None
      /\ modify_calls (log (add_admin_sids conn self d))
         = (if val_truthy (single_value admin !! ATTR_SID) then []
            else [(admin_dn self, sid_mods OBJC_USER (S +:+ "-500"))])
           ++ (if val_truthy (single_value group !! ATTR_SID) then []
               else [(admin_group_dn self,
                      sid_mods OBJC_GROUP (S +:+ "-512"))]))
  /\ ((get_entry conn d (smb_dom_dn self) = inl NotFound
       \/ exists dom, get_entry conn d (smb_dom_dn self) = inr dom
                      /\ val_truthy (single_value dom !! ATTR_SID) = false) ->
      raised (add_admin_sids conn self d) = None
      /\ modify_calls (log (add_admin_sids conn self d)) = []
      /\ dir_after (add_admin_sids conn self d) = d).
Proof.
  split.
  - intros dom admin group S Hdom HS Hne Hadmin Hgroup.
    unfold add_admin_sids. rewrite Hdom, HS, Hadmin, Hgroup.
    assert (Ht : val_truthy (Some (PyStr S)) = true)
      by (destruct S; [congruence | reflexivity]).
    rewrite Ht. cbn [negb].
    pose proof (set_sid_unless_present_calls conn d admin (admin_dn self)
                  OBJC_USER S "-500" "Admin SID already set, nothing to do"
                  "Failed to modify IPA admin object") as H1.
    destruct (set_sid_unless_present conn d admin _ _ _ _ _ _) as [d1 log1].
    pose proof (set_sid_unless_present_calls conn d1 group
                  (admin_group_dn self) OBJC_GROUP S "-512"
                  "Admin group SID already set, nothing to do"
                  "Failed to modify IPA admin group object") as H2.
    destruct (set_sid_unless_present conn d1 group _ _ _ _ _ _) as [d2 log2].
    cbn [snd raised log] in *. split; [reflexivity|].
    rewrite modify_calls_app, H1, H2. reflexivity.
  - intros [Hmiss | (dom & Hdom & Hsid)]; unfold add_admin_sids.
    + rewrite Hmiss. repeat split; reflexivity.
    + rewrite Hdom, Hsid. repeat split; reflexivity.
Qed.

Lemma add_admin_sids_calls_witness :
  let self := TestDirectory.instance 1000000 1300000 in
  let d := {| TestDirectory.entries :=
                [TestDirectory.dom_entry (Some "S-1-5-21-1-2-3");
                 TestDirectory.admin_entry;
                 TestDirectory.admins_entry];
              TestDirectory.reject := None |} in
  let d' := {| TestDirectory.entries := [TestDirectory.dom_entry None];
               TestDirectory.reject := None |} in
  modify_calls (log (add_admin_sids TestDirectory.conn self d))
  = [(admin_dn self, sid_mods OBJC_USER "S-1-5-21-1-2-3-500");
     (admin_group_dn self, sid_mods OBJC_GROUP "S-1-5-21-1-2-3-512")]
  /\ modify_calls (log (add_admin_sids TestDirectory.conn self d')) = []
  /\ dir_after (add_admin_sids TestDirectory.conn self d') = d'.
Proof.
  intros self d d'. split.
  - assert (Hne : "S-1-5-21-1-2-3" <> EmptyString) by discriminate.
    destruct (proj1 (add_admin_sids_calls TestDirectory.conn self d)
                (TestDirectory.dom_entry (Some "S-1-5-21-1-2-3"))
                TestDirectory.admin_entry TestDirectory.admins_entry
                "S-1-5-21-1-2-3" eq_refl eq_refl Hne eq_refl eq_refl)
      as [_ H].
    exact H.
  - destruct (proj2 (add_admin_sids_calls TestDirectory.conn self d'))
      as (_ & H1 & H2).
    + right. exists (TestDirectory.dom_entry None).
      split; vm_compute; reflexivity.
    + split; assumption.
Defined.

(* ===================================================================== *)
(** * Step execution theorems *)
(* ===================================================================== *)

Section OrchestratorFacts.

Context {W : Type} (exec : method -> W -> W * option exn).

(** A run that completes has invoked every step, in order. *)
Lemma start_creation_completed (steps : list Step) (w : W) :
  result (start_creation exec steps w) = Completed ->
  executed (start_creation exec steps w) = map label steps.
Proof.
  revert w. induction steps as [|st rest IH]; intros w; cbn.
  - reflexivity.
  - destruct (exec (action st) w) as [w' [e|]]; cbn.
    + discriminate.
    + intros H. rewrite (IH w' H). reflexivity.
Qed.

(** Running a sequence whose first part completes is running the rest
    from where the first part ended. *)
Lemma start_creation_app (steps1 steps2 : list Step) (w : W) :
  result (start_creation exec steps1 w) = Completed ->
  start_creation exec (steps1 ++ steps2) w
  = let r := start_creation exec steps2
               (world_after (start_creation exec steps1 w)) in
    Report (world_after r) (map label steps1 ++ executed r) (result r).
Proof.
  revert w. induction steps1 as [|st rest IH]; intros w; cbn.
  - intros _. destruct (start_creation exec steps2 w); reflexivity.
  - destruct (exec (action st) w) as [w' [e|]]; cbn.
    + discriminate.
    + intros H. rewrite (IH w' H). reflexivity.
Qed.

(** The first failing step ends the run: the steps up to it have been
    invoked, and the failure carries its label. *)
Lemma start_creation_first_failure (steps : list Step) (k : nat)
    (st : Step) (w w' : W) (e : exn) :
  steps !! k = Some st ->
  result (start_creation exec (take k steps) w) = Completed ->
  exec (action st)
    (world_after (start_creation exec (take k steps) w)) = (w', Some e) ->
  start_creation exec steps w
  = Report w' (map label (take (S k) steps)) (StepFailure (label st) e).
Proof.
  intros Hk Hok Hfail.
  rewrite <- (take_drop k steps) at 1.
  rewrite (start_creation_app _ _ _ Hok).
  rewrite (drop_S _ _ _ Hk). cbn. rewrite Hfail. cbn.
  rewrite (take_S_r _ _ _ Hk), map_app. reflexivity.
Qed.

End OrchestratorFacts.

(** No two steps of [create_instance] share a label. *)
Lemma create_instance_labels_distinct (self : ADTRUSTInstance) :
  NoDup (map label (create_instance_steps self)).
Proof.
  unfold create_instance_steps.
  destruct (enable_compat self), (add_sids self);
    match goal with
    | |- NoDup ?l =>
        apply (bool_decide_eq_true_1 (NoDup l)); vm_compute; reflexivity
    end.
Qed.

(** C3: in a run of [create_instance], if the steps before step [k]
    succeed and the action of step [k] reports a fatal error, then exactly
    the steps up to and including [k] are invoked, no later step runs,
    and the failure handed to the caller names the label of step [k]. *)
Theorem create_instance_stops_at_failure {W : Type}
    (exec : method -> W -> W * option exn)
    (ldap_connect : W -> W * option exn)
    (self : ADTRUSTInstance) (k : nat) (st : Step) (w w0 w' : W) (e : exn) :
  ldap_connect w = (w0, None) ->
  create_instance_steps self !! k = Some st ->
  result (start_creation exec (take k (create_instance_steps self)) w0)
    = Completed ->
  exec (action st)
    (world_after (start_creation exec (take k (create_instance_steps self)) w0))
    = (w', Some e) ->
  executed (create_instance exec ldap_connect self w)
    = map label (take (S k) (create_instance_steps self))
  /\ result (create_instance exec ldap_connect self w)
     = StepFailure (label st) e
  /\ world_after (create_instance exec ldap_connect self w) = w'
  /\ (forall later, In later (drop (S k) (create_instance_steps self)) ->
        ~ In (label later) (executed (create_instance exec ldap_connect self w))).
Proof.
  intros Hconn Hk Hok Hfail. unfold create_instance. rewrite Hconn.
  rewrite (start_creation_first_failure exec _ k st w0 w' e Hk Hok Hfail).
  cbn [executed result world_after]. repeat split.
  intros later Hlater Hin.
  pose proof (create_instance_labels_distinct self) as Hnd.
  rewrite <- (take_drop (S k) (create_instance_steps self)) in Hnd.
  rewrite map_app in Hnd. apply NoDup_app in Hnd as (_ & Hdisj & _).
  apply (Hdisj (label later)).
  - apply list_elem_of_In. exact Hin.
  - apply list_elem_of_In. apply in_map. exact Hlater.
Qed.

Lemma create_instance_stops_at_failure_witness :
  let self := TestDirectory.instance 1000000 1300000 in
  let w : TestMachine.world :=
    ({| TestDirectory.entries := [TestDirectory.fresh_range "local" 200000];
        TestDirectory.reject := None |}, []) in
  let r := create_instance (TestMachine.exec self) TestMachine.ldap_connect
             self w in
  create_instance_steps self !! 9%nat
    = Some {| label := "adding RID bases"; action := m_add_rid_bases |}
  /\ result r
     = StepFailure "adding RID bases"
         (RuntimeError ("RID bases too close." +:+ nl))
  /\ executed r = map label (take 10 (create_instance_steps self))
  /\ ~ In "updating Kerberos config" (executed r).
Proof.
  intros self w r.
  assert (Hk : create_instance_steps self !! 9%nat
               = Some {| label := "adding RID bases";
                         action := m_add_rid_bases |}) by reflexivity.
  split; [exact Hk|].
  destruct (create_instance_stops_at_failure (TestMachine.exec self)
              TestMachine.ldap_connect self 9
              {| label := "adding RID bases"; action := m_add_rid_bases |}
              w w
              (fst w,
               [PrintMsg "Samba domain object not found";
                PrintMsg (too_close_msg "200000")])
              (RuntimeError ("RID bases too close." +:+ nl))
              eq_refl Hk)
    as (Hex & Hres & _ & Hlater).
  - vm_compute. reflexivity.
  - vm_compute. reflexivity.
  - split; [exact Hres|]. split; [exact Hex|].
    apply (Hlater {| label := "updating Kerberos config";
                     action := m_update_krb5_conf |}).
    vm_compute. left. reflexivity.
Defined.

(* ===================================================================== *)
(** * uninstall theorems *)
(* ===================================================================== *)

Lemma service_calls_app (l1 l2 : list event) :
  service_calls (l1 ++ l2) = service_calls l1 ++ service_calls l2.
Proof. unfold service_calls. apply List.filter_app. Qed.

Lemma service_calls_try_calls (calls : list (event * bool)) :
  Forall (fun c => service_calls [fst c] = [fst c]) calls ->
  service_calls (try_calls calls) = try_calls calls.
Proof.
  induction 1 as [|[ev b] rest Hev _ IH]; [reflexivity|].
  unfold service_calls in *. cbn [try_calls fst List.filter] in *.
  destruct ev; try discriminate Hev;
    destruct b; try reflexivity; rewrite IH; reflexivity.
Qed.

Lemma service_calls_clean_samba_keytab (self : ADTRUSTInstance) (h : Host) :
  service_calls (clean_samba_keytab self h) = [].
Proof.
  unfold clean_samba_keytab.
  destruct (keytab_exists h); [|reflexivity].
  destruct (rmkeytab_returncode h) as [rc|]; [|reflexivity].
  destruct (negb (rc =? 5)); reflexivity.
Qed.

Lemma service_calls_remove_files (files : list string) :
  service_calls (map RemoveFile files) = [].
Proof. induction files as [|f files IH]; [reflexivity | exact IH]. Qed.

(** The service calls of [uninstall], whatever the host and the store. *)
Lemma uninstall_service_calls (self : ADTRUSTInstance) (h : Host)
    (sstore : StateStore.t) :
  service_calls (fst (snd (uninstall self h sstore)))
  = try_calls [(SvcStop "smb", stop_raises h "smb");
               (SvcDisable "smb", disable_raises h "smb");
               (SvcStop "winbind", stop_raises h "winbind");
               (SvcDisable "winbind", disable_raises h "winbind")]
    ++ (if sval_truthy (sstore !! ("oddjobd", "running")) then []
        else [SvcStop "oddjobd"])
    ++ (if sval_truthy (sstore !! ("oddjobd", "enabled")) then []
        else [SvcDisable "oddjobd"]).
Proof.
  unfold uninstall, StateStore.restore_state, service_name.
  cbn [fold_left SELINUX_BOOLEAN_SETTINGS snd].
  rewrite !lookup_delete_ne by (intros [=]).
  destruct (samba_dir_listing h) as [e|names]; cbn [fst];
    rewrite !service_calls_app;
    rewrite service_calls_try_calls by (repeat constructor);
    rewrite ?service_calls_remove_files, ?service_calls_clean_samba_keytab;
    destruct (is_configured h), (setsebool_error h),
             (sval_truthy (sstore !! ("oddjobd", "running"))),
             (sval_truthy (sstore !! ("oddjobd", "enabled")));
    cbn [negb service_calls List.filter app]; rewrite ?app_nil_r;
    reflexivity.
Qed.

Lemma in_service_calls (ev : event) (l : list event) :
  service_calls [ev] = [ev] -> In ev l <-> In ev (service_calls l).
Proof.
  intros Hev. unfold service_calls in *. rewrite List.filter_In.
  split; [|tauto]. intros H. split; [exact H|].
  destruct ev; cbn in Hev; try discriminate Hev; reflexivity.
Qed.

Lemma in_try_calls (ev : event) (calls : list (event * bool)) :
  In ev (try_calls calls) -> In ev (map fst calls).
Proof.
  induction calls as [|[ev' b] rest IH]; cbn; [tauto|].
  intros [H|H]; [left; exact H|].
  destruct b; [destruct H | right; apply IH; exact H].
Qed.

(** oddjobd is asked to stop exactly when the "running" record of oddjobd
    is not a true value, and to be disabled exactly when its "enabled"
    record is not a true value: a missing record counts like a stored
    false value. *)
Lemma uninstall_oddjobd_calls (self : ADTRUSTInstance) (h : Host)
    (sstore : StateStore.t) :
  (In (SvcStop "oddjobd") (fst (snd (uninstall self h sstore)))
   <-> sval_truthy (sstore !! ("oddjobd", "running")) = false)
  /\ (In (SvcDisable "oddjobd") (fst (snd (uninstall self h sstore)))
      <-> sval_truthy (sstore !! ("oddjobd", "enabled")) = false).
Proof.
  pose proof (uninstall_service_calls self h sstore) as Hcalls.
  assert (Hnot : forall ev,
             ev = SvcStop "oddjobd" \/ ev = SvcDisable "oddjobd" ->
             ~ In ev (try_calls
                        [(SvcStop "smb", stop_raises h "smb");
                         (SvcDisable "smb", disable_raises h "smb");
                         (SvcStop "winbind", stop_raises h "winbind");
                         (SvcDisable "winbind", disable_raises h "winbind")])).
  { intros ev Hev Hin. apply in_try_calls in Hin. cbn in Hin.
    destruct Hev as [-> | ->]; intuition discriminate. }
  split.
  - rewrite (in_service_calls (SvcStop "oddjobd")) by reflexivity.
    rewrite Hcalls, !in_app_iff.
    destruct (sval_truthy (sstore !! ("oddjobd", "running")));
      split; intros H; try discriminate H.
    + destruct H as [H|[H|H]]; [|destruct H|].
      * exfalso. eapply Hnot; [left; reflexivity | exact H].
      * destruct (sval_truthy (sstore !! ("oddjobd", "enabled")));
          cbn in H; intuition discriminate.
    + reflexivity.
    + right. left. left. reflexivity.
  - rewrite (in_service_calls (SvcDisable "oddjobd")) by reflexivity.
    rewrite Hcalls, !in_app_iff.
    destruct (sval_truthy (sstore !! ("oddjobd", "enabled")));
      split; intros H; try discriminate H.
    + destruct H as [H|[H|H]]; [| |destruct H].
      * exfalso. eapply Hnot; [right; reflexivity | exact H].
      * destruct (sval_truthy (sstore !! ("oddjobd", "running")));
          cbn in H; intuition discriminate.
    + reflexivity.
    + right. right. left. reflexivity.
Qed.

(** smb and winbind are not governed by the store at all: [uninstall]
    always asks smb to stop and, as long as no call raises, to be disabled,
    and the same for winbind ("Always try to stop and disable smb
    service"), whatever the restores of smb's flags returned. *)
Lemma uninstall_smb_calls (self : ADTRUSTInstance) (h : Host)
    (sstore : StateStore.t) :
  In (SvcStop "smb") (fst (snd (uninstall self h sstore)))
  /\ (stop_raises h "smb" = false -> disable_raises h "smb" = false ->
      stop_raises h "winbind" = false ->
        In (SvcDisable "smb") (fst (snd (uninstall self h sstore)))
        /\ In (SvcStop "winbind") (fst (snd (uninstall self h sstore)))
        /\ In (SvcDisable "winbind") (fst (snd (uninstall self h sstore)))).
Proof.
  pose proof (uninstall_service_calls self h sstore) as Hcalls.
  split.
  - apply in_service_calls; [reflexivity|]. rewrite Hcalls. left. reflexivity.
  - intros H1 H2 H3.
    rewrite (in_service_calls (SvcDisable "smb")),
            (in_service_calls (SvcStop "winbind")),
            (in_service_calls (SvcDisable "winbind")) by reflexivity.
    rewrite Hcalls. cbn [try_calls]. rewrite H1, H2, H3. cbn. tauto.
Qed.

(** C7: with no record for oddjobd in the state store, the restore of its
    "running" flag and the restore of its "enabled" flag report absent,
    and [uninstall] calls [oddjobd.stop()] and [oddjobd.disable()] all the
    same, on every host: [if not restore_state(...)] takes the absent
    [None] for a stored [False].  The calls are a consequence of the
    absent result: with true values stored for the two flags neither call
    is made. *)
Theorem uninstall_absent_oddjobd_stopped (self : ADTRUSTInstance)
    (h : Host) :
  let absent : StateStore.t := ∅ in
  let stored : StateStore.t :=
    {[ ("oddjobd", "running") := SBool true;
       ("oddjobd", "enabled") := SBool true ]} in
  fst (StateStore.restore_state "oddjobd" "running" absent) = None
  /\ fst (StateStore.restore_state "oddjobd" "enabled" absent) = None
  /\ In (SvcStop "oddjobd") (fst (snd (uninstall self h absent)))
  /\ In (SvcDisable "oddjobd") (fst (snd (uninstall self h absent)))
  /\ ~ In (SvcStop "oddjobd") (fst (snd (uninstall self h stored)))
  /\ ~ In (SvcDisable "oddjobd") (fst (snd (uninstall self h stored))).
Proof.
  intros absent stored.
  destruct (uninstall_oddjobd_calls self h absent) as [Hstop Hdis].
  destruct (uninstall_oddjobd_calls self h stored) as [Hstop' Hdis'].
  split; [reflexivity|]. split; [reflexivity|].
  split; [apply Hstop; reflexivity|]. split; [apply Hdis; reflexivity|].
  split; intros Hin.
  - apply Hstop' in Hin. vm_compute in Hin. discriminate Hin.
  - apply Hdis' in Hin. vm_compute in Hin. discriminate Hin.
Qed.

(** The records read by [uninstall] are gone from the store afterwards,
    and no other record is touched. *)
Lemma uninstall_store (self : ADTRUSTInstance) (h : Host)
    (sstore : StateStore.t) (k : string * string) :
  fst (uninstall self h sstore) !! k
  = if bool_decide (k ∈ [("smb", "running"); ("smb", "enabled");
                          ("oddjobd", "running"); ("oddjobd", "enabled");
                          ("smb", "samba_portmapper")])
    then None else sstore !! k.
Proof.
  unfold uninstall, StateStore.restore_state, service_name.
  cbn [fold_left SELINUX_BOOLEAN_SETTINGS fst].
  case_bool_decide as Hk.
  - repeat (apply elem_of_cons in Hk as [-> | Hk];
            [rewrite ?lookup_delete_eq, ?lookup_delete_ne by (intros [=]);
             solve [reflexivity | apply lookup_delete_eq] |]).
    inversion Hk.
  - rewrite !lookup_delete_ne; [reflexivity | ..];
      intros <-; apply Hk; repeat constructor.
Qed.

(** The state store keeps the first value recorded for a pair, hands it
    back once, and reports absent afterwards. *)
Lemma backup_restore_once (ns key : string) (v v2 : sval)
    (st : StateStore.t) :
  st !! (ns, key) = None ->
  let st1 := StateStore.backup_state ns key v2
               (StateStore.backup_state ns key v st) in
  fst (StateStore.restore_state ns key st1) = Some v
  /\ fst (StateStore.restore_state ns key
            (snd (StateStore.restore_state ns key st1))) = None.
Proof.
  intros Hnone. unfold StateStore.backup_state, StateStore.restore_state.
  rewrite Hnone. cbn [fst snd]. rewrite lookup_insert_eq. cbn [fst snd].
  rewrite lookup_insert_eq, lookup_delete_eq. split; reflexivity.
Qed.

(* ===================================================================== *)
(** * More on NetBIOS names *)
(* ===================================================================== *)

Lemma filter_negb_nil_forallb {A} (p : A -> bool) (l : list A) :
  match List.filter (fun c => negb (p c)) l with
  | [] => true
  | _ :: _ => false
  end = forallb p l.
Proof.
  induction l as [|a l IH]; [reflexivity|].
  cbn. destruct (p a); cbn; [exact IH | reflexivity].
Qed.

Lemma check_netbios_name_bool (s : string) :
  check_netbios_name s
  = (Py.truthy s && Nat.leb (String.length s) 15
     && forallb NetbiosSpec.is_AZ09 (list_ascii_of_string s))%bool.
Proof.
  unfold check_netbios_name. rewrite join_str1, truthy_of_list.
  unfold Py.chars.
  rewrite (List.filter_ext _ (fun c => negb (NetbiosSpec.is_AZ09 c)))
    by (intros c; rewrite allowed_is_AZ09; reflexivity).
  rewrite <- filter_negb_nil_forallb.
  destruct (Py.truthy s); cbn [negb orb andb]; [|reflexivity].
  rewrite Nat.ltb_antisym.
  destruct (Nat.leb (String.length s) 15); cbn [negb orb andb];
    [|reflexivity].
  destruct (List.filter _ _); reflexivity.
Qed.

Lemma string_length_of_list (l : list ascii) :
  String.length (string_of_list_ascii l) = length l.
Proof. induction l as [|c l IH]; cbn; [reflexivity | rewrite IH; reflexivity]. Qed.

(** Characters of [[A-Z0-9]] are neither dots nor changed by [upper]. *)
Lemma is_AZ09_stable (c : ascii) :
  NetbiosSpec.is_AZ09 c = true ->
  Ascii.eqb c "."%char = false /\ NetbiosSpec.uppercase c = c.
Proof.
  destruct c as [[] [] [] [] [] [] [] []]; vm_compute;
    intros H; try discriminate H; split; reflexivity.
Qed.

Lemma derive_of_clean (l : list ascii) :
  forallb NetbiosSpec.is_AZ09 l = true ->
  List.filter NetbiosSpec.is_AZ09
    (map NetbiosSpec.uppercase (NetbiosSpec.first_label l)) = l.
Proof.
  induction l as [|c l IH]; cbn [forallb]; [reflexivity|].
  intros H. apply andb_prop in H as [Hc Hl].
  cbn [NetbiosSpec.first_label].
  destruct (is_AZ09_stable c Hc) as [-> Hup]. cbn [map List.filter].
  rewrite Hup, Hc, (IH Hl). reflexivity.
Qed.

Lemma forallb_firstn {A} (p : A -> bool) (n : nat) (l : list A) :
  forallb p l = true -> forallb p (firstn n l) = true.
Proof.
  revert l; induction n as [|n IH]; intros [|a l]; cbn; try reflexivity.
  intros H. apply andb_prop in H as [-> Hl]. cbn. apply IH, Hl.
Qed.

Lemma forallb_filter_same {A} (p : A -> bool) (l : list A) :
  forallb p (List.filter p l) = true.
Proof.
  induction l as [|a l IH]; cbn; [reflexivity|].
  destruct (p a) eqn:E; cbn; [rewrite E|]; exact IH.
Qed.

Lemma derive_netbios_checked (s : string) :
  check_netbios_name (NetbiosSpec.derive_netbios s)
  = Py.truthy (NetbiosSpec.derive_netbios s).
Proof.
  rewrite check_netbios_name_bool. unfold NetbiosSpec.derive_netbios.
  set (l := firstn 15 _).
  rewrite string_length_of_list, list_ascii_of_string_of_list_ascii.
  assert (Hlen : (length l <= 15)%nat) by apply List.firstn_le_length.
  assert (Hall : forallb NetbiosSpec.is_AZ09 l = true)
    by apply forallb_firstn, forallb_filter_same.
  rewrite Hall, (proj2 (Nat.leb_le _ _) Hlen), !andb_true_r. reflexivity.
Qed.

Lemma derive_netbios_of_valid (s : string) :
  check_netbios_name s = true -> NetbiosSpec.derive_netbios s = s.
Proof.
  rewrite check_netbios_name_bool.
  intros H. apply andb_prop in H as [H Hall]. apply andb_prop in H as [_ Hlen].
  apply Nat.leb_le in Hlen.
  unfold NetbiosSpec.derive_netbios. rewrite (derive_of_clean _ Hall).
  rewrite firstn_all2
    by (rewrite <- string_length_of_list, string_of_list_ascii_of_string;
        exact Hlen).
  apply string_of_list_ascii_of_string.
Qed.

(** X1: whatever the input, the name made by [make_netbios_name] is
    accepted by [check_netbios_name] unless it is empty. *)
Theorem make_netbios_name_checked (s : string) :
  exists r, make_netbios_name s = Some r
            /\ check_netbios_name r = Py.truthy r.
Proof.
  exists (NetbiosSpec.derive_netbios s).
  split; [apply make_netbios_name_eq | apply derive_netbios_checked].
Qed.

(** X2: a name accepted by [check_netbios_name] is left as it is by
    [make_netbios_name]. *)
Theorem make_netbios_name_keeps_valid (s : string) :
  check_netbios_name s = true -> make_netbios_name s = Some s.
Proof.
  intros H. rewrite make_netbios_name_eq, (derive_netbios_of_valid s H).
  reflexivity.
Qed.

Lemma make_netbios_name_keeps_valid_witness :
  check_netbios_name "IPA2" = true /\ make_netbios_name "IPA2" = Some "IPA2".
Proof.
  split; [reflexivity|].
  apply (make_netbios_name_keeps_valid "IPA2"). reflexivity.
Defined.

(** X3: [make_netbios_name] is idempotent: making a name from a made
    name changes nothing. *)
Theorem make_netbios_name_idempotent (s : string) :
  exists r, make_netbios_name s = Some r /\ make_netbios_name r = Some r.
Proof.
  exists (NetbiosSpec.derive_netbios s).
  split; [apply make_netbios_name_eq|].
  pose proof (derive_netbios_checked s) as Hcheck.
  destruct (NetbiosSpec.derive_netbios s) as [|c r] eqn:E; [reflexivity|].
  rewrite make_netbios_name_eq, (derive_netbios_of_valid _ Hcheck).
  reflexivity.
Qed.

(* ===================================================================== *)
(** * More on domain SIDs *)
(* ===================================================================== *)

Lemma uint_digits_no_dash (d : Decimal.uint) :
  Py.contains "-" (NilEmpty.string_of_uint d) = false.
Proof. induction d; cbn; try reflexivity; exact IHd. Qed.

Lemma fmt_d_no_dash (n : Z) : 0 <= n -> Py.contains "-" (fmt_d n) = false.
Proof.
  intros Hn. unfold fmt_d.
  destruct n as [|p|p]; [reflexivity | | lia].
  cbn. unfold NilZero.string_of_uint.
  destruct (Pos.to_uint p); try reflexivity; apply uint_digits_no_dash.
Qed.

Lemma fmt_d_inj (n m : Z) : fmt_d n = fmt_d m -> n = m.
Proof.
  intros H. pose proof (fmt_d_reads_back n) as Hn.
  rewrite H, fmt_d_reads_back in Hn. congruence.
Qed.

Lemma append_nil_l (s : string) : "" +:+ s = s.
Proof. reflexivity. Qed.

Lemma append_cons (c : ascii) (s t : string) :
  String c s +:+ t = String c (s +:+ t).
Proof. reflexivity. Qed.

(** Two dash-free fields followed by a dash are cut at the same place. *)
Lemma dash_field_inj (x1 x2 r1 r2 : string) :
  Py.contains "-" x1 = false -> Py.contains "-" x2 = false ->
  x1 +:+ "-" +:+ r1 = x2 +:+ "-" +:+ r2 -> x1 = x2 /\ r1 = r2.
Proof.
  revert x2. induction x1 as [|c x1 IH]; intros [|c2 x2] H1 H2 Heq;
    rewrite ?append_cons, ?append_nil_l in Heq; cbn in H1, H2.
  - injection Heq as ->. split; reflexivity.
  - injection Heq as <- _. discriminate H2.
  - injection Heq as -> _. discriminate H1.
  - injection Heq as -> Heq.
    apply orb_false_elim in H1 as [_ H1]. apply orb_false_elim in H2 as [_ H2].
    destruct (IH x2 H1 H2 Heq) as [-> ->]. split; reflexivity.
Qed.

Lemma byte_val_inj (a b : byte) : Struct.byte_val a = Struct.byte_val b -> a = b.
Proof.
  unfold Struct.byte_val. intros H. apply N2Z.inj in H.
  pose proof (Byte.of_to_N a) as Ha. rewrite H, Byte.of_to_N in Ha.
  congruence.
Qed.

Lemma uint32_le_inj (a0 a1 a2 a3 b0 b1 b2 b3 : byte) :
  Struct.uint32_le a0 a1 a2 a3 = Struct.uint32_le b0 b1 b2 b3 ->
  a0 = b0 /\ a1 = b1 /\ a2 = b2 /\ a3 = b3.
Proof.
  rewrite (proj1 (uint32_le_value a0 a1 a2 a3)),
          (proj1 (uint32_le_value b0 b1 b2 b3)).
  cbn [SidSpec.le_value]. intros H.
  pose proof (byte_val_range a0). pose proof (byte_val_range a1).
  pose proof (byte_val_range a2). pose proof (byte_val_range a3).
  pose proof (byte_val_range b0). pose proof (byte_val_range b1).
  pose proof (byte_val_range b2). pose proof (byte_val_range b3).
  repeat split; apply byte_val_inj; lia.
Qed.

Lemma sid_fields_inj (a1 b1 c1 a2 b2 c2 : Z) :
  0 <= a1 -> 0 <= b1 -> 0 <= a2 -> 0 <= b2 ->
  "S-1-5-21-" +:+ fmt_d a1 +:+ "-" +:+ fmt_d b1 +:+ "-" +:+ fmt_d c1
  = "S-1-5-21-" +:+ fmt_d a2 +:+ "-" +:+ fmt_d b2 +:+ "-" +:+ fmt_d c2 ->
  a1 = a2 /\ b1 = b2 /\ c1 = c2.
Proof.
  intros Ha1 Hb1 Ha2 Hb2 Heq.
  rewrite !append_cons, !append_nil_l in Heq.
  injection Heq as Heq.
  apply dash_field_inj in Heq as [Ha Heq]; try (apply fmt_d_no_dash; lia).
  apply dash_field_inj in Heq as [Hb Hc]; try (apply fmt_d_no_dash; lia).
  apply fmt_d_inj in Ha, Hb, Hc. auto.
Qed.

Lemma gen_sid_string_inj (bs1 bs2 : list byte) :
  length bs1 = 12%nat -> length bs2 = 12%nat ->
  gen_sid_string bs1 = gen_sid_string bs2 -> bs1 = bs2.
Proof.
  intros H1 H2.
  do 12 (destruct bs1 as [|? bs1]; [discriminate H1|]).
  destruct bs1; [|discriminate H1].
  do 12 (destruct bs2 as [|? bs2]; [discriminate H2|]).
  destruct bs2; [|discriminate H2].
  unfold gen_sid_string. cbn [Struct.unpack_LLL].
  intros Heq. apply (inj Some) in Heq.
  apply sid_fields_inj in Heq as (Ha & Hb & Hc);
    try apply (proj2 (uint32_le_value _ _ _ _)).
  apply uint32_le_inj in Ha as (-> & -> & -> & ->).
  apply uint32_le_inj in Hb as (-> & -> & -> & ->).
  apply uint32_le_inj in Hc as (-> & -> & -> & ->).
  reflexivity.
Qed.

(** X4: the SID string determines the random bytes: two different
    12-byte draws never give the same SID. *)
Theorem gen_sid_string_distinct (bs1 bs2 : list byte) :
  length bs1 = 12%nat -> length bs2 = 12%nat -> bs1 <> bs2 ->
  gen_sid_string bs1 <> gen_sid_string bs2.
Proof.
  intros H1 H2 Hne Heq. apply Hne.
  apply gen_sid_string_inj; assumption.
Qed.

Lemma gen_sid_string_distinct_witness :
  gen_sid_string
    [x01; x00; x00; x00; x02; x00; x00; x00; x03; x00; x00; x00]
  <> gen_sid_string
       [x0c; x00; x00; x00; x00; x00; x00; x00; x03; x00; x00; x00].
Proof.
  apply gen_sid_string_distinct; [reflexivity | reflexivity | discriminate].
Defined.

(* ===================================================================== *)
(** * More on the RID base step *)
(* ===================================================================== *)

Section RidBasesMore.

Context {D : Type} (conn : Directory D).
Variables (self : ADTRUSTInstance) (d : D).

Ltac rid_cases :=
  unfold add_rid_bases, add_rid_bases_try;
  destruct (get_entries conn d (container_ranges self ++ suffix self)
              SCOPE_ONELEVEL ranges_filter) as [[]|ranges] eqn:Hget;
  cbn zeta;
  [..|
   destruct (List.filter no_rid_base_set ranges) as [|r [|r2 rest]] eqn:Hflt;
   cbn [length Nat.eqb negb Py.index nth_error];
   [| destruct (py2_int_gt
                  (Z.abs (rid_base self - secondary_rid_base self))
                  (single_value r !! "ipaIDRangeSize")) eqn:Hgt;
      [ destruct (fmt_d_val (single_value r !! "ipaIDRangeSize")) eqn:Hfmt
      | destruct (modify_s conn d (dn r) (rid_mods self))
          as [[]|d'] eqn:Hmod ]
    |]];
  cbn [raised dir_after log app modify_calls flat_map].

(** X5: a run of [__add_rid_bases] that raises leaves the directory as it
    was. *)
Theorem add_rid_bases_raise_keeps_directory :
  raised (add_rid_bases conn self d) <> None ->
  dir_after (add_rid_bases conn self d) = d.
Proof. rid_cases; intros H; try reflexivity; contradiction. Qed.

(** X6: [__add_rid_bases] writes at most once, and only to the one range
    of the search result that has neither RID base set; what it writes
    are the two bases of the instance. *)
Theorem add_rid_bases_writes_candidate_only (t : DN) (m : modlist) :
  In (t, m) (modify_calls (log (add_rid_bases conn self d))) ->
  modify_calls (log (add_rid_bases conn self d)) = [(t, m)]
  /\ m = rid_mods self
  /\ exists ranges r,
       get_entries conn d (container_ranges self ++ suffix self)
         SCOPE_ONELEVEL ranges_filter = inr ranges
       /\ In r ranges /\ no_rid_base_set r = true
       /\ List.filter no_rid_base_set ranges = [r] /\ t = dn r.
Proof.
  rid_cases; intros Hin; cbn in Hin; try contradiction.
  all: destruct Hin as [Hin|[]].
  all: injection Hin as <- <-.
  all: repeat split; try reflexivity.
  all: exists ranges, r.
  all: assert (Hr : In r (List.filter no_rid_base_set ranges))
         by (rewrite Hflt; left; reflexivity).
  all: apply List.filter_In in Hr as [Hr1 Hr2]; auto.
Qed.

(** X7: the critical message "ID range of the local domain not found"
    is logged exactly when the step ends with NotFound. *)
Theorem add_rid_bases_not_found_logged :
  In (LogCritical range_not_found_msg) (log (add_rid_bases conn self d))
  <-> raised (add_rid_bases conn self d) = Some NotFound.
Proof.
  rid_cases; split; intros H; try discriminate H; try reflexivity;
    cbn in H |- *; intuition (try discriminate; auto).
Qed.

End RidBasesMore.

Lemma add_rid_bases_raise_keeps_directory_witness :
  let d := {| TestDirectory.entries := [TestDirectory.fresh_range "a" 200000;
                                        TestDirectory.fresh_range "b" 200000];
              TestDirectory.reject := None |} in
  raised (add_rid_bases TestDirectory.conn
            (TestDirectory.instance 1000000 1300000) d) <> None
  /\ dir_after (add_rid_bases TestDirectory.conn
                  (TestDirectory.instance 1000000 1300000) d) = d.
Proof.
  intros d.
  assert (H : raised (add_rid_bases TestDirectory.conn
                        (TestDirectory.instance 1000000 1300000) d) <> None)
    by (vm_compute; discriminate).
  split; [exact H|].
  apply (add_rid_bases_raise_keeps_directory TestDirectory.conn _ d H).
Defined.

Lemma add_rid_bases_writes_candidate_only_witness :
  let self := TestDirectory.instance 1000000 1100000 in
  let r := TestDirectory.fresh_range "local" 200000 in
  let d := {| TestDirectory.entries := [TestDirectory.based_range "old"; r];
              TestDirectory.reject := None |} in
  In (dn r, rid_mods self)
     (modify_calls (log (add_rid_bases TestDirectory.conn self d)))
  /\ modify_calls (log (add_rid_bases TestDirectory.conn self d))
     = [(dn r, rid_mods self)].
Proof.
  intros self r d.
  assert (H : In (dn r, rid_mods self)
                (modify_calls (log (add_rid_bases TestDirectory.conn self d))))
    by (vm_compute; left; reflexivity).
  split; [exact H|].
  apply (add_rid_bases_writes_candidate_only TestDirectory.conn self d _ _ H).
Defined.

(* ===================================================================== *)
(** * More on the admin SID step *)
(* ===================================================================== *)

Section AdminSidsMore.

Context {D : Type} (conn : Directory D).
Variables (self : ADTRUSTInstance) (d : D).

Lemma set_sid_unless_present_calls_from (d0 : D) (entry : Entry)
    (target : DN) (objc rid present_msg fail_msg : string)
    (dom_sid : option pyval) (t : DN) (m : modlist) :
  In (t, m)
     (modify_calls
        (snd (set_sid_unless_present conn d0 entry target objc dom_sid rid
                present_msg fail_msg))) ->
  exists S, dom_sid = Some (PyStr S)
            /\ t = target /\ m = sid_mods objc (S +:+ rid).
Proof.
  unfold set_sid_unless_present.
  destruct (val_truthy (single_value entry !! ATTR_SID)); [intros []|].
  destruct dom_sid as [[z|S]|]; cbn [str_add]; try (intros []).
  destruct (modify_s conn d0 target _); cbn;
    intros [H|[]]; injection H as <- <-; exists S; auto.
Qed.

(** X8: [__add_admin_sids] raises only what reading the domain object
    raises, and never NotFound: failed reads of the admin entries and
    failed writes end the step quietly. *)
Theorem add_admin_sids_raises_only_first_read (e : exn) :
  raised (add_admin_sids conn self d) = Some e
  <-> get_entry conn d (smb_dom_dn self) = inl e /\ e <> NotFound.
Proof.
  unfold add_admin_sids.
  destruct (get_entry conn d (smb_dom_dn self)) as [e0|dom].
  - destruct e0; cbn; split;
      try (intros [= <-]; split; [reflexivity | discriminate]);
      try (intros [[= <-] _]; reflexivity);
      try discriminate.
    intros [[= <-] H]. contradiction.
  - split; [|intros [[=] _]].
    destruct (negb (val_truthy (single_value dom !! ATTR_SID)));
      [discriminate|].
    destruct (get_entry conn d (admin_dn self)); [discriminate|].
    destruct (get_entry conn d (admin_group_dn self)); [discriminate|].
    destruct (set_sid_unless_present _ _ _ _ _ _ _ _ _).
    destruct (set_sid_unless_present _ _ _ _ _ _ _ _ _).
    discriminate.
Qed.

(** X9: every write of [__add_admin_sids] goes to the admin user with the
    domain SID followed by -500, or to the admins group with the domain
    SID followed by -512, where the domain SID is the string read from
    the domain object. *)
Theorem add_admin_sids_writes_only_admin_sids (t : DN) (m : modlist) :
  In (t, m) (modify_calls (log (add_admin_sids conn self d))) ->
  exists dom S,
    get_entry conn d (smb_dom_dn self) = inr dom
    /\ single_value dom !! ATTR_SID = Some (PyStr S)
    /\ ((t = admin_dn self /\ m = sid_mods OBJC_USER (S +:+ "-500"))
        \/ (t = admin_group_dn self
            /\ m = sid_mods OBJC_GROUP (S +:+ "-512"))).
Proof.
  unfold add_admin_sids.
  destruct (get_entry conn d (smb_dom_dn self)) as [[]|dom];
    try (intros []).
  destruct (negb (val_truthy (single_value dom !! ATTR_SID)));
    [intros []|].
  destruct (get_entry conn d (admin_dn self)) as [|admin]; [intros []|].
  destruct (get_entry conn d (admin_group_dn self)) as [|group];
    [intros []|].
  pose proof (set_sid_unless_present_calls_from d admin (admin_dn self)
                OBJC_USER "-500" "Admin SID already set, nothing to do"
                "Failed to modify IPA admin object"
                (single_value dom !! ATTR_SID) t m) as H1.
  destruct (set_sid_unless_present conn d admin _ _ _ _ _ _) as [d1 log1].
  pose proof (set_sid_unless_present_calls_from d1 group
                (admin_group_dn self) OBJC_GROUP "-512"
                "Admin group SID already set, nothing to do"
                "Failed to modify IPA admin group object"
                (single_value dom !! ATTR_SID) t m) as H2.
  destruct (set_sid_unless_present conn d1 group _ _ _ _ _ _) as [d2 log2].
  cbn [snd log] in *. rewrite modify_calls_app, in_app_iff.
  intros [H|H]; [apply H1 in H | apply H2 in H];
    destruct H as (S & HS & -> & ->); exists dom, S; auto.
Qed.

End AdminSidsMore.

Lemma add_admin_sids_raises_only_first_read_witness :
  let d := {| TestDirectory.entries := []; TestDirectory.reject := None |} in
  let failing : Directory TestDirectory.state :=
    {| get_entry := fun _ _ => inl (OtherError "SERVER_DOWN");
       get_entries := TestDirectory.children;
       modify_s := TestDirectory.modify |} in
  raised (add_admin_sids failing (TestDirectory.instance 0 0) d)
  = Some (OtherError "SERVER_DOWN").
Proof.
  intros d failing.
  apply (add_admin_sids_raises_only_first_read failing
           (TestDirectory.instance 0 0) d (OtherError "SERVER_DOWN")).
  split; [reflexivity | discriminate].
Defined.

Lemma add_admin_sids_writes_only_admin_sids_witness :
  let self := TestDirectory.instance 0 0 in
  let d := {| TestDirectory.entries :=
                [TestDirectory.dom_entry (Some "S-1-5-21-7-8-9");
                 TestDirectory.admin_entry; TestDirectory.admins_entry];
              TestDirectory.reject := None |} in
  In (admin_group_dn self, sid_mods OBJC_GROUP "S-1-5-21-7-8-9-512")
     (modify_calls (log (add_admin_sids TestDirectory.conn self d)))
  /\ exists dom S,
       get_entry TestDirectory.conn d (smb_dom_dn self) = inr dom
       /\ single_value dom !! ATTR_SID = Some (PyStr S).
Proof.
  intros self d.
  assert (H : In (admin_group_dn self,
                  sid_mods OBJC_GROUP "S-1-5-21-7-8-9-512")
                (modify_calls
                   (log (add_admin_sids TestDirectory.conn self d))))
    by (vm_compute; right; left; reflexivity).
  split; [exact H|].
  destruct (add_admin_sids_writes_only_admin_sids TestDirectory.conn self d
              _ _ H) as (dom & S & H1 & H2 & _).
  exists dom, S. split; assumption.
Defined.

(* ===================================================================== *)
(** * More on the step list *)
(* ===================================================================== *)

(** X10: in every configuration the step list starts with stopping smbd,
    holds each action at most once, holds the two optional actions exactly
    when their flag is set, and restarts the directory server before it
    adds the fallback group. *)
Theorem create_instance_steps_order (self : ADTRUSTInstance) :
  hd_error (map action (create_instance_steps self)) = Some m_stop
  /\ NoDup (map action (create_instance_steps self))
  /\ (In m_enable_compat_tree (map action (create_instance_steps self))
      <-> enable_compat self = true)
  /\ (In m_add_sids (map action (create_instance_steps self))
      <-> add_sids self = true)
  /\ exists l1 l2 l3,
       map action (create_instance_steps self)
       = l1 ++ m_restart_dirsrv :: l2 ++ m_add_fallback_group :: l3.
Proof.
  unfold create_instance_steps.
  destruct (enable_compat self), (add_sids self); cbn.
  all: split; [reflexivity|].
  all: split;
    [repeat (apply NoDup_cons_2;
             [rewrite list_elem_of_In; cbn; intuition discriminate|]);
     apply NoDup_nil_2|].
  all: split;
    [split; intros H;
     [first [reflexivity | exfalso; intuition discriminate]
     | first [discriminate H | tauto]]|].
  all: split;
    [split; intros H;
     [first [reflexivity | exfalso; intuition discriminate]
     | first [discriminate H | tauto]]|].
  1,2: exists [m_stop; m_create_samba_domain_object; m_write_smb_registry;
               m_write_smb_conf; m_setup_principal; m_setup_group_membership;
               m_check_replica; m_add_s4u2proxy_target; m_add_admin_sids;
               m_add_rid_bases; m_update_krb5_conf; m_add_cldap_module;
               m_add_sidgen_task; m_enable; m_add_dns_service_records;
               m_enable_compat_tree], [];
    eexists; reflexivity.
  all: exists [m_stop; m_create_samba_domain_object; m_write_smb_registry;
               m_write_smb_conf; m_setup_principal; m_setup_group_membership;
               m_check_replica; m_add_s4u2proxy_target; m_add_admin_sids;
               m_add_rid_bases; m_update_krb5_conf; m_add_cldap_module;
               m_add_sidgen_task; m_enable; m_add_dns_service_records], [];
    eexists; reflexivity.
Qed.

(* ===================================================================== *)
(** * More on uninstall *)
(* ===================================================================== *)

Lemma str_length_app (p s : string) :
  String.length (p +:+ s) = (String.length p + String.length s)%nat.
Proof.
  induction p as [|c p IH]; [reflexivity|].
  rewrite append_cons. cbn [String.length]. rewrite IH. reflexivity.
Qed.

Lemma substring_all (s : string) : String.substring 0 (String.length s) s = s.
Proof. induction s as [|c s IH]; cbn; [reflexivity | rewrite IH; reflexivity]. Qed.

Lemma substring_app_suffix (p suf : string) :
  String.substring (String.length p) (String.length suf) (p +:+ suf) = suf.
Proof.
  induction p as [|c p IH]; [apply substring_all|].
  rewrite append_cons. cbn [String.length String.substring]. exact IH.
Qed.

Lemma substring_split (s : string) (n : nat) :
  (n <= String.length s)%nat ->
  exists p, s = p +:+ String.substring n (String.length s - n) s.
Proof.
  revert s. induction n as [|n IH]; intros s Hn.
  - exists EmptyString. rewrite Nat.sub_0_r, substring_all. reflexivity.
  - destruct s as [|c s]; [cbn in Hn; lia|].
    cbn [String.length] in Hn. destruct (IH s ltac:(lia)) as [p Hp].
    exists (String c p). rewrite append_cons.
    cbn [String.length String.substring Nat.sub]. rewrite <- Hp. reflexivity.
Qed.

(** [endswith] holds exactly for the strings that end in the suffix. *)
Lemma endswith_spec (s suf : string) :
  endswith s suf = true <-> exists p, s = p +:+ suf.
Proof.
  unfold endswith. rewrite andb_true_iff, Nat.leb_le, String.eqb_eq. split.
  - intros [Hlen Hsub].
    destruct (substring_split s (String.length s - String.length suf)
                ltac:(lia)) as [p Hp].
    replace (String.length s - (String.length s - String.length suf))%nat
      with (String.length suf) in Hp by lia.
    rewrite Hsub in Hp. exists p. exact Hp.
  - intros [p ->]. rewrite str_length_app. split; [lia|].
    replace (String.length p + String.length suf - String.length suf)%nat
      with (String.length p) by lia.
    apply substring_app_suffix.
Qed.

(** X12: [uninstall] removes samba's credentials cache and the samba
    configuration file and then lists the samba directory.  When the
    listing is returned, the entries whose name ends in ".tdb" are removed
    as well, each under the bare name the listing gave, and no other file
    is removed.  When [os.listdir] raises, [uninstall] ends with that
    exception: only the first two files are removed and the keytab is not
    cleaned. *)
Theorem uninstall_removed_files (self : ADTRUSTInstance) (h : Host)
    (sstore : StateStore.t) (f : string) :
  let r := snd (uninstall self h sstore) in
  (In (RemoveFile f) (fst r)
   <-> f = KRB5CC_SAMBA h \/ f = smb_conf self
       \/ (exists names, samba_dir_listing h = inr names /\ In f names
                         /\ exists stem, f = stem +:+ ".tdb"))
  /\ snd r = match samba_dir_listing h with
             | inl e => Some e
             | inr _ => None
             end
  /\ (forall e, samba_dir_listing h = inl e ->
        forall args, ~ In (RunCmd args) (fst r)).
Proof.
  cbn zeta. unfold uninstall, StateStore.restore_state, service_name.
  cbn [fold_left SELINUX_BOOLEAN_SETTINGS snd].
  assert (H0 : forall ev, (exists g, ev = RemoveFile g)
                          \/ (exists args, ev = RunCmd args) ->
                 ~ In ev
                     (if is_configured h
                      then [PrintMsg ("Unconfiguring " +:+ "smb")] else []))
    by (intros ev [[g ->]|[g ->]]; destruct (is_configured h); cbn;
        intuition discriminate).
  assert (H1 : forall ev, (exists g, ev = RemoveFile g)
                          \/ (exists args, ev = RunCmd args) ->
                 ~ In ev
                     (try_calls
                        [(SvcStop "smb", stop_raises h "smb");
                         (SvcDisable "smb", disable_raises h "smb");
                         (SvcStop "winbind", stop_raises h "winbind");
                         (SvcDisable "winbind", disable_raises h "winbind")])).
  { intros ev Hev Hin. apply in_try_calls in Hin. cbn in Hin.
    destruct Hev as [[g ->]|[g ->]]; intuition discriminate. }
  assert (H2 : forall ev (b : bool) (name : string),
                 (exists g, ev = RemoveFile g)
                 \/ (exists args, ev = RunCmd args) ->
                 ~ In ev (if b then [SvcStop name] else [])
                 /\ ~ In ev (if b then [SvcDisable name] else []))
    by (intros ev [] name [[g ->]|[g ->]]; cbn; intuition discriminate).
  assert (H4 : forall ev bs,
                 (exists g, ev = RemoveFile g)
                 \/ (exists args, ev = RunCmd args) ->
                 ~ In ev (SetSelinuxBooleans bs
                          :: match setsebool_error h with
                             | Some msg => [PrintMsg ("WARNING: " +:+ msg)]
                             | None => []
                             end))
    by (intros ev bs [[g ->]|[g ->]]; destruct (setsebool_error h); cbn;
        intuition discriminate).
  assert (H5 : ~ In (RemoveFile f) (clean_samba_keytab self h)).
  { unfold clean_samba_keytab. destruct (keytab_exists h); [|intros []].
    destruct (rmkeytab_returncode h) as [rc|]; cbn;
      [destruct (negb (rc =? 5)); cbn|]; intuition discriminate. }
  assert (Hf : exists g, RemoveFile f = RemoveFile g) by (exists f; reflexivity).
  destruct (samba_dir_listing h) as [e|names]; cbn [fst snd].
  - split; [|split; [reflexivity|]].
    + rewrite !in_app_iff. split.
      * intros [H|[H|[H|[H|[H|H]]]]].
        -- destruct (H0 _ (or_introl Hf) H).
        -- destruct (H1 _ (or_introl Hf) H).
        -- destruct (proj1 (H2 _ _ _ (or_introl Hf)) H).
        -- destruct (proj2 (H2 _ _ _ (or_introl Hf)) H).
        -- destruct (H4 _ _ (or_introl Hf) H).
        -- cbn in H. destruct H as [[= <-]|[[= <-]|[]]]; auto.
      * intros [->|[->|(names & [=] & _)]].
        -- do 5 right. left. reflexivity.
        -- do 5 right. right. left. reflexivity.
    + intros e' _ args. rewrite !in_app_iff.
      assert (Hr : exists a, RunCmd args = RunCmd a) by (exists args; reflexivity).
      intros [H|[H|[H|[H|[H|H]]]]].
      * destruct (H0 _ (or_intror Hr) H).
      * destruct (H1 _ (or_intror Hr) H).
      * destruct (proj1 (H2 _ _ _ (or_intror Hr)) H).
      * destruct (proj2 (H2 _ _ _ (or_intror Hr)) H).
      * destruct (H4 _ _ (or_intror Hr) H).
      * cbn in H. intuition discriminate.
  - split; [|split; [reflexivity | intros e' [=]]].
    rewrite !in_app_iff, in_map_iff. split.
    + intros [H|[H|[H|[H|[H|[H|[H|H]]]]]]].
      * destruct (H0 _ (or_introl Hf) H).
      * destruct (H1 _ (or_introl Hf) H).
      * destruct (proj1 (H2 _ _ _ (or_introl Hf)) H).
      * destruct (proj2 (H2 _ _ _ (or_introl Hf)) H).
      * destruct (H4 _ _ (or_introl Hf) H).
      * cbn in H. destruct H as [[= <-]|[[= <-]|[]]]; auto.
      * destruct H as (g & [= <-] & Hg).
        apply List.filter_In in Hg as [Hin Hend].
        apply endswith_spec in Hend. right. right. exists names. auto.
      * contradiction.
    + intros [->|[->|(names' & [= <-] & Hin & Hstem)]].
      * do 5 right. left. left. reflexivity.
      * do 5 right. left. right. left. reflexivity.
      * do 6 right. left. exists f. split; [reflexivity|].
        apply List.filter_In. split; [exact Hin|].
        apply endswith_spec. exact Hstem.
Qed.

Lemma uninstall_removed_files_witness :
  let self := TestDirectory.instance 0 0 in
  let failed := snd (uninstall self TestMachine.bare_host ∅) in
  let listed := snd (uninstall self TestMachine.quiet_host ∅) in
  snd failed = Some (OtherError "OSError")
  /\ (forall args, ~ In (RunCmd args) (fst failed))
  /\ ~ In (RemoveFile "secrets.tdb") (fst failed)
  /\ snd listed = None
  /\ In (RemoveFile "secrets.tdb") (fst listed)
  /\ ~ In (RemoveFile "smb.conf.bak") (fst listed).
Proof.
  intros self failed listed.
  destruct (uninstall_removed_files self TestMachine.bare_host ∅
              "secrets.tdb") as (Hf & Hraised & Hrun).
  destruct (uninstall_removed_files self TestMachine.quiet_host ∅
              "secrets.tdb") as (Hl & Hnone & _).
  destruct (uninstall_removed_files self TestMachine.quiet_host ∅
              "smb.conf.bak") as (Hb & _ & _).
  split; [exact Hraised|]. split; [exact (Hrun _ eq_refl)|].
  split; [|split; [exact Hnone|split]].
  - intros Hin. apply Hf in Hin.
    destruct Hin as [H|[H|(names & H & _)]]; discriminate H.
  - apply Hl. right. right. exists ["secrets.tdb"; "smb.conf.bak"].
    split; [reflexivity|]. split; [left; reflexivity|].
    exists "secrets". reflexivity.
  - intros Hin. apply Hb in Hin.
    destruct Hin as [H|[H|(names & _ & _ & stem & H)]]; try discriminate H.
    assert (He : endswith "smb.conf.bak" ".tdb" = true)
      by (apply endswith_spec; exists stem; exact H).
    vm_compute in He. discriminate He.
Defined.

(* ===================================================================== *)
(** * The samba configuration file: theorems *)
(* ===================================================================== *)

Lemma prefix_spec (m s : string) :
  String.prefix m s = true <-> exists post, s = m +:+ post.
Proof.
  revert s. induction m as [|a m IH]; intros s.
  - split; [intros _; exists s; reflexivity | destruct s; reflexivity].
  - destruct s as [|b s]; cbn [String.prefix].
    + split; [discriminate | intros [post H]; discriminate H].
    + destruct (ascii_dec a b) as [->|Hne].
      * rewrite IH. split; intros [post H]; exists post.
        -- rewrite append_cons, <- H. reflexivity.
        -- rewrite append_cons in H. injection H as H. exact H.
      * split; [discriminate|]. intros [post H].
        rewrite append_cons in H. injection H as H _. congruence.
Qed.

Section Lines.

(** A marker that is not empty and holds no newline. *)
Variables (a : ascii) (m' : string).
Let m := String a m'.
Hypothesis Hm : Py.contains (ascii_of_nat 10) m = false.

Lemma prefix_first_line (p s : string) :
  Py.contains (ascii_of_nat 10) p = false ->
  String.prefix p (hd EmptyString (readlines s)) = String.prefix p s.
Proof.
  revert s. induction p as [|b p IH]; intros s Hp;
    [destruct s, (hd EmptyString (readlines _)); reflexivity|].
  cbn in Hp. apply orb_false_elim in Hp as [Hb Hp].
  destruct s as [|c s]; [reflexivity|].
  cbn [readlines]. destruct (Ascii.eqb c (ascii_of_nat 10)) eqn:Hc.
  - apply Ascii.eqb_eq in Hc. subst c. cbn [hd String.prefix].
    destruct (ascii_dec b (ascii_of_nat 10)) as [->|_]; [|reflexivity].
    rewrite Ascii.eqb_refl in Hb. discriminate Hb.
  - specialize (IH s Hp).
    destruct (readlines s) as [|l ls]; cbn [hd String.prefix] in *;
      destruct (ascii_dec b c); try reflexivity; exact IH.
Qed.

Lemma existsb_lines (s : string) :
  existsb (String.prefix m) (readlines s)
  = (String.prefix m s
     || existsb (String.prefix m) (tl (readlines s)))%bool.
Proof.
  rewrite <- (prefix_first_line m s Hm).
  destruct (readlines s) as [|l ls]; reflexivity.
Qed.

Lemma later_lines (s : string) :
  existsb (String.prefix m) (tl (readlines s)) = true
  <-> exists p post, s = (p +:+ nl) +:+ m +:+ post.
Proof.
  induction s as [|c s IH].
  - split; [discriminate|]. intros (p & post & H).
    destruct p; discriminate H.
  - cbn [readlines]. destruct (Ascii.eqb c (ascii_of_nat 10)) eqn:Hc.
    + apply Ascii.eqb_eq in Hc. subst c. cbn [tl].
      rewrite existsb_lines, orb_true_iff, prefix_spec, IH. split.
      * intros [[post ->]|(p & post & ->)].
        -- exists EmptyString, post. reflexivity.
        -- exists (String (ascii_of_nat 10) p), post. reflexivity.
      * intros (p & post & H). destruct p as [|c p].
        -- left. exists post. injection H as H. exact H.
        -- right. exists p, post. rewrite !append_cons in H.
           injection H as _ H. exact H.
    + assert (Htl : tl (match readlines s with
                        | [] => [String c EmptyString]
                        | l :: ls => String c l :: ls
                        end) = tl (readlines s))
        by (destruct (readlines s); reflexivity).
      rewrite Htl, IH. split.
      * intros (p & post & ->). exists (String c p), post. reflexivity.
      * intros (p & post & H). destruct p as [|c' p].
        -- injection H as H _. subst c. discriminate Hc.
        -- exists p, post. rewrite !append_cons in H.
           injection H as _ H. exact H.
Qed.

Lemma line_starting_spec (s : string) :
  existsb (String.prefix m) (readlines s) = true <-> has_line_starting m s.
Proof.
  rewrite existsb_lines, orb_true_iff, prefix_spec, later_lines.
  unfold has_line_starting. split.
  - intros [[post ->]|(p & post & ->)].
    + exists EmptyString, post. split; [reflexivity | left; reflexivity].
    + exists (p +:+ nl), post. split; [reflexivity | right; eauto].
  - intros (pre & post & -> & [->|[p ->]]).
    + left. exists post. reflexivity.
    + right. exists p, post. reflexivity.
Qed.

End Lines.

(** X13: [ipa_smb_conf_exists] answers True exactly when some line of
    smb.conf starts with the installer's marker, and False when the file
    does not exist; on any other IOError it does not answer but raises
    UnboundLocalError. *)
Theorem ipa_smb_conf_exists_spec :
  (forall text,
      ipa_smb_conf_exists (inr text) = inr true
      <-> has_line_starting ADDED_BY_IPA text)
  /\ ipa_smb_conf_exists (inl ENOENT) = inr false
  /\ (forall errno, errno <> ENOENT ->
        ipa_smb_conf_exists (inl errno) = inl (OtherError "UnboundLocalError")).
Proof.
  split; [|split].
  - intros text. unfold ipa_smb_conf_exists.
    rewrite <- (line_starting_spec "#" "## Added by IPA Installer ###"
                  eq_refl text).
    split; [intros [= H]; exact H | intros H; f_equal; exact H].
  - reflexivity.
  - intros errno Hne. unfold ipa_smb_conf_exists.
    destruct (Z.eqb_spec errno ENOENT); [contradiction | reflexivity].
Qed.

(** X14: whatever smb.conf held before, once [__write_smb_conf] has
    written it [ipa_smb_conf_exists] answers True. *)
Theorem write_smb_conf_then_exists (self : ADTRUSTInstance)
    (fs fs' : gmap string string) :
  write_smb_conf self true fs = inr fs' ->
  ipa_smb_conf_exists (open_read fs' (smb_conf self)) = inr true.
Proof.
  intros [= <-]. unfold open_read. rewrite lookup_insert_eq. reflexivity.
Qed.

Lemma write_smb_conf_then_exists_witness :
  let self := TestDirectory.instance 0 0 in
  let fs : gmap string string := {[ smb_conf self := "[global]" ]} in
  ipa_smb_conf_exists (open_read fs (smb_conf self)) = inr false
  /\ exists fs', write_smb_conf self true fs = inr fs'
                 /\ ipa_smb_conf_exists (open_read fs' (smb_conf self))
                    = inr true.
Proof.
  intros self fs. split; [vm_compute; reflexivity|].
  eexists. split; [reflexivity|].
  apply (write_smb_conf_then_exists self fs). reflexivity.
Defined.

(* ===================================================================== *)
(** * The Kerberos configuration file: theorems *)
(* ===================================================================== *)

Lemma skip_ws_app (w s : string) :
  all_space w = true -> skip_ws (w +:+ s) = skip_ws s.
Proof.
  unfold all_space. induction w as [|c w IH]; cbn; [reflexivity|].
  intros H. apply andb_prop in H as [Hc Hw].
  rewrite append_cons. cbn [skip_ws]. rewrite Hc. exact (IH Hw).
Qed.

Lemma skip_ws_decomp (s : string) :
  exists w, all_space w = true /\ s = w +:+ skip_ws s.
Proof.
  induction s as [|c s (w & Hw & IH)].
  - exists EmptyString. split; reflexivity.
  - cbn [skip_ws]. destruct (is_space c) eqn:Hc.
    + exists (String c w). split.
      * unfold all_space in *. cbn. rewrite Hc. exact Hw.
      * rewrite append_cons, <- IH. reflexivity.
    + exists EmptyString. split; reflexivity.
Qed.

Lemma skip_ws_all_space (w : string) :
  all_space w = true -> skip_ws w = EmptyString.
Proof.
  unfold all_space. induction w as [|c w IH]; cbn; [reflexivity|].
  intros H. apply andb_prop in H as [-> Hw]. exact (IH Hw).
Qed.

Lemma skip_ws_empty (r : string) :
  skip_ws r = EmptyString -> all_space r = true.
Proof.
  intros H. destruct (skip_ws_decomp r) as (w & Hw & Hr).
  rewrite H in Hr. rewrite Hr.
  replace (w +:+ "") with w; [exact Hw|].
  clear. induction w as [|c w IH]; [reflexivity|].
  rewrite append_cons, <- IH. reflexivity.
Qed.

Lemma strip_prefix_spec (p s r : string) :
  strip_prefix p s = Some r <-> s = p +:+ r.
Proof.
  revert s. induction p as [|a p IH]; intros s; cbn [strip_prefix].
  - split; [intros [= ->]; reflexivity | intros ->; reflexivity].
  - destruct s as [|b s]; rewrite append_cons.
    + split; discriminate.
    + destruct (Ascii.eqb_spec a b) as [->|Hne].
      * rewrite IH. split; [intros ->; reflexivity | intros [= ->]; reflexivity].
      * split; [discriminate | intros [= <- _]; contradiction].
Qed.

(** The four character classes of the pattern against [upper]. *)
Lemma class_upper (c : ascii) (lower upper : ascii) :
  Py.upper_char lower = upper -> is_space upper = false ->
  Py.upper_char upper = upper -> lower <> upper ->
  nat_of_ascii lower = (nat_of_ascii upper + 32)%nat ->
  Py.contains c (String upper (String lower EmptyString)) = true
  <-> Py.upper_char c = upper.
Proof.
  intros Hl Hs Hu Hne Hn. cbn [Py.contains].
  rewrite orb_false_r, orb_true_iff, !Ascii.eqb_eq. split.
  - intros [->| ->]; assumption.
  - unfold Py.upper_char in *.
    destruct (Nat.leb 97 (nat_of_ascii c) && Nat.leb (nat_of_ascii c) 122)%bool
      eqn:Hrange.
    + intros H. right.
      apply andb_prop in Hrange as [H1 H2].
      apply Nat.leb_le in H1, H2.
      apply (f_equal nat_of_ascii) in H.
      rewrite nat_ascii_embedding in H by lia.
      rewrite <- (ascii_nat_embedding c), <- (ascii_nat_embedding lower).
      f_equal. lia.
    + intros ->. left. reflexivity.
Qed.

Lemma class_T (c : ascii) :
  Py.contains c "Tt" = true <-> Py.upper_char c = "T"%char.
Proof. apply class_upper; try reflexivity; discriminate. Qed.

Lemma class_R (c : ascii) :
  Py.contains c "Rr" = true <-> Py.upper_char c = "R"%char.
Proof. apply class_upper; try reflexivity; discriminate. Qed.

Lemma class_U (c : ascii) :
  Py.contains c "Uu" = true <-> Py.upper_char c = "U"%char.
Proof. apply class_upper; try reflexivity; discriminate. Qed.

Lemma class_E (c : ascii) :
  Py.contains c "Ee" = true <-> Py.upper_char c = "E"%char.
Proof. apply class_upper; try reflexivity; discriminate. Qed.

Lemma class_T_not_space (c : ascii) :
  Py.contains c "Tt" = true -> is_space c = false.
Proof.
  cbn [Py.contains]. rewrite orb_false_r, orb_true_iff, !Ascii.eqb_eq.
  intros [->| ->]; reflexivity.
Qed.

Lemma dns_lookup_kdc_true_spec (line : string) :
  dns_lookup_kdc_true line = true <-> dns_lookup_kdc_line line.
Proof.
  unfold dns_lookup_kdc_true, dns_lookup_kdc_line. split.
  - destruct (strip_prefix "dns_lookup_kdc" (skip_ws line)) as [r1|] eqn:H1;
      [|discriminate].
    apply strip_prefix_spec in H1.
    destruct (skip_ws r1) as [|eq r2] eqn:H2; [discriminate|].
    destruct (Ascii.eqb_spec eq "="%char) as [->|]; [|discriminate].
    destruct (skip_ws r2) as [|t [|r [|u [|e r3]]]] eqn:H3; try discriminate.
    intros H. repeat (apply andb_prop in H as [H ?]).
    destruct (skip_ws_decomp line) as (w1 & Hw1 & Hl).
    destruct (skip_ws_decomp r1) as (w2 & Hw2 & Hr1).
    destruct (skip_ws_decomp r2) as (w3 & Hw3 & Hr2).
    exists w1, w2, w3, r3,
      (String t (String r (String u (String e EmptyString)))).
    repeat split; try assumption.
    + apply skip_ws_empty. destruct (skip_ws r3); [reflexivity|discriminate].
    + cbn [Py.upper].
      rewrite (proj1 (class_T t)), (proj1 (class_R r)),
              (proj1 (class_U u)), (proj1 (class_E e)) by assumption.
      reflexivity.
    + rewrite Hl, H1, Hr1, H2, Hr2, H3. reflexivity.
  - intros (w1 & w2 & w3 & w4 & t & Hw1 & Hw2 & Hw3 & Hw4 & Ht & ->).
    destruct t as [|t [|r [|u [|e [|x rest]]]]]; try discriminate Ht.
    cbn [Py.upper] in Ht. injection Ht as Ht Hr Hu He.
    apply class_T in Ht. apply class_R in Hr.
    apply class_U in Hu. apply class_E in He.
    set (T := String t (String r (String u (String e EmptyString)))).
    set (rest2 := w3 +:+ T +:+ w4).
    set (rest1 := w2 +:+ "=" +:+ rest2).
    assert (E1 : skip_ws (w1 +:+ "dns_lookup_kdc" +:+ rest1)
                 = "dns_lookup_kdc" +:+ rest1)
      by (rewrite skip_ws_app by assumption; reflexivity).
    assert (E2 : skip_ws rest1 = String "=" rest2)
      by (unfold rest1; rewrite skip_ws_app by assumption; reflexivity).
    assert (E3 : skip_ws rest2
                 = String t (String r (String u (String e w4)))).
    { unfold rest2, T. rewrite skip_ws_app by assumption.
      rewrite !append_cons, append_nil_l. cbn [skip_ws].
      rewrite (class_T_not_space t Ht). reflexivity. }
    rewrite E1, (proj2 (strip_prefix_spec _ _ rest1) eq_refl), E2.
    rewrite Ascii.eqb_refl, E3, Ht, Hr, Hu, He.
    rewrite (skip_ws_all_space w4 Hw4). reflexivity.
Qed.

(** X15: the pattern of [__update_krb5_conf] accepts exactly the lines
    made of the key, an equals sign and "true" in any mix of cases, with
    any white space before, between and after; a line where anything else
    comes before the key, such as a comment sign, is not accepted. *)
Theorem dns_lookup_kdc_pattern (line : string) :
  (dns_lookup_kdc_true line = true <-> dns_lookup_kdc_line line)
  /\ (forall (c : ascii) (rest : string),
        is_space c = false -> c <> "d"%char ->
        dns_lookup_kdc_true (String c rest) = false).
Proof.
  split; [apply dns_lookup_kdc_true_spec|].
  intros c rest Hc Hd. unfold dns_lookup_kdc_true.
  cbn [skip_ws]. rewrite Hc. cbn [strip_prefix].
  destruct (Ascii.eqb_spec "d"%char c) as [<-|_]; [contradiction|reflexivity].
Qed.

Lemma dns_lookup_kdc_pattern_witness :
  dns_lookup_kdc_true ("  dns_lookup_kdc =   TrUe " +:+ nl) = true
  /\ dns_lookup_kdc_true ("# dns_lookup_kdc = true" +:+ nl) = false
  /\ dns_lookup_kdc_true (" dns_lookup_kdc = false" +:+ nl) = false.
Proof.
  split; [|split; [|reflexivity]].
  - apply (proj1 (dns_lookup_kdc_pattern _)).
    exists "  ", " ", "   ", (" " +:+ nl), "TrUe". repeat split; reflexivity.
  - apply (proj2 (dns_lookup_kdc_pattern "")); [reflexivity | discriminate].
Defined.

(** X16: [__update_krb5_conf] leaves krb5.conf alone exactly when the
    file cannot be opened or one of its lines already sets
    dns_lookup_kdc to true; it then prints one message and raises
    nothing. *)
Theorem update_krb5_conf_unchanged (fqdn realm : string)
    (opened : string + string) (change_raises : option exn) :
  (krb5_change (update_krb5_conf fqdn realm opened change_raises) = None
   <-> (exists err, opened = inl err)
       \/ (exists text line,
             opened = inr text /\ In line (readlines text)
             /\ dns_lookup_kdc_line line))
  /\ (krb5_change (update_krb5_conf fqdn realm opened change_raises) = None ->
      krb5_raised (update_krb5_conf fqdn realm opened change_raises) = None
      /\ length (krb5_log (update_krb5_conf fqdn realm opened change_raises))
         = 1%nat).
Proof.
  unfold update_krb5_conf. destruct opened as [err|text].
  - split; [|intros _; split; reflexivity].
    split; [intros _; left; eauto | reflexivity].
  - destruct (existsb dns_lookup_kdc_true (readlines text)) eqn:E; cbn [negb].
    + split; [|intros _; split; reflexivity].
      split; [intros _ | reflexivity].
      right. apply existsb_exists in E as (line & Hin & Hl).
      exists text, line. repeat split; try assumption.
      apply dns_lookup_kdc_true_spec. exact Hl.
    + split; [|discriminate].
      split; [discriminate|].
      intros [[err [=]]|(text' & line & [= <-] & Hin & Hl)].
      apply dns_lookup_kdc_true_spec in Hl.
      assert (existsb dns_lookup_kdc_true (readlines text) = true)
        by (apply existsb_exists; eauto).
      congruence.
Qed.

Lemma update_krb5_conf_unchanged_witness :
  let text := ("[libdefaults]" +:+ nl) +:+ (" dns_lookup_kdc = True" +:+ nl) in
  krb5_change (update_krb5_conf "ipa.test" "TEST" (inr text) None) = None
  /\ krb5_raised (update_krb5_conf "ipa.test" "TEST" (inr text) None) = None.
Proof.
  intros text.
  assert (H : krb5_change (update_krb5_conf "ipa.test" "TEST" (inr text) None)
              = None).
  { apply (proj1 (update_krb5_conf_unchanged "ipa.test" "TEST" (inr text)
                    None)).
    right. exists text, (" dns_lookup_kdc = True" +:+ nl).
    split; [reflexivity|]. split; [right; left; reflexivity|].
    exists " ", " ", " ", nl, "True". repeat split; reflexivity. }
  split; [exact H|].
  apply (proj2 (update_krb5_conf_unchanged "ipa.test" "TEST" (inr text) None)).
  exact H.
Defined.

(* ===================================================================== *)
(** * DNS service records: theorems *)
(* ===================================================================== *)

Lemma split1_no_sep (sep : ascii) (s : string) :
  Py.contains sep s = false -> split1 sep s = [s].
Proof.
  induction s as [|c s IH]; [reflexivity|].
  cbn [Py.contains split1]. intros H. apply orb_false_elim in H as [Hc Hs].
  rewrite Ascii.eqb_sym, Hc, (IH Hs). reflexivity.
Qed.

Lemma added_records_app (l1 l2 : list dns_call) :
  added_records (l1 ++ l2) = added_records l1 ++ added_records l2.
Proof. unfold added_records. apply flat_map_app. Qed.

Lemma flat_map_const_nil {A B : Type} (l : list A) :
  flat_map (fun _ => @nil B) l = [].
Proof. induction l as [|a l IH]; [reflexivity | exact IH]. Qed.

Lemma flat_map_single {A B : Type} (f : A -> B) (l : list A) :
  flat_map (fun a => [f a]) l = map f l.
Proof. induction l as [|a l IH]; [reflexivity | cbn; rewrite IH; reflexivity]. Qed.

Section DnsFacts.

Context {S : Type} (api : DnsApi S) (normalize_zone : string -> string).

(** X17: a host name without a dot makes [__add_dns_service_records]
    raise ValueError at its first statement: nothing is asked of the DNS
    and nothing is printed. *)
Theorem add_dns_service_records_dotless (cfg : DnsSetup) (s : S) :
  Py.contains "." (dns_fqdn cfg) = false ->
  add_dns_service_records api normalize_zone cfg s
  = DnsOut (Some (ValueError "need more than 1 value to unpack")) s [] [].
Proof.
  intros H. unfold add_dns_service_records.
  rewrite (split1_no_sep "." _ H). reflexivity.
Qed.

(** X18: with --no-msdcs, with DNS management not enabled, or with the
    zone not defined in IPA, [__add_dns_service_records] makes no
    [add_rr] and no [del_rr] call and leaves the DNS as it is: it prints
    the reason, a heading and the six record names to add by hand. *)
Theorem add_dns_service_records_skipped (cfg : DnsSetup) (s : S)
    (host host_domain : string) :
  split1 "." (dns_fqdn cfg) = [host; host_domain] ->
  no_msdcs cfg = true
  \/ dns_is_enabled api s = inr false
  \/ (dns_is_enabled api s = inr true
      /\ dns_zone_exists api s (dns_domain_name cfg) = inr false) ->
  let o := add_dns_service_records api normalize_zone cfg s in
  dns_raised o = None /\ dns_after o = s /\ dns_calls o = []
  /\ skipn 2 (dns_msgs o)
     = [" - _ldap._tcp.Default-First-Site-Name._sites.dc._msdcs";
        " - _ldap._tcp.dc._msdcs";
        " - _kerberos._tcp.Default-First-Site-Name._sites.dc._msdcs";
        " - _kerberos._tcp.dc._msdcs";
        " - _kerberos._udp.Default-First-Site-Name._sites.dc._msdcs";
        " - _kerberos._udp.dc._msdcs"].
Proof.
  intros Hsplit Hwhy. unfold add_dns_service_records. rewrite Hsplit.
  assert (Hmsg : exists m, dns_err_msg api cfg (dns_domain_name cfg) s
                           = inr (Some m)).
  { unfold dns_err_msg. destruct (no_msdcs cfg); [eauto|].
    destruct Hwhy as [H|[H|[H1 H2]]]; [discriminate H| |].
    - rewrite H. eauto.
    - rewrite H1, H2. eauto. }
  destruct Hmsg as [m ->]. cbn. repeat split; reflexivity.
Qed.

(** Every call of the API answers. *)
Hypothesis get_total : forall s z n t, exists l, get_rr api s z n t = inr l.
Hypothesis add_total : forall s z n t r, exists s', add_rr api s z n t r = inr s'.
Hypothesis del_total : forall s z n t r, exists s', del_rr api s z n t r = inr s'.

Lemma for_each_added {X : Type}
    (body : X -> S * list dns_call -> option exn * (S * list dns_call))
    (f : X -> list (string * string * string)) :
  (forall x st, exists s' calls',
      body x st = (None, (s', calls'))
      /\ added_records calls' = added_records (snd st) ++ f x) ->
  forall xs st, exists s' calls',
      for_each body xs st = (None, (s', calls'))
      /\ added_records calls' = added_records (snd st) ++ flat_map f xs.
Proof.
  intros Hbody xs. induction xs as [|x xs IH]; intros st; cbn [for_each flat_map].
  - exists (fst st), (snd st). destruct st. rewrite app_nil_r. split; reflexivity.
  - destruct (Hbody x st) as (s1 & c1 & -> & H1).
    destruct (IH (s1, c1)) as (s2 & c2 & -> & H2).
    exists s2, c2. split; [reflexivity|].
    rewrite H2. cbn [snd]. rewrite H1, app_assoc. reflexivity.
Qed.

Lemma replace_records_added (zone srv : string) (cifs_rdata : list string)
    (suff : string) (st : S * list dns_call) :
  exists s' calls',
    replace_records api zone srv cifs_rdata suff st = (None, (s', calls'))
    /\ added_records calls'
       = added_records (snd st)
         ++ map (fun r => (zone, srv +:+ suff, r)) cifs_rdata.
Proof.
  unfold replace_records.
  destruct (get_total (fst st) zone (srv +:+ suff) "SRV") as [win_rdata ->].
  destruct (for_each_added (del_one api zone (srv +:+ suff)) (fun _ => [])
              ltac:(intros x st0; unfold del_one;
                    destruct (del_total (fst st0) zone (srv +:+ suff) "SRV" x)
                      as [s' ->];
                    eexists _, _; split; [reflexivity|];
                    rewrite added_records_app; reflexivity)
              win_rdata st) as (s1 & c1 & -> & H1).
  destruct (for_each_added (add_one api zone (srv +:+ suff))
              (fun r => [(zone, srv +:+ suff, r)])
              ltac:(intros x st0; unfold add_one;
                    destruct (add_total (fst st0) zone (srv +:+ suff) "SRV" x)
                      as [s' ->];
                    eexists _, _; split; [reflexivity|];
                    rewrite added_records_app; reflexivity)
              cifs_rdata (s1, c1)) as (s2 & c2 & -> & H2).
  exists s2, c2. split; [reflexivity|].
  rewrite H2. cbn [snd]. rewrite H1.
  rewrite flat_map_const_nil, app_nil_r, flat_map_single. reflexivity.
Qed.

(** X19: when DNS is managed, the zone exists and every call answers,
    [__add_dns_service_records] adds, for each of the three services and
    each of the two _msdcs names, one record per CIFS host of the other
    replicas followed by the record of this host, whatever records were
    there before, and raises nothing. *)
Theorem add_dns_service_records_adds (cfg : DnsSetup) (s : S)
    (host host_domain : string) :
  split1 "." (dns_fqdn cfg) = [host; host_domain] ->
  no_msdcs cfg = false ->
  dns_is_enabled api s = inr true ->
  dns_zone_exists api s (dns_domain_name cfg) = inr true ->
  let zone := dns_domain_name cfg in
  let host_in_rr :=
    if String.eqb (normalize_zone zone) (normalize_zone host_domain)
    then host else normalize_zone (dns_fqdn cfg) in
  let o := add_dns_service_records api normalize_zone cfg s in
  dns_raised o = None
  /\ added_records (dns_calls o)
     = flat_map
         (fun '(srv, port) =>
            flat_map
              (fun suff =>
                 map (fun r => (zone, srv +:+ suff, r))
                   (map (fun h => srv_rec h port 0) (cifs_hosts cfg)
                    ++ [srv_rec host_in_rr port 0]))
              win_srv_suffix)
         [("_ldap._tcp", 389); ("_kerberos._tcp", 88); ("_kerberos._udp", 88)].
Proof.
  intros Hsplit Hno Hen Hzone zone host_in_rr.
  unfold add_dns_service_records. rewrite Hsplit.
  unfold dns_err_msg. rewrite Hno, Hen, Hzone.
  fold zone. fold host_in_rr.
  destruct (for_each_added (publish_service api cfg zone)
              (fun rec : string * list string * Z =>
                 flat_map
                   (fun suff =>
                      map (fun r => (zone, fst (fst rec) +:+ suff, r))
                        (map (fun h => srv_rec h (snd rec) 0) (cifs_hosts cfg)
                         ++ snd (fst rec)))
                   win_srv_suffix)
              ltac:(intros [[srv rdata] port] st; unfold publish_service;
                    apply (for_each_added
                             (replace_records api zone srv _)
                             (fun suff => map (fun r => (zone, srv +:+ suff, r))
                                            _));
                    intros suff st0; apply replace_records_added)
              (ipa_srv_rec host_in_rr) (s, [])) as (s' & calls & -> & Hadd).
  cbn [dns_raised dns_calls]. split; [reflexivity|].
  rewrite Hadd. reflexivity.
Qed.

End DnsFacts.

Lemma add_dns_service_records_dotless_witness :
  let cfg := {| dns_fqdn := "localhost"; dns_domain_name := "example.test";
                no_msdcs := false; cifs_hosts := [] |} in
  Py.contains "." (dns_fqdn cfg) = false
  /\ dns_raised (add_dns_service_records Examples.dns
                   Examples.normalize_zone cfg [])
     = Some (ValueError "need more than 1 value to unpack").
Proof.
  intros cfg. split; [reflexivity|].
  rewrite (add_dns_service_records_dotless Examples.dns
             Examples.normalize_zone cfg [] eq_refl).
  reflexivity.
Defined.

Lemma add_dns_service_records_skipped_witness :
  let s : Examples.dns_state := [("_ldap._tcp.dc._msdcs", "0 100 389 old")] in
  let o := add_dns_service_records Examples.dns Examples.normalize_zone
             (Examples.dns_setup true) s in
  split1 "." (dns_fqdn (Examples.dns_setup true)) = ["ipa"; "example.test"]
  /\ dns_raised o = None /\ dns_after o = s /\ dns_calls o = [].
Proof.
  intros s o.
  assert (Hsplit : split1 "." (dns_fqdn (Examples.dns_setup true))
                   = ["ipa"; "example.test"]) by reflexivity.
  split; [exact Hsplit|].
  destruct (add_dns_service_records_skipped Examples.dns
              Examples.normalize_zone (Examples.dns_setup true) s
              "ipa" "example.test" Hsplit (or_introl eq_refl))
    as (H1 & H2 & H3 & _).
  repeat split; assumption.
Defined.

Lemma add_dns_service_records_adds_witness :
  let s : Examples.dns_state := [("_ldap._tcp.dc._msdcs", "0 100 389 old")] in
  let o := add_dns_service_records Examples.dns Examples.normalize_zone
             (Examples.dns_setup false) s in
  dns_raised o = None
  /\ length (added_records (dns_calls o)) = 12%nat
  /\ Examples.records_of (dns_after o) "_ldap._tcp.dc._msdcs"
     = ["0 100 389 replica"; "0 100 389 ipa"].
Proof.
  intros s o.
  destruct (add_dns_service_records_adds Examples.dns Examples.normalize_zone
              (fun s z n t => ex_intro _ _ eq_refl)
              (fun s z n t r => ex_intro _ _ eq_refl)
              (fun s z n t r => ex_intro _ _ eq_refl)
              (Examples.dns_setup false) s "ipa" "example.test"
              eq_refl eq_refl eq_refl eq_refl) as [H1 H2].
  split; [exact H1|]. split.
  - fold o in H2. rewrite H2. reflexivity.
  - vm_compute. reflexivity.
Defined.

(* ===================================================================== *)
(** * The local ID range: theorems *)
(* ===================================================================== *)

(** X20: [find_local_id_range] hands an entry to [add_entry] only when
    the search for ranges came back empty, the admins group was read, its
    gidNumber converted, and no object with an ID outside the range was
    found.  The entry is the range named after the realm, of size 200000
    from the gid of the admins group, and carries no RID base. *)
Theorem find_local_id_range_added {D : Type} (conn : Directory D)
    (add_entry : D -> Entry -> exn + D) (ldap_connect : D -> exn + D)
    (py_int : pyval -> exn + Z) (self : ADTRUSTInstance) (realm : string)
    (d0 : D) (e : Entry) :
  find_added (find_local_id_range conn add_entry ldap_connect py_int
                self realm d0) = Some e ->
  exists d admins gid base_id,
    ldap_connect d0 = inr d
    /\ get_entries conn d (container_ranges self ++ suffix self)
         SCOPE_ONELEVEL ranges_filter = inr []
    /\ get_entry conn d (admin_group_dn self) = inr admins
    /\ single_value admins !! "gidNumber" = Some gid
    /\ py_int gid = inr base_id
    /\ get_entries conn d (("cn", "accounts") :: suffix self)
         SCOPE_SUBTREE (id_filter base_id 200000) = inr []
    /\ e = local_range_entry self realm base_id 200000
    /\ dn e = ("cn", realm +:+ "_id_range")
              :: container_ranges self ++ suffix self
    /\ single_value e !! "ipaBaseID" = Some (PyStr (fmt_d base_id))
    /\ single_value e !! "ipaIDRangeSize" = Some (PyStr "200000")
    /\ no_rid_base_set e = true.
Proof.
  unfold find_local_id_range.
  destruct (ldap_connect d0) as [|d] eqn:Hc; [discriminate|].
  destruct (get_entries conn d (container_ranges self ++ suffix self) _ _)
    as [|[|]] eqn:Hr; try discriminate.
  destruct (get_entry conn d (admin_group_dn self)) as [[]|admins] eqn:Ha;
    try discriminate.
  destruct (single_value admins !! "gidNumber") as [gid|] eqn:Hg;
    [|discriminate].
  destruct (py_int gid) as [|base_id] eqn:Hi; [discriminate|].
  destruct (get_entries conn d (("cn", "accounts") :: suffix self) _ _)
    as [|[|]] eqn:Ho; try discriminate.
  intros Hadd.
  assert (He : e = local_range_entry self realm base_id 200000)
    by (destruct (add_entry d _); cbn in Hadd; congruence).
  exists d, admins, gid, base_id. subst e.
  repeat split; try assumption; try reflexivity.
Qed.

Lemma find_local_id_range_added_witness :
  let self := TestDirectory.instance 1000000 1300000 in
  let d0 := {| TestDirectory.entries := [Examples.admins_with_gid];
               TestDirectory.reject := None |} in
  let o := find_local_id_range TestDirectory.conn Examples.add_entry
             Examples.ldap_connect Examples.py_int self "TEST" d0 in
  find_added o = Some (local_range_entry self "TEST" 1234 200000)
  /\ exists e, find_added o = Some e /\ no_rid_base_set e = true.
Proof.
  intros self d0 o.
  assert (H : find_added o = Some (local_range_entry self "TEST" 1234 200000))
    by (vm_compute; reflexivity).
  split; [exact H|].
  destruct (find_local_id_range_added TestDirectory.conn Examples.add_entry
              Examples.ldap_connect Examples.py_int self "TEST" d0 _ H)
    as (d & admins & gid & base_id & _ & _ & _ & _ & _ & _ & _ & _ & _ & _ & Hn).
  eexists. split; [exact H | exact Hn].
Defined.

(* ===================================================================== *)
(** * Steps that apply an LDIF file: theorems *)
(* ===================================================================== *)

Section LdifFacts.

Context {D : Type} (conn : Directory D).
Variable ldap_mod : D -> string -> exn + D.
Variable ldap_connect : D -> exn + D.

(** X21: [__add_fallback_group] writes at most once, only to the domain
    object and only the fallback group attribute with the DN of the
    group; it does so only if the domain object had no fallback group and
    the group entry could be read, either at once or after the LDIF that
    creates it was applied. *)
Theorem add_fallback_group_writes (self : ADTRUSTInstance) (d0 : D)
    (t : DN) (m : modlist) :
  In (t, m)
     (modify_calls (lo_log (add_fallback_group conn ldap_mod ldap_connect
                              self d0))) ->
  modify_calls (lo_log (add_fallback_group conn ldap_mod ldap_connect
                          self d0)) = [(t, m)]
  /\ t = smb_dom_dn self /\ m = fallback_mods self
  /\ exists d dom d1 group,
       ldap_connect d0 = inr d
       /\ get_entry conn d (smb_dom_dn self) = inr dom
       /\ val_truthy (single_value dom !! ATTR_FALLBACK_GROUP) = false
       /\ get_entry conn d1 (fb_group_dn self) = inr group
       /\ (d1 = d
           \/ (get_entry conn d (fb_group_dn self) = inl NotFound
               /\ ldap_mod d "default-smb-group.ldif" = inr d1)).
Proof.
  unfold add_fallback_group.
  destruct (ldap_connect d0) as [|d] eqn:Hc; [intros []|].
  destruct (get_entry conn d (smb_dom_dn self)) as [[]|dom] eqn:Hdom;
    try (intros []).
  destruct (val_truthy (single_value dom !! ATTR_FALLBACK_GROUP)) eqn:Hfb;
    [intros []|].
  destruct (get_entry conn d (fb_group_dn self)) as [[]|group] eqn:Hg;
    try (intros []).
  - destruct (ldap_mod d "default-smb-group.ldif") as [|d1] eqn:Hm;
      [intros []|].
    destruct (get_entry conn d1 (fb_group_dn self)) as [[]|group] eqn:Hg1;
      try (intros []).
    destruct (modify_s conn d1 (smb_dom_dn self) (fallback_mods self));
      cbn; intros [[= <- <-]|[]]; repeat split;
      exists d, dom, d1, group; auto 10.
  - destruct (modify_s conn d (smb_dom_dn self) (fallback_mods self));
      cbn; intros [[= <- <-]|[]]; repeat split;
      exists d, dom, d, group; auto 10.
Qed.

(** X22: [__add_plugin_conf] gives its LDIF file to [_ldap_mod] exactly
    when the plugin entry is not found, and raises only what reading the
    plugin entry raises: a failing LDIF is passed over in silence. *)
Theorem add_plugin_conf_spec (name plugin_cn ldif_file : string) (d : D) :
  let plugin_dn := [("cn", plugin_cn); ("cn", "plugins"); ("cn", "config")] in
  let o := add_plugin_conf conn ldap_mod name plugin_cn ldif_file d in
  (lo_ldifs o = [ldif_file] /\ get_entry conn d plugin_dn = inl NotFound
   \/ lo_ldifs o = [] /\ get_entry conn d plugin_dn <> inl NotFound)
  /\ (forall e, lo_raised o = Some e
                <-> get_entry conn d plugin_dn = inl e /\ e <> NotFound)
  /\ (lo_after o = d \/ ldap_mod d ldif_file = inr (lo_after o)).
Proof.
  cbn zeta. unfold add_plugin_conf.
  destruct (get_entry conn d _) as [[]|entry] eqn:Hget.
  all: try (split; [right; split; [reflexivity | discriminate]|];
            split; [|left; reflexivity];
            intros e; split;
            [intros [= <-]; split; [reflexivity | discriminate]
            |intros [[= <-] _]; reflexivity]).
  - destruct (ldap_mod d ldif_file) as [e0|d'] eqn:Hm; cbn;
      (split; [left; split; reflexivity|]; split;
       [intros e; split; [discriminate | intros [[= <-] H]; contradiction]
       | auto]).
  - split; [right; split; [reflexivity | discriminate]|].
    split; [|left; reflexivity].
    intros e. split; [discriminate | intros [[=] _]].
Qed.

(** X23: [__add_default_trust_view] applies its LDIF only when the view
    is not found, hands a failure of the LDIF on to its caller, and never
    calls [modify_s]. *)
Theorem add_default_trust_view_spec (self : ADTRUSTInstance)
    (container_views : DN) (d : D) :
  let view := ("cn", "Default Trust View") :: container_views ++ suffix self in
  let o := add_default_trust_view conn ldap_mod self container_views d in
  (lo_ldifs o <> [] -> get_entry conn d view = inl NotFound)
  /\ (forall e, get_entry conn d view = inl NotFound ->
                ldap_mod d "default-trust-view.ldif" = inl e ->
                lo_raised o = Some e /\ lo_after o = d)
  /\ modify_calls (lo_log o) = [].
Proof.
  cbn zeta. unfold add_default_trust_view.
  destruct (get_entry conn d _) as [[]|entry] eqn:Hget.
  all: try (split; [intros H; exfalso; apply H; reflexivity|];
            split; [intros e [=]|reflexivity]).
  - destruct (ldap_mod d "default-trust-view.ldif") as [e0|d1] eqn:Hm.
    + split; [reflexivity|]. split; [|reflexivity].
      intros e _ [= <-]. split; reflexivity.
    + split; [reflexivity|]. split; [intros e _ [=]|].
      destruct (get_entry conn d1 _) as [[]|]; reflexivity.
Qed.

End LdifFacts.

Lemma add_fallback_group_writes_witness :
  let self := TestDirectory.instance 0 0 in
  let d0 := {| TestDirectory.entries :=
                 [TestDirectory.dom_entry (Some "S-1-5-21-1-2-3")];
               TestDirectory.reject := None |} in
  let o := add_fallback_group TestDirectory.conn Examples.ldap_mod
             Examples.ldap_connect self d0 in
  In (smb_dom_dn self, fallback_mods self) (modify_calls (lo_log o))
  /\ modify_calls (lo_log o) = [(smb_dom_dn self, fallback_mods self)]
  /\ lo_ldifs o = ["default-smb-group.ldif"]
  /\ fallback_mods self
     = [(MOD_ADD, "ipaNTFallbackPrimaryGroup",
         "cn=Default SMB Group,cn=groups,cn=accounts,dc=test")].
Proof.
  intros self d0 o.
  assert (H : In (smb_dom_dn self, fallback_mods self)
                (modify_calls (lo_log o)))
    by (vm_compute; left; reflexivity).
  split; [exact H|].
  destruct (add_fallback_group_writes TestDirectory.conn Examples.ldap_mod
              Examples.ldap_connect self d0 _ _ H) as (H1 & _).
  split; [exact H1|]. split; vm_compute; reflexivity.
Defined.

Lemma add_default_trust_view_spec_witness :
  let self := TestDirectory.instance 0 0 in
  let d := {| TestDirectory.entries := []; TestDirectory.reject := None |} in
  let broken : TestDirectory.state -> string -> exn + TestDirectory.state :=
    fun _ _ => inl (OtherError "CalledProcessError") in
  let o := add_default_trust_view TestDirectory.conn broken self
             [("cn", "views"); ("cn", "accounts")] d in
  lo_raised o = Some (OtherError "CalledProcessError") /\ lo_after o = d.
Proof.
  intros self d broken o.
  destruct (add_default_trust_view_spec TestDirectory.conn broken self
              [("cn", "views"); ("cn", "accounts")] d) as (_ & H & _).
  apply (H (OtherError "CalledProcessError")); reflexivity.
Defined.

(* ===================================================================== *)
(** * The samba domain object: theorems *)
(* ===================================================================== *)

Section SambaDomainFacts.

Context {D : Type} (conn : Directory D).
Variable add_entry : D -> NewEntry -> exn + D.
Variable is_ldap_error : exn -> bool.
Variable index_error_text : string.

Lemma create_containers_added (dns : list DN) (d : D) (log : list event)
    (added : list NewEntry) :
  exists extra,
    snd (create_containers conn add_entry index_error_text dns d log added)
    = added ++ extra
    /\ Forall (fun ne => exists name,
                   ne_attrs ne = [("objectclass", ["nsContainer"]);
                                  ("cn", [name])]) extra.
Proof.
  revert d log added. induction dns as [|new_dn rest IH]; intros d log added;
    cbn [create_containers].
  - exists []. rewrite app_nil_r. split; [reflexivity | constructor].
  - destruct (get_entry conn d new_dn) as [[]|];
      try (exists []; rewrite app_nil_r; split; [reflexivity | constructor]);
      try apply IH.
    destruct (Py.index new_dn 1) as [rdn|];
      [|exists []; rewrite app_nil_r; split; [reflexivity | constructor]].
    destruct (add_entry d _) as [e|d'].
    + eexists [_]. split; [reflexivity|]. repeat constructor. eauto.
    + destruct (IH d' log
                  (added ++ [{| ne_dn := new_dn;
                                ne_attrs := [("objectclass", ["nsContainer"]);
                                             ("cn", [fst rdn])] |}]))
        as (extra & -> & Hall).
      eexists (_ :: extra). rewrite <- app_assoc. split; [reflexivity|].
      constructor; [eauto | exact Hall].
Qed.

(** X24: when the samba domain object exists, nothing is added to the
    directory and its SID is not touched: without the reset flag nothing
    is written at all, with it the only write replaces the flat name.
    (The one way out is a reset write that raises NotFound, which the
    code takes for a missing object.) *)
Theorem create_samba_domain_object_existing (self : ADTRUSTInstance)
    (dom : DomainSetup) (urandom12 : list byte) (uuid4 : string) (d : D)
    (present : Entry) :
  get_entry conn d (smb_dom_dn self) = inr present ->
  (reset_netbios_name dom = true ->
   modify_s conn d (smb_dom_dn self) (flat_name_mods dom) = inl NotFound ->
   is_ldap_error NotFound = true) ->
  let o := create_samba_domain_object conn add_entry is_ldap_error
             index_error_text self dom urandom12 uuid4 d in
  co_added o = []
  /\ modify_calls (co_log o)
     = if reset_netbios_name dom
       then [(smb_dom_dn self, flat_name_mods dom)] else [].
Proof.
  intros Hget Hnf. cbn zeta. unfold create_samba_domain_object.
  rewrite Hget. destruct (reset_netbios_name dom); [|split; reflexivity].
  unfold reset_netbios_name_step.
  destruct (modify_s conn d (smb_dom_dn self) (flat_name_mods dom))
    as [e|d']; [|split; reflexivity].
  destruct (is_ldap_error e) eqn:He; [split; reflexivity|].
  destruct e; try (split; reflexivity).
  rewrite (Hnf eq_refl eq_refl) in He. discriminate He.
Qed.

(** The entries [create_domain_object] gives to [add_entry]: containers
    with an object class and a cn and nothing else, then at most the
    domain object. *)
Lemma create_domain_object_added (self : ADTRUSTInstance)
    (dom : DomainSetup) (urandom12 : list byte) (uuid4 : string) (d : D)
    (log : list event) :
  exists containers,
    Forall (fun ne => exists name,
                ne_attrs ne = [("objectclass", ["nsContainer"]);
                               ("cn", [name])]) containers
    /\ (co_added (create_domain_object conn add_entry index_error_text self
                    dom urandom12 uuid4 d log) = containers
        \/ exists sid,
             gen_sid_string urandom12 = Some sid
             /\ co_added (create_domain_object conn add_entry
                            index_error_text self dom urandom12 uuid4 d log)
                = containers
                  ++ [{| ne_dn := smb_dom_dn self;
                         ne_attrs :=
                           [("objectclass", [OBJC_DOMAIN; "nsContainer"]);
                            ("cn", [domain_name dom]);
                            (ATTR_FLAT_NAME, [netbios_name dom]);
                            (ATTR_SID, [sid]);
                            (ATTR_GUID, [uuid4])] |}]).
Proof.
  unfold create_domain_object.
  destruct (create_containers_added
              [container_trusts dom ++ suffix self;
               ("cn", "ad") :: container_trusts dom ++ suffix self;
               container_cifsdomains dom ++ suffix self] d log [])
    as (extra & Hextra & Hall).
  destruct (create_containers _ _ _ _ _ _ _) as [[[fl d1] log1] added].
  cbn [snd app] in Hextra. subst added.
  exists extra. split; [exact Hall|].
  destruct fl; cbn [co_added]; try (left; reflexivity).
  destruct (gen_sid_string urandom12) as [sid|];
    cbn [co_added]; [|left; reflexivity].
  right. exists sid. split; [reflexivity|].
  destruct (add_entry d1 _); reflexivity.
Qed.

(** X25: the entries [__create_samba_domain_object] gives to [add_entry]
    are containers that carry only an object class and a cn, followed by
    at most one more entry, the samba domain object.  So the only entry
    created with a SID is the domain object; it is the last entry added,
    its SID is the one generated from the random bytes, and it carries the
    NetBIOS name as its flat name. *)
Theorem create_samba_domain_object_sid (self : ADTRUSTInstance)
    (dom : DomainSetup) (urandom12 : list byte) (uuid4 : string) (d : D) :
  let o := create_samba_domain_object conn add_entry is_ldap_error
             index_error_text self dom urandom12 uuid4 d in
  (exists containers,
     Forall (fun ne => exists name,
                 ne_attrs ne = [("objectclass", ["nsContainer"]);
                                ("cn", [name])]) containers
     /\ (co_added o = containers
         \/ exists sid,
              gen_sid_string urandom12 = Some sid
              /\ co_added o
                 = containers
                   ++ [{| ne_dn := smb_dom_dn self;
                          ne_attrs :=
                            [("objectclass", [OBJC_DOMAIN; "nsContainer"]);
                             ("cn", [domain_name dom]);
                             (ATTR_FLAT_NAME, [netbios_name dom]);
                             (ATTR_SID, [sid]);
                             (ATTR_GUID, [uuid4])] |}]))
  /\ (forall (ne : NewEntry) (sids : list string),
        In ne (co_added o) -> In (ATTR_SID, sids) (ne_attrs ne) ->
        exists sid,
          gen_sid_string urandom12 = Some sid /\ sids = [sid]
          /\ ne_dn ne = smb_dom_dn self
          /\ List.last (co_added o) ne = ne
          /\ In (ATTR_FLAT_NAME, [netbios_name dom]) (ne_attrs ne)).
Proof.
  cbn zeta.
  set (o := create_samba_domain_object conn add_entry is_ldap_error
              index_error_text self dom urandom12 uuid4 d).
  assert (Hdec : exists containers,
             Forall (fun ne => exists name,
                         ne_attrs ne = [("objectclass", ["nsContainer"]);
                                        ("cn", [name])]) containers
             /\ (co_added o = containers
                 \/ exists sid,
                      gen_sid_string urandom12 = Some sid
                      /\ co_added o
                         = containers
                           ++ [{| ne_dn := smb_dom_dn self;
                                  ne_attrs :=
                                    [("objectclass",
                                      [OBJC_DOMAIN; "nsContainer"]);
                                     ("cn", [domain_name dom]);
                                     (ATTR_FLAT_NAME, [netbios_name dom]);
                                     (ATTR_SID, [sid]);
                                     (ATTR_GUID, [uuid4])] |}])).
  { subst o. unfold create_samba_domain_object.
    assert (Hnone : forall (e : option exn) (d1 : D) (l : list event),
               exists containers,
                 Forall (fun ne => exists name,
                             ne_attrs ne = [("objectclass", ["nsContainer"]);
                                            ("cn", [name])]) containers
                 /\ (co_added (CreateOut e d1 l []) = containers
                     \/ exists sid,
                          gen_sid_string urandom12 = Some sid
                          /\ co_added (CreateOut e d1 l [])
                             = containers
                               ++ [{| ne_dn := smb_dom_dn self;
                                      ne_attrs :=
                                        [("objectclass",
                                          [OBJC_DOMAIN; "nsContainer"]);
                                         ("cn", [domain_name dom]);
                                         (ATTR_FLAT_NAME, [netbios_name dom]);
                                         (ATTR_SID, [sid]);
                                         (ATTR_GUID, [uuid4])] |}]))
      by (intros; exists []; split; [constructor | left; reflexivity]).
    destruct (get_entry conn d (smb_dom_dn self)) as [[]|present];
      try apply Hnone; try apply create_domain_object_added.
    destruct (reset_netbios_name dom); [|apply Hnone].
    destruct (reset_netbios_name_step _ _ _ _ _) as [[[[]|] d1] log1];
      try apply Hnone; apply create_domain_object_added. }
  split; [exact Hdec|].
  destruct Hdec as (containers & Hall & Hadded).
  intros ne sids Hin Hsid.
  assert (Hcont : In ne containers -> False).
  { intros Hc. rewrite List.Forall_forall in Hall.
    destruct (Hall ne Hc) as [name Hattrs]. rewrite Hattrs in Hsid.
    cbn in Hsid. unfold ATTR_SID in Hsid. intuition discriminate. }
  destruct Hadded as [Heq | (sid & Hgen & Heq)]; rewrite Heq in Hin |- *.
  - destruct (Hcont Hin).
  - apply in_app_iff in Hin as [Hin|Hin]; [destruct (Hcont Hin)|].
    destruct Hin as [<-|[]]. cbn [ne_attrs ne_dn] in *.
    exists sid. split; [exact Hgen|].
    split.
    { unfold ATTR_SID, ATTR_FLAT_NAME, ATTR_GUID in Hsid. cbn in Hsid.
      destruct Hsid as [H|[H|[H|[H|[H|[]]]]]]; try discriminate H.
      injection H as <-. reflexivity. }
    split; [reflexivity|].
    split; [apply List.last_last | cbn; auto].
Qed.

End SambaDomainFacts.

Lemma create_samba_domain_object_existing_witness :
  let self := TestDirectory.instance 0 0 in
  let d := {| TestDirectory.entries :=
                [TestDirectory.dom_entry (Some "S-1-5-21-1-2-3")];
              TestDirectory.reject := None |} in
  let o := create_samba_domain_object TestDirectory.conn Examples.add_new
             Examples.is_ldap_error "list index out of range" self
             (Examples.domain_setup true) Examples.random12 "guid" d in
  co_added o = []
  /\ modify_calls (co_log o)
     = [(smb_dom_dn self, [(MOD_REPLACE, "ipaNTFlatName", "EXAMPLE")])].
Proof.
  intros self d o.
  apply (create_samba_domain_object_existing TestDirectory.conn
           Examples.add_new Examples.is_ldap_error "list index out of range"
           self (Examples.domain_setup true) Examples.random12 "guid" d
           (TestDirectory.dom_entry (Some "S-1-5-21-1-2-3")) eq_refl).
  intros _ H. vm_compute in H. discriminate H.
Defined.

Lemma create_samba_domain_object_sid_witness :
  let self := TestDirectory.instance 0 0 in
  let d := {| TestDirectory.entries := []; TestDirectory.reject := None |} in
  let o := create_samba_domain_object TestDirectory.conn Examples.add_new
             Examples.is_ldap_error "list index out of range" self
             (Examples.domain_setup false) Examples.random12 "guid" d in
  length (co_added o) = 4%nat
  /\ exists ne, In ne (co_added o)
                /\ In (ATTR_SID, ["S-1-5-21-1-256-7"]) (ne_attrs ne)
                /\ ne_dn ne = smb_dom_dn self
                /\ List.last (co_added o) ne = ne.
Proof.
  intros self d o. split; [vm_compute; reflexivity|].
  set (ne := {| ne_dn := smb_dom_dn self;
                ne_attrs := [("objectclass", [OBJC_DOMAIN; "nsContainer"]);
                             ("cn", ["test"]);
                             (ATTR_FLAT_NAME, ["EXAMPLE"]);
                             (ATTR_SID, ["S-1-5-21-1-256-7"]);
                             (ATTR_GUID, ["guid"])] |}).
  assert (Hin : In ne (co_added o))
    by (vm_compute; do 3 right; left; reflexivity).
  assert (Hsid : In (ATTR_SID, ["S-1-5-21-1-256-7"]) (ne_attrs ne))
    by (do 3 right; left; reflexivity).
  exists ne. split; [exact Hin|]. split; [exact Hsid|].
  destruct (create_samba_domain_object_sid TestDirectory.conn
              Examples.add_new Examples.is_ldap_error
              "list index out of range" self (Examples.domain_setup false)
              Examples.random12 "guid" d) as [_ H].
  destruct (H ne _ Hin Hsid) as (sid & _ & _ & Hdn & Hlast & _).
  split; [exact Hdn | exact Hlast].
Defined.

Lemma ipa_smb_conf_exists_spec_witness :
  ipa_smb_conf_exists
    (inr (("[global]" +:+ nl) +:+ ADDED_BY_IPA +:+ nl +:+ "debug pid = yes"))
  = inr true
  /\ ipa_smb_conf_exists (inr ("# " +:+ ADDED_BY_IPA +:+ nl)) = inr false
  /\ ipa_smb_conf_exists (inl 13) = inl (OtherError "UnboundLocalError").
Proof.
  destruct ipa_smb_conf_exists_spec as (Hiff & _ & Herr).
  split; [|split].
  - apply Hiff. exists ("[global]" +:+ nl), (nl +:+ "debug pid = yes").
    split; [reflexivity|]. right. exists "[global]". reflexivity.
  - reflexivity.
  - apply Herr. discriminate.
Defined.

Lemma add_plugin_conf_spec_witness :
  let d := {| TestDirectory.entries := []; TestDirectory.reject := None |} in
  let broken : TestDirectory.state -> string -> exn + TestDirectory.state :=
    fun _ _ => inl (OtherError "CalledProcessError") in
  let o := add_plugin_conf TestDirectory.conn broken "CLDAP" "ipa_cldap"
             "ipa-cldap-conf.ldif" d in
  lo_ldifs o = ["ipa-cldap-conf.ldif"] /\ lo_raised o = None
  /\ lo_after o = d.
Proof.
  intros d broken o.
  destruct (add_plugin_conf_spec TestDirectory.conn broken "CLDAP"
              "ipa_cldap" "ipa-cldap-conf.ldif" d) as (Hl & Hr & Ha).
  split; [|split].
  - destruct Hl as [[H _]|[_ H]]; [exact H|].
    exfalso. apply H. reflexivity.
  - destruct (lo_raised o) as [e|] eqn:E; [|reflexivity].
    apply Hr in E as [E Hne]. vm_compute in E. injection E as <-.
    contradiction.
  - destruct Ha as [H|H]; [exact H|].
    unfold broken in H. cbn beta in H. discriminate H.
Defined.
